(** * Real-state-AI: the valuation and deal-scoring handlers of the mock API

    The development embeds the request handlers of the mock server
    (the Express file with [app.post('/api/price-estimator')],
    [app.post('/api/location-analyzer')] and [app.post('/api/deal-evaluator')])
    and the calculations of the pages that call them, and proves the
    properties the specification states about them.

    Numbers.  A JavaScript number is modelled by [JS.number]: a finite value
    is a rational, next to [Infinity], [-Infinity] and [NaN]; zero is the zero
    of the JSON literal [0] (no negative zero).  Two arithmetics work on these
    numbers.  The operations of [JS] return the exact result, in lowest terms,
    so that equal values are equal terms.  The operations of [Binary64] return
    what the engine computes: the exact result rounded to the nearest binary64
    value, a tie going to the even significand, and an infinity on overflow;
    a number is written with the digits [Number::toString] chooses.

    Handlers.  A handler is a function of the request body and of the world
    it runs in, which holds the source of [Math.random()]; it returns how the
    call ends and the world it leaves.  The [setTimeout] delays before the
    replies are not modelled.  The price estimator and the deal evaluator are
    embedded twice, statement for statement: over the exact operations
    ([PriceEstimator], [DealEvaluator]) and over those of binary64
    ([PriceEstimator64], [DealEvaluator64]).  What depends on how a result
    rounds, the closed forms of the price and of the confidence and the tier
    of a ratio, is proved of the binary64 handlers.

    Requests.  A request body is the record of its JSON fields; numeric
    fields are JSON numbers, as in the request bodies the READMEs document.
    The binary64 handlers read them as [JSON.parse] does, to the nearest
    binary64 value.  The pages post the text of [<input type="number">]
    fields, which the handlers coerce to the same numbers. *)

From Stdlib Require Import ZArith QArith Qround Qreduction Qabs Qpower.
From Stdlib Require Import String Ascii List Bool Lia Lqa DecimalString.
Import ListNotations.

Local Open Scope Q_scope.

(** ** JavaScript numbers and the built-ins the handlers call *)

Module JS.

Inductive number : Type :=
| Fin (q : Q)
| PosInf
| NegInf
| NaN.

Definition of_Z (z : Z) : number := Fin (inject_Z z).

Definition neg (x : number) : number :=
  match x with
  | Fin q => Fin (Qred (- q))
  | PosInf => NegInf
  | NegInf => PosInf
  | NaN => NaN
  end.

(** [x + y] *)
Definition add (x y : number) : number :=
  match x, y with
  | NaN, _ | _, NaN => NaN
  | Fin a, Fin b => Fin (Qred (a + b))
  | PosInf, NegInf | NegInf, PosInf => NaN
  | PosInf, _ | _, PosInf => PosInf
  | NegInf, _ | _, NegInf => NegInf
  end.

(** [x - y] *)
Definition sub (x y : number) : number := add x (neg y).

(** An infinity times (or divided by) a finite value of the given sign. *)
Definition scale_inf (inf : number) (c : comparison) : number :=
  match c with
  | Eq => NaN
  | Gt => inf
  | Lt => neg inf
  end.

(** [x * y] *)
Definition mul (x y : number) : number :=
  match x, y with
  | NaN, _ | _, NaN => NaN
  | Fin a, Fin b => Fin (Qred (a * b))
  | Fin a, inf => scale_inf inf (a ?= 0)
  | inf, Fin b => scale_inf inf (b ?= 0)
  | PosInf, PosInf | NegInf, NegInf => PosInf
  | PosInf, NegInf | NegInf, PosInf => NegInf
  end.

(** [x / y]: a finite value over zero is an infinity of its sign, and
    [0 / 0] is [NaN]. *)
Definition div (x y : number) : number :=
  match x, y with
  | NaN, _ | _, NaN => NaN
  | Fin a, Fin b =>
      match b ?= 0 with
      | Eq => scale_inf PosInf (a ?= 0)
      | _ => Fin (Qred (a / b))
      end
  | Fin _, _ => Fin 0
  | inf, Fin b => match b ?= 0 with Lt => neg inf | _ => inf end
  | _, _ => NaN
  end.

(** [x <= y]: false as soon as one side is [NaN]. *)
Definition le (x y : number) : bool :=
  match x, y with
  | NaN, _ | _, NaN => false
  | Fin a, Fin b => Qle_bool a b
  | NegInf, _ | _, PosInf => true
  | _, _ => false
  end.

(** [x >= y] *)
Definition ge (x y : number) : bool := le y x.

(** [Math.min(x, y)] *)
Definition Math_min (x y : number) : number :=
  match x, y with
  | NaN, _ | _, NaN => NaN
  | _, _ => if le x y then x else y
  end.

(** [Math.floor(x)] *)
Definition Math_floor (x : number) : number :=
  match x with
  | Fin q => of_Z (Qfloor q)
  | _ => x
  end.

(** [Math.round(x)]: the integer [floor(x + 1/2)], ties going up. *)
Definition Math_round (x : number) : number :=
  match x with
  | Fin q => of_Z (Qfloor (q + 0.5))
  | _ => x
  end.

(** The first significant decimal digit of a positive rational. *)
Fixpoint leading_digit (fuel : nat) (q : Q) : Z :=
  match fuel with
  | O => Qfloor q
  | S k =>
      if Qle_bool 10 q then leading_digit k (Qred (q / 10))
      else if Qle_bool 1 q then Qfloor q
      else leading_digit k (Qred (q * 10))
  end.

Definition size_fuel (q : Q) : nat :=
  S (Pos.size_nat (Z.to_pos (Z.abs (Qnum q))) + Pos.size_nat (Qden q)).

Definition sign_Z (q : Q) : Z := if Qle_bool 0 q then 1%Z else (-1)%Z.

Definition ten_pow (n : nat) : Q := inject_Z (10 ^ Z.of_nat n).

(** [parseInt(x)] on a number: the number is first written out
    ([ToString]) and the leading run of digits of that text is read back.
    Between [1e-6] and [1e21] the text is positional, so the result is the
    value with its fraction dropped; outside, the text is in exponent form
    ([5e-7], [1.5e+21]) and only its first digit is read. *)
Definition parseInt (x : number) : number :=
  match x with
  | Fin q =>
      let a := Qabs q in
      if Qeq_bool a 0 then of_Z 0
      else if Qle_bool (1 # 1000000) a && negb (Qle_bool (ten_pow 21) a)
      then of_Z (sign_Z q * Qfloor a)
      else of_Z (sign_Z q * leading_digit (size_fuel a) a)
  | _ => NaN
  end.

(** [parseFloat(x)] on a number: writing a number out and reading it back
    gives the number. *)
Definition parseFloat (x : number) : number := x.

Local Open Scope string_scope.

(** The decimal digits of a natural number. *)
Definition digits (n : Z) : string :=
  NilZero.string_of_uint (N.to_uint (Z.to_N n)).

Definition zeros (n : nat) : string := string_of_list_ascii (repeat "0"%char n).

(** The decimal exponent [n] of a positive rational [q]:
    [10^(n-1) <= q < 10^n]. *)
Fixpoint exponent_up (fuel : nat) (q : Q) (n : Z) : Z :=
  match fuel with
  | O => n
  | S k => if Qle_bool 1 q then exponent_up k (Qred (q / 10)) (n + 1) else n
  end.

Fixpoint exponent_down (fuel : nat) (q : Q) (n : Z) : Z :=
  match fuel with
  | O => n
  | S k =>
      if Qle_bool (1 # 10) q then n else exponent_down k (Qred (q * 10)) (n - 1)
  end.

Definition exponent (q : Q) : Z :=
  if Qle_bool 1 q then exponent_up (size_fuel q) q 0
  else exponent_down (size_fuel q) q 0.

Definition pow10 (e : Z) : Q :=
  if (0 <=? e)%Z then inject_Z (10 ^ e) else / inject_Z (10 ^ (- e)).

Fixpoint strip_zeros (fuel : nat) (s : Z) : Z :=
  match fuel with
  | O => s
  | S k => if (s mod 10 =? 0)%Z then strip_zeros k (s / 10) else s
  end.

(** The significand and exponent [ToString] prints: the digits of [q], at
    most 17 of them (a decimal of up to 17 significant digits is printed
    digit for digit), and [n] with [q] about [0.s * 10^n]. *)
Definition significand (q : Q) : Z * Z :=
  let n := exponent q in
  let s := Qfloor (q * pow10 (17 - n) + 0.5) in
  if (s =? 10 ^ 17)%Z then (1%Z, (n + 1)%Z) else (strip_zeros 17 s, n).

Definition signed_exponent (e : Z) : string :=
  (if (0 <=? e)%Z then "+" else "-") ++ digits (Z.abs e).

(** [Number::toString(x)] in radix 10, the text of [${x}]. *)
Definition ToString (x : number) : string :=
  match x with
  | NaN => "NaN"
  | PosInf => "Infinity"
  | NegInf => "-Infinity"
  | Fin q =>
      if Qeq_bool q 0 then "0"
      else
        let '(s, n) := significand (Qabs q) in
        let d := digits s in
        let k := Z.of_nat (String.length d) in
        let body :=
          if ((k <=? n) && (n <=? 21))%Z then
            d ++ zeros (Z.to_nat (n - k))
          else if ((0 <? n) && (n <=? 21))%Z then
            substring 0 (Z.to_nat n) d ++ "." ++
            substring (Z.to_nat n) (Z.to_nat (k - n)) d
          else if ((-6 <? n) && (n <=? 0))%Z then
            "0." ++ zeros (Z.to_nat (- n)) ++ d
          else if (k =? 1)%Z then
            d ++ "e" ++ signed_exponent (n - 1)
          else
            substring 0 1 d ++ "." ++ substring 1 (Z.to_nat (k - 1)) d ++
            "e" ++ signed_exponent (n - 1)
        in
        (if Qle_bool 0 q then "" else "-") ++ body
  end.

(** [x.toFixed(f)]: the integer [n] nearest to [|x| * 10^f] (the larger one
    on a tie), written with [f] digits after the point; from [1e21] on, and
    for the non-finite values, the text of [ToString]. *)
Definition toFixed (x : number) (f : nat) : string :=
  match x with
  | Fin q =>
      let a := Qabs q in
      if Qle_bool (ten_pow 21) a then ToString x
      else
        let n := Qfloor (a * ten_pow f + 0.5) in
        let m := digits n in
        let m := zeros (S f - String.length m) ++ m in
        let k := String.length m in
        let body :=
          match f with
          | O => m
          | _ => substring 0 (k - f) m ++ "." ++ substring (k - f) f m
          end
        in
        (if Qle_bool 0 q then "" else "-") ++ body
  | _ => ToString x
  end.

(** [ToBoolean] of a number, as [||] and [!] test it: zero and [NaN] are
    false. *)
Definition truthy (x : number) : bool :=
  match x with
  | Fin q => negb (Qeq_bool q 0)
  | NaN => false
  | _ => true
  end.

Local Close Scope string_scope.

End JS.

(** ** The environment of a handler *)

Module Env.

(** What a handler can observe besides its request: the values
    [Math.random()] is going to return, and how many were drawn. *)
Record World : Type := {
  random_source : nat -> JS.number;
  random_drawn : nat
}.

Definition Handler (A : Type) : Type := World -> A * World.

Definition ret {A : Type} (a : A) : Handler A := fun w => (a, w).

Definition bind {A B : Type} (m : Handler A) (k : A -> Handler B) : Handler B :=
  fun w => let (a, w') := m w in k a w'.

(** [Math.random()] *)
Definition Math_random : Handler JS.number :=
  fun w =>
    (random_source w (random_drawn w),
     {| random_source := random_source w; random_drawn := S (random_drawn w) |}).

(** The error of the specification's contracts: the offending field and the
    violated constraint. *)
Inductive InvalidInput : Type :=
| invalid_input (field constraint : string).

(** How a call ends: a JSON body sent back, or an error.  The handlers below
    end in [res.json]; no statement of the server builds [Failed]. *)
Inductive outcome (A : Type) : Type :=
| Responded (body : A)
| Failed (e : InvalidInput).

Arguments Responded {A} body.
Arguments Failed {A} e.

(** [res.json(body)] *)
Definition res_json {A : Type} (body : A) : Handler (outcome A) :=
  ret (Responded body).

(** The reply does not depend on the world the handler runs in. *)
Definition deterministic {A : Type} (h : Handler A) : Prop :=
  forall w1 w2 : World, fst (h w1) = fst (h w2).

(** Two calls in a row, the second in the world the first one left. *)
Definition twice {A : Type} (h : Handler A) : Handler (A * A) :=
  bind h (fun first => bind h (fun second => ret (first, second))).

(** [xs[i]]: [None] is [undefined]. *)
Definition index {A : Type} (xs : list A) (i : JS.number) : option A :=
  match i with
  | JS.Fin q =>
      if Qle_bool 0 q && Qeq_bool q (inject_Z (Qfloor q))
      then nth_error xs (Z.to_nat (Qfloor q))
      else None
  | _ => None
  end.

(** A property of an object literal with string keys: [None] is
    [undefined]. *)
Fixpoint property (o : list (string * JS.number)) (key : string)
  : option JS.number :=
  match o with
  | [] => None
  | (k, v) :: rest => if String.eqb k key then Some v else property rest key
  end.

(** [ToNumber] of a looked-up property: [undefined] becomes [NaN] (and so
    does what a key such as [toString] finds on the prototype, which is not
    a number either). *)
Definition ToNumber (v : option JS.number) : JS.number :=
  match v with
  | Some n => n
  | None => JS.NaN
  end.



(** A number as it crosses the JSON boundary: [NaN] and the infinities are
    written [null]. *)
Definition json_number (x : JS.number) : option JS.number :=
  match x with
  | JS.Fin _ => Some x
  | _ => None
  end.

(** [v || d] on a field read from [response.data]; [None] is a field that
    is missing or [null].  A number is replaced when it is zero or [NaN], a
    string when it is empty, an object or an array never. *)
Definition or_number (v : option JS.number) (d : JS.number) : JS.number :=
  match v with
  | Some x => if JS.truthy x then x else d
  | None => d
  end.

Definition or_string (v : option string) (d : string) : string :=
  match v with
  | Some x => if String.eqb x "" then d else x
  | None => d
  end.

Definition or_object {A : Type} (v : option A) (d : A) : A :=
  match v with
  | Some x => x
  | None => d
  end.

End Env.

Declare Scope handler_scope.
Delimit Scope handler_scope with handler.
Notation "x <- m ;; k" := (Env.bind m (fun x => k))
  (at level 61, m at next level, right associativity) : handler_scope.

(** ** Binary64: the arithmetic of the engine

    The numbers of the engine are the binary64 values: a finite one is
    [m * 2^e] with [|m| < 2^53] and [-1074 <= e <= 971].  An operator gives
    the value nearest to the exact result, a tie going to the even [m], and an
    infinity when that lies at [2^1024] or beyond.  The operators of this
    module round the exact results of [JS] in this way.  The zero they return
    carries no sign. *)

Module Binary64.
Import JS.

(** [2^e], the bits shifted rather than multiplied. *)
Definition pow2 (e : Z) : Q :=
  if (0 <=? e)%Z then inject_Z (Z.shiftl 1 e)
  else / inject_Z (Z.shiftl 1 (- e)).

(** The binary exponent [e] of a positive rational [q]:
    [2^e <= q < 2^(e+1)]. *)
Definition ilog2 (q : Q) : Z :=
  let e := (Z.log2 (Qnum q) - Z.log2 (Z.pos (Qden q)))%Z in
  if Qle_bool (pow2 e) q then e else (e - 1)%Z.

(** The integer nearest to [q], the even one of the two on a tie. *)
Definition nearest_even (q : Q) : Z :=
  let f := Qfloor q in
  match Qcompare (q - inject_Z f) (1 # 2) with
  | Lt => f
  | Gt => (f + 1)%Z
  | Eq => if Z.even f then f else (f + 1)%Z
  end.

(** The distance between the binary64 values around a positive [q]: 52 bits
    after the leading one, and [2^-1074] below [2^-1022]. *)
Definition ulp (q : Q) : Q := pow2 (Z.max (ilog2 q) (-1022) - 52).

(** The multiple of [ulp q] nearest to a positive [q]. *)
Definition nearest (q : Q) : Q :=
  inject_Z (nearest_even (q / ulp q)) * ulp q.

Definition round_positive (q : Q) : number :=
  let r := nearest q in
  if Qle_bool (pow2 1024) r then PosInf else Fin (Qred r).

(** The binary64 value of an exact result. *)
Definition round (x : number) : number :=
  match x with
  | Fin q =>
      match q ?= 0 with
      | Eq => Fin 0
      | Gt => round_positive q
      | Lt => neg (round_positive (- q))
      end
  | _ => x
  end.

(** A rational that is a binary64 value. *)
Definition representable (q : Q) : Prop := round (Fin q) = Fin (Qred q).

(** The number half of [h]. *)
Definition half (h : Z) : number := Fin (Qred (inject_Z h / 2)).

(** A numeric literal of the source, such as [1.2] or [0.85]. *)
Definition lit (q : Q) : number := round (Fin q).

(** A number of the request body, as [JSON.parse] reads its decimal text. *)
Definition read (x : number) : number := round x.

(** [x + y], [x - y], [x * y] and [x / y] *)
Definition add (x y : number) : number := round (JS.add x y).

Definition sub (x y : number) : number := round (JS.sub x y).

Definition mul (x y : number) : number := round (JS.mul x y).

Definition div (x y : number) : number := round (JS.div x y).

(** The decimal [Number::toString] writes for a positive binary64 value [q]
    of decimal exponent [n]: of the decimals that read back as [q], one with
    the fewest significant digits, and among those the nearest to [q].  With
    [k] digits the candidates are the two multiples of [10^(n-k)] around [q];
    seventeen digits always read back. *)
Fixpoint shortest (fuel : nat) (k : Z) (q : Q) (n : Z) : Q :=
  match fuel with
  | O => q
  | S fuel' =>
      let unit := pow10 (n - k) in
      let s := Qfloor (q / unit) in
      let lo := inject_Z s * unit in
      let hi := lo + unit in
      let reads c :=
        match round (Fin c) with
        | Fin r => Qeq_bool r q
        | _ => false
        end in
      match reads lo, reads hi with
      | true, true =>
          match Qcompare (q - lo) (hi - q) with
          | Lt => lo
          | Gt => hi
          | Eq => if Z.even s then lo else hi
          end
      | true, false => lo
      | false, true => hi
      | false, false => shortest fuel' (k + 1)%Z q n
      end
  end.

Definition decimal (x : number) : number :=
  match x with
  | Fin q =>
      match q ?= 0 with
      | Eq => x
      | Gt => Fin (Qred (shortest 17 1 q (exponent q)))
      | Lt => Fin (Qred (- shortest 17 1 (- q) (exponent (- q))))
      end
  | _ => x
  end.

(** [Number::toString(x)], the text of [${x}]. *)
Definition ToString (x : number) : string := JS.ToString (decimal x).

(** [parseInt(x)] reads the leading digits of that text. *)
Definition parseInt (x : number) : number := JS.parseInt (decimal x).

(** [x.toFixed(f)] works on the exact value of [x] below [1e21]. *)
Definition toFixed (x : number) (f : nat) : string :=
  match x with
  | Fin q =>
      if Qle_bool (ten_pow 21) (Qabs q) then ToString x else JS.toFixed x f
  | _ => JS.ToString x
  end.

End Binary64.

(** ** [app.post('/api/price-estimator')] *)

Module PriceEstimator.
Import JS Env.

Record Request : Type := {
  propertyType : string;
  bedrooms : number;
  bathrooms : number;
  area : number;
  location : string
}.

Inductive Impact : Type := Positive | Negative | Neutral.

Record Factor : Type := {
  factor : string;
  impact : Impact;
  description : string
}.

Record Response : Type := {
  estimatedPrice : number;
  confidence : number;
  factors : list Factor;
  message : string
}.

Definition typeMultiplier : list (string * number) :=
  [ ("House"%string, Fin 1.2);
    ("Apartment"%string, Fin 1.0);
    ("Land"%string, Fin 0.8) ].

Local Open Scope string_scope.

(** The object the handler passes to [res.json]. *)
Definition response (body : Request) : Response :=
  let propertyType := propertyType body in
  let bedrooms := bedrooms body in
  let bathrooms := bathrooms body in
  let area := area body in
  let location := location body in
  let basePrice := of_Z 250000 in
  let bedroomMultiplier := mul (parseInt bedrooms) (of_Z 25000) in
  let bathroomMultiplier := mul (parseFloat bathrooms) (of_Z 15000) in
  let areaMultiplier := mul (parseInt area) (of_Z 100) in
  let estimatedPrice :=
    Math_round
      (mul (add (add (add basePrice bedroomMultiplier) bathroomMultiplier)
              areaMultiplier)
           (ToNumber (property typeMultiplier propertyType))) in
  let confidence :=
    Math_min (of_Z 95)
      (add (add (add (of_Z 70) (mul bedrooms (of_Z 2)))
              (mul bathrooms (of_Z 3)))
           (div area (of_Z 100))) in
  let factors :=
    [ {| factor := "Property Type";
         impact := Positive;
         description :=
           propertyType ++ " properties have good market value in this area" |};
      {| factor := "Location";
         impact := Positive;
         description :=
           location ++ " is a desirable location with good amenities" |};
      {| factor := "Size";
         impact := Positive;
         description :=
           ToString area ++
           " sq.ft provides adequate living space for the market" |};
      {| factor := "Bedrooms";
         impact := if ge bedrooms (of_Z 3) then Positive else Neutral;
         description :=
           ToString bedrooms ++ " bedrooms " ++
           (if ge bedrooms (of_Z 3) then "meet strong market demand"
            else "are adequate for the area") |} ] in
  {| estimatedPrice := estimatedPrice;
     confidence := Math_round confidence;
     factors := factors;
     message := "Price estimate generated successfully" |}.

Local Close Scope string_scope.

(** The handler: the body is computed (after the 1.5 s timer) and sent. *)
Definition handler (body : Request) : Handler (outcome Response) :=
  res_json (response body).

End PriceEstimator.

(** ** [app.post('/api/location-analyzer')] *)

Module LocationAnalyzer.
Import JS Env.

Record Request : Type := { location : string }.

Record Summary : Type := {
  overallScore : number;
  rating : string;
  summary_description : string
}.

Record Response : Type := {
  safetyRating : option string;
  nearbySchools : list string;
  transportAccess : list string;
  summary : option Summary;
  message : string
}.

Local Open Scope string_scope.

Definition safetyRatings : list string := ["A+"; "A"; "B+"; "B"; "C+"].

Definition nearbySchools_all : list string :=
  [ "Lincoln Elementary School (0.5 miles)";
    "Riverside Middle School (1.2 miles)";
    "Central High School (1.8 miles)";
    "St. Mary's Academy (2.1 miles)";
    "Oakwood Charter School (2.5 miles)";
    "Maple Elementary School (1.0 miles)";
    "Valley Middle School (1.5 miles)";
    "Riverside High School (2.0 miles)" ].

Definition transportAccess_all : list string :=
  [ "Metro Station - 0.3 miles";
    "Bus Stop #15 - 0.1 miles";
    "Bus Stop #23 - 0.4 miles";
    "Train Station - 1.5 miles";
    "Bike Path Access - 0.2 miles";
    "Express Bus Route - 0.6 miles";
    "Park & Ride - 2.0 miles";
    "Light Rail Station - 1.8 miles" ].

Definition summaries : list Summary :=
  [ {| overallScore := of_Z 85;
       rating := "Excellent";
       summary_description :=
         "This location offers excellent amenities, good schools, and convenient transportation access." |};
    {| overallScore := of_Z 78;
       rating := "Good";
       summary_description :=
         "A solid neighborhood with good schools and decent transportation options." |};
    {| overallScore := of_Z 92;
       rating := "Excellent";
       summary_description :=
         "Premium location with top-rated schools and excellent transport connectivity." |} ].

Local Close Scope string_scope.
Local Open Scope handler_scope.

(** [xs.length] *)
Definition length_of {A : Type} (xs : list A) : number :=
  of_Z (Z.of_nat (List.length xs)).

(** The handler draws twice from [Math.random()]: once for the safety
    rating, once for the summary. *)
Definition handler (body : Request) : Handler (outcome Response) :=
  r1 <- Math_random ;;
  let safetyRating := index safetyRatings (Math_floor (mul r1 (length_of safetyRatings))) in
  r2 <- Math_random ;;
  let summary := index summaries (Math_floor (mul r2 (length_of summaries))) in
  res_json
    {| safetyRating := safetyRating;
       nearbySchools := firstn 5 nearbySchools_all;
       transportAccess := firstn 5 transportAccess_all;
       summary := summary;
       message := "Location analysis completed successfully"%string |}.

End LocationAnalyzer.

(** ** [app.post('/api/deal-evaluator')] *)

Module DealEvaluator.
Import JS Env.

Record Request : Type := {
  propertyPrice : number;
  estimatedMarketValue : number;
  location : string
}.

Inductive DealScore : Type := Buy | Hold | Avoid.

Record Response : Type := {
  dealScore : DealScore;
  confidenceLevel : number;
  aiExplanation : string;
  message : string
}.

(** The three [let] variables the branches assign. *)
Record Verdict : Type := {
  v_dealScore : DealScore;
  v_confidenceLevel : number;
  v_aiExplanation : string
}.

Local Open Scope string_scope.

(** The [if ... else if ...] chain on [priceRatio].  The variables start
    as [init]; every branch, the last [else] included, assigns all three. *)
Definition verdict (priceRatio : number) : Verdict :=
  let init :=
    {| v_dealScore := Avoid; v_confidenceLevel := of_Z 70; v_aiExplanation := "" |} in
  if le priceRatio (Fin 0.85) then
    {| v_dealScore := Buy;
       v_confidenceLevel := of_Z 90;
       v_aiExplanation :=
         "This is an excellent buying opportunity. The property is priced at " ++
         toFixed (mul priceRatio (of_Z 100)) 1 ++
         "% of its estimated market value, representing a " ++
         toFixed (mul (sub (of_Z 1) priceRatio) (of_Z 100)) 1 ++
         "% discount. This suggests strong potential for appreciation and good value for your investment." |}
  else if le priceRatio (Fin 0.95) then
    {| v_dealScore := Buy;
       v_confidenceLevel := of_Z 80;
       v_aiExplanation :=
         "This is a good buying opportunity. The property is priced at " ++
         toFixed (mul priceRatio (of_Z 100)) 1 ++
         "% of its estimated market value, offering a reasonable discount. The location and market conditions support this investment decision." |}
  else if le priceRatio (Fin 1.05) then
    {| v_dealScore := Hold;
       v_confidenceLevel := of_Z 75;
       v_aiExplanation :=
         "This property is priced close to its estimated market value (" ++
         toFixed (mul priceRatio (of_Z 100)) 1 ++
         "%). While not a bargain, it may be worth considering if you're looking for a stable investment in a good location. Monitor for price changes." |}
  else if le priceRatio (Fin 1.15) then
    {| v_dealScore := Hold;
       v_confidenceLevel := of_Z 70;
       v_aiExplanation :=
         "This property is priced above its estimated market value (" ++
         toFixed (mul priceRatio (of_Z 100)) 1 ++
         "%). Consider waiting for a price reduction or negotiating better terms. The premium may be justified by unique features or location benefits." |}
  else
    {| v_dealScore := Avoid;
       v_confidenceLevel := of_Z 85;
       v_aiExplanation :=
         "This property is significantly overpriced at " ++
         toFixed (mul priceRatio (of_Z 100)) 1 ++
         "% of its estimated market value. The " ++
         toFixed (mul (sub priceRatio (of_Z 1)) (of_Z 100)) 1 ++
         "% premium is too high for a sound investment. Consider other options or wait for price adjustments." |}.

(** The object the handler passes to [res.json]. *)
Definition response (body : Request) : Response :=
  let priceRatio := div (propertyPrice body) (estimatedMarketValue body) in
  let v := verdict priceRatio in
  {| dealScore := v_dealScore v;
     confidenceLevel := v_confidenceLevel v;
     aiExplanation := v_aiExplanation v;
     message := "Deal evaluation completed successfully" |}.

Local Close Scope string_scope.

(** The handler: the body is computed (after the 1.8 s timer) and sent. *)
Definition handler (body : Request) : Handler (outcome Response) :=
  res_json (response body).

End DealEvaluator.

(** ** The two calculations in binary64

    [app.post('/api/price-estimator')] and [app.post('/api/deal-evaluator')]
    once more, statement for statement, with the numbers of the body read by
    [JSON.parse] and every operator rounding as the engine does. *)

Module PriceEstimator64.
Import JS Env.
Import PriceEstimator (Positive, Neutral).

Definition typeMultiplier : list (string * number) :=
  [ ("House"%string, Binary64.lit 1.2);
    ("Apartment"%string, Binary64.lit 1.0);
    ("Land"%string, Binary64.lit 0.8) ].

Local Open Scope string_scope.

(** The object the handler passes to [res.json]. *)
Definition response (body : PriceEstimator.Request) : PriceEstimator.Response :=
  let propertyType := PriceEstimator.propertyType body in
  let bedrooms := Binary64.read (PriceEstimator.bedrooms body) in
  let bathrooms := Binary64.read (PriceEstimator.bathrooms body) in
  let area := Binary64.read (PriceEstimator.area body) in
  let location := PriceEstimator.location body in
  let basePrice := of_Z 250000 in
  let bedroomMultiplier :=
    Binary64.mul (Binary64.parseInt bedrooms) (of_Z 25000) in
  let bathroomMultiplier := Binary64.mul (parseFloat bathrooms) (of_Z 15000) in
  let areaMultiplier := Binary64.mul (Binary64.parseInt area) (of_Z 100) in
  let estimatedPrice :=
    Math_round
      (Binary64.mul
         (Binary64.add
            (Binary64.add (Binary64.add basePrice bedroomMultiplier)
               bathroomMultiplier)
            areaMultiplier)
         (ToNumber (property typeMultiplier propertyType))) in
  let confidence :=
    Math_min (of_Z 95)
      (Binary64.add
         (Binary64.add
            (Binary64.add (of_Z 70) (Binary64.mul bedrooms (of_Z 2)))
            (Binary64.mul bathrooms (of_Z 3)))
         (Binary64.div area (of_Z 100))) in
  let factors :=
    [ {| PriceEstimator.factor := "Property Type";
         PriceEstimator.impact := Positive;
         PriceEstimator.description :=
           propertyType ++ " properties have good market value in this area" |};
      {| PriceEstimator.factor := "Location";
         PriceEstimator.impact := Positive;
         PriceEstimator.description :=
           location ++ " is a desirable location with good amenities" |};
      {| PriceEstimator.factor := "Size";
         PriceEstimator.impact := Positive;
         PriceEstimator.description :=
           Binary64.ToString area ++
           " sq.ft provides adequate living space for the market" |};
      {| PriceEstimator.factor := "Bedrooms";
         PriceEstimator.impact :=
           if ge bedrooms (of_Z 3) then Positive else Neutral;
         PriceEstimator.description :=
           Binary64.ToString bedrooms ++ " bedrooms " ++
           (if ge bedrooms (of_Z 3) then "meet strong market demand"
            else "are adequate for the area") |} ] in
  {| PriceEstimator.estimatedPrice := estimatedPrice;
     PriceEstimator.confidence := Math_round confidence;
     PriceEstimator.factors := factors;
     PriceEstimator.message := "Price estimate generated successfully" |}.

Local Close Scope string_scope.

Definition handler (body : PriceEstimator.Request)
  : Handler (outcome PriceEstimator.Response) :=
  res_json (response body).

End PriceEstimator64.

Module DealEvaluator64.
Import JS Env.
Import DealEvaluator (Buy, Hold, Avoid).

(** [const priceRatio = propertyPrice / estimatedMarketValue] *)
Definition priceRatio (body : DealEvaluator.Request) : number :=
  Binary64.div (Binary64.read (DealEvaluator.propertyPrice body))
               (Binary64.read (DealEvaluator.estimatedMarketValue body)).

Local Open Scope string_scope.

(** The [if ... else if ...] chain on [priceRatio]. *)
Definition verdict (priceRatio : number) : DealEvaluator.Verdict :=
  if le priceRatio (Binary64.lit 0.85) then
    {| DealEvaluator.v_dealScore := Buy;
       DealEvaluator.v_confidenceLevel := of_Z 90;
       DealEvaluator.v_aiExplanation :=
         "This is an excellent buying opportunity. The property is priced at " ++
         Binary64.toFixed (Binary64.mul priceRatio (of_Z 100)) 1 ++
         "% of its estimated market value, representing a " ++
         Binary64.toFixed
           (Binary64.mul (Binary64.sub (of_Z 1) priceRatio) (of_Z 100)) 1 ++
         "% discount. This suggests strong potential for appreciation and good value for your investment." |}
  else if le priceRatio (Binary64.lit 0.95) then
    {| DealEvaluator.v_dealScore := Buy;
       DealEvaluator.v_confidenceLevel := of_Z 80;
       DealEvaluator.v_aiExplanation :=
         "This is a good buying opportunity. The property is priced at " ++
         Binary64.toFixed (Binary64.mul priceRatio (of_Z 100)) 1 ++
         "% of its estimated market value, offering a reasonable discount. The location and market conditions support this investment decision." |}
  else if le priceRatio (Binary64.lit 1.05) then
    {| DealEvaluator.v_dealScore := Hold;
       DealEvaluator.v_confidenceLevel := of_Z 75;
       DealEvaluator.v_aiExplanation :=
         "This property is priced close to its estimated market value (" ++
         Binary64.toFixed (Binary64.mul priceRatio (of_Z 100)) 1 ++
         "%). While not a bargain, it may be worth considering if you're looking for a stable investment in a good location. Monitor for price changes." |}
  else if le priceRatio (Binary64.lit 1.15) then
    {| DealEvaluator.v_dealScore := Hold;
       DealEvaluator.v_confidenceLevel := of_Z 70;
       DealEvaluator.v_aiExplanation :=
         "This property is priced above its estimated market value (" ++
         Binary64.toFixed (Binary64.mul priceRatio (of_Z 100)) 1 ++
         "%). Consider waiting for a price reduction or negotiating better terms. The premium may be justified by unique features or location benefits." |}
  else
    {| DealEvaluator.v_dealScore := Avoid;
       DealEvaluator.v_confidenceLevel := of_Z 85;
       DealEvaluator.v_aiExplanation :=
         "This property is significantly overpriced at " ++
         Binary64.toFixed (Binary64.mul priceRatio (of_Z 100)) 1 ++
         "% of its estimated market value. The " ++
         Binary64.toFixed
           (Binary64.mul (Binary64.sub priceRatio (of_Z 1)) (of_Z 100)) 1 ++
         "% premium is too high for a sound investment. Consider other options or wait for price adjustments." |}.

(** The object the handler passes to [res.json]. *)
Definition response (body : DealEvaluator.Request) : DealEvaluator.Response :=
  let v := verdict (priceRatio body) in
  {| DealEvaluator.dealScore := DealEvaluator.v_dealScore v;
     DealEvaluator.confidenceLevel := DealEvaluator.v_confidenceLevel v;
     DealEvaluator.aiExplanation := DealEvaluator.v_aiExplanation v;
     DealEvaluator.message := "Deal evaluation completed successfully" |}.

Local Close Scope string_scope.

Definition handler (body : DealEvaluator.Request)
  : Handler (outcome DealEvaluator.Response) :=
  res_json (response body).

End DealEvaluator64.

(** ** The DealEvaluator page: the calculation in the [catch] branch of
    [handleSubmit], run when the call to the API fails *)

Module DealEvaluatorPage.
Import JS Env.
Import DealEvaluator (DealScore, Buy, Hold, Avoid).

(** What [setEvaluation] receives. *)
Record Evaluation : Type := {
  dealScore : DealScore;
  confidenceLevel : number;
  aiExplanation : string
}.

Local Open Scope string_scope.

(** [formData] is the request body the page posts. *)
Definition fallback (formData : DealEvaluator.Request) : Evaluation :=
  let propertyPrice := parseFloat (DealEvaluator.propertyPrice formData) in
  let marketValue := parseFloat (DealEvaluator.estimatedMarketValue formData) in
  let priceRatio := div propertyPrice marketValue in
  if le priceRatio (Fin 0.85) then
    {| dealScore := Buy;
       confidenceLevel := of_Z 90;
       aiExplanation :=
         "This is an excellent buying opportunity. The property is priced at " ++
         toFixed (mul priceRatio (of_Z 100)) 1 ++
         "% of its estimated market value, representing a " ++
         toFixed (mul (sub (of_Z 1) priceRatio) (of_Z 100)) 1 ++
         "% discount. This suggests strong potential for appreciation and good value for your investment." |}
  else if le priceRatio (Fin 0.95) then
    {| dealScore := Buy;
       confidenceLevel := of_Z 80;
       aiExplanation :=
         "This is a good buying opportunity. The property is priced at " ++
         toFixed (mul priceRatio (of_Z 100)) 1 ++
         "% of its estimated market value, offering a reasonable discount. The location and market conditions support this investment decision." |}
  else if le priceRatio (Fin 1.05) then
    {| dealScore := Hold;
       confidenceLevel := of_Z 75;
       aiExplanation :=
         "This property is priced close to its estimated market value (" ++
         toFixed (mul priceRatio (of_Z 100)) 1 ++
         "%). While not a bargain, it may be worth considering if you're looking for a stable investment in a good location. Monitor for price changes." |}
  else if le priceRatio (Fin 1.15) then
    {| dealScore := Hold;
       confidenceLevel := of_Z 70;
       aiExplanation :=
         "This property is priced above its estimated market value (" ++
         toFixed (mul priceRatio (of_Z 100)) 1 ++
         "%). Consider waiting for a price reduction or negotiating better terms. The premium may be justified by unique features or location benefits." |}
  else
    {| dealScore := Avoid;
       confidenceLevel := of_Z 85;
       aiExplanation :=
         "This property is significantly overpriced at " ++
         toFixed (mul priceRatio (of_Z 100)) 1 ++
         "% of its estimated market value. The " ++
         toFixed (mul (sub priceRatio (of_Z 1)) (of_Z 100)) 1 ++
         "% premium is too high for a sound investment. Consider other options or wait for price adjustments." |}.

(** [response.data] as the page reads it. *)
Record Data : Type := {
  data_dealScore : option DealScore;
  data_confidenceLevel : option number;
  data_aiExplanation : option string
}.

(** The body the server sent, once through JSON. *)
Definition received (body : DealEvaluator.Response) : Data :=
  {| data_dealScore := Some (DealEvaluator.dealScore body);
     data_confidenceLevel := json_number (DealEvaluator.confidenceLevel body);
     data_aiExplanation := Some (DealEvaluator.aiExplanation body) |}.

(** What [setEvaluation] receives in the [try] branch of [handleSubmit]. *)
Definition from_api (data : Data) : Evaluation :=
  {| dealScore := or_object (data_dealScore data) Buy;
     confidenceLevel := or_number (data_confidenceLevel data) (of_Z 85);
     aiExplanation :=
       or_string (data_aiExplanation data)
         "This appears to be a good investment opportunity based on the price-to-value ratio and market conditions." |}.

Definition getDealScoreColor (score : DealScore) : string :=
  match score with
  | Buy => "text-green-600"
  | Hold => "text-yellow-600"
  | _ => "text-red-600"
  end.

Definition getDealScoreBgColor (score : DealScore) : string :=
  match score with
  | Buy => "bg-green-100 text-green-800"
  | Hold => "bg-yellow-100 text-yellow-800"
  | _ => "bg-red-100 text-red-800"
  end.

Definition getConfidenceColor (level : number) : string :=
  if ge level (of_Z 85) then "text-green-600"
  else if ge level (of_Z 70) then "text-blue-600"
  else "text-yellow-600".

Local Close Scope string_scope.

End DealEvaluatorPage.

(** ** The PriceEstimator page: the calculation in the [catch] branch of
    [handleSubmit] *)

Module PriceEstimatorPage.
Import JS Env.

(** What [setEstimate] receives. *)
Record Estimate : Type := {
  price : number;
  confidence : number;
  factors : list PriceEstimator.Factor
}.

Definition typeMultiplier : list (string * number) :=
  [ ("House"%string, Fin 1.2);
    ("Apartment"%string, Fin 1.0);
    ("Land"%string, Fin 0.8) ].

Local Open Scope string_scope.

(** [formData] is the request body the page posts. *)
Definition fallback (formData : PriceEstimator.Request) : Estimate :=
  let basePrice := of_Z 250000 in
  let bedroomMultiplier :=
    mul (parseInt (PriceEstimator.bedrooms formData)) (of_Z 25000) in
  let bathroomMultiplier :=
    mul (parseFloat (PriceEstimator.bathrooms formData)) (of_Z 15000) in
  let areaMultiplier :=
    mul (parseInt (PriceEstimator.area formData)) (of_Z 100) in
  let estimatedPrice :=
    mul (add (add (add basePrice bedroomMultiplier) bathroomMultiplier)
           areaMultiplier)
        (ToNumber (property typeMultiplier
                     (PriceEstimator.propertyType formData))) in
  {| price := Math_round estimatedPrice;
     confidence := of_Z 85;
     factors :=
       [ {| PriceEstimator.factor := "Property Type";
            PriceEstimator.impact := PriceEstimator.Positive;
            PriceEstimator.description :=
              PriceEstimator.propertyType formData ++
              " properties have good market value" |};
         {| PriceEstimator.factor := "Location";
            PriceEstimator.impact := PriceEstimator.Positive;
            PriceEstimator.description :=
              PriceEstimator.location formData ++ " is a desirable area" |};
         {| PriceEstimator.factor := "Size";
            PriceEstimator.impact := PriceEstimator.Positive;
            PriceEstimator.description :=
              ToString (PriceEstimator.area formData) ++
              " sq.ft provides good living space" |};
         {| PriceEstimator.factor := "Bedrooms";
            PriceEstimator.impact := PriceEstimator.Positive;
            PriceEstimator.description :=
              ToString (PriceEstimator.bedrooms formData) ++
              " bedrooms meet market demand" |} ] |}.

Local Close Scope string_scope.

End PriceEstimatorPage.

(** ** The LocationAnalyzer page: what [handleSubmit] stores, and the colour
    of a rating *)

Module LocationAnalyzerPage.
Import JS Env.

(** What [setAnalysis] receives. *)
Record Analysis : Type := {
  safetyRating : string;
  nearbySchools : list string;
  transportAccess : list string;
  summary : LocationAnalyzer.Summary
}.

(** [response.data] as the page reads it. *)
Record Data : Type := {
  data_safetyRating : option string;
  data_nearbySchools : option (list string);
  data_transportAccess : option (list string);
  data_summary : option LocationAnalyzer.Summary
}.

(** The body the server sent, once through JSON: a field that is
    [undefined] is left out. *)
Definition received (body : LocationAnalyzer.Response) : Data :=
  {| data_safetyRating := LocationAnalyzer.safetyRating body;
     data_nearbySchools := Some (LocationAnalyzer.nearbySchools body);
     data_transportAccess := Some (LocationAnalyzer.transportAccess body);
     data_summary := LocationAnalyzer.summary body |}.

Local Open Scope string_scope.

Definition default_summary : LocationAnalyzer.Summary :=
  {| LocationAnalyzer.overallScore := of_Z 85;
     LocationAnalyzer.rating := "Excellent";
     LocationAnalyzer.summary_description :=
       "This location offers excellent amenities, good schools, and convenient transportation access." |}.

(** The [try] branch of [handleSubmit]. *)
Definition from_api (data : Data) : Analysis :=
  {| safetyRating := or_string (data_safetyRating data) "A+";
     nearbySchools :=
       or_object (data_nearbySchools data)
         [ "Lincoln Elementary School (0.5 miles)";
           "Riverside Middle School (1.2 miles)";
           "Central High School (1.8 miles)";
           "St. Mary's Academy (2.1 miles)" ];
     transportAccess :=
       or_object (data_transportAccess data)
         [ "Metro Station - 0.3 miles";
           "Bus Stop #15 - 0.1 miles";
           "Bus Stop #23 - 0.4 miles";
           "Train Station - 1.5 miles" ];
     summary := or_object (data_summary data) default_summary |}.

(** The [catch] branch of [handleSubmit]. *)
Definition fallback : Analysis :=
  {| safetyRating := "A+";
     nearbySchools :=
       [ "Lincoln Elementary School (0.5 miles)";
         "Riverside Middle School (1.2 miles)";
         "Central High School (1.8 miles)";
         "St. Mary's Academy (2.1 miles)";
         "Oakwood Charter School (2.5 miles)" ];
     transportAccess :=
       [ "Metro Station - 0.3 miles";
         "Bus Stop #15 - 0.1 miles";
         "Bus Stop #23 - 0.4 miles";
         "Train Station - 1.5 miles";
         "Bike Path Access - 0.2 miles" ];
     summary := default_summary |}.

Definition getRatingColor (rating : string) : string :=
  if String.eqb rating "A+" || String.eqb rating "A"
  then "bg-green-100 text-green-800"
  else if String.eqb rating "B+" || String.eqb rating "B"
  then "bg-blue-100 text-blue-800"
  else if String.eqb rating "C+" || String.eqb rating "C"
  then "bg-yellow-100 text-yellow-800"
  else "bg-red-100 text-red-800".

Local Close Scope string_scope.

End LocationAnalyzerPage.

(** ** The specification's formulas (sections 3 and 4 of the specification) *)

Module Spec.
Import JS.

(** Section 3: [propertyType] is one of three values. *)
Inductive PropertyType : Type := House | Apartment | Land.

Definition name (t : PropertyType) : string :=
  match t with
  | House => "House"
  | Apartment => "Apartment"
  | Land => "Land"
  end.

(** Section 4.1: [typeMultiplier = House: 1.2, Apartment: 1.0, Land: 0.8]. *)
Definition typeMultiplier (t : PropertyType) : Q :=
  match t with
  | House => 1.2
  | Apartment => 1.0
  | Land => 0.8
  end.

(** Rounding to the nearest unit, a half going up. *)
Definition round (q : Q) : Z := Qfloor (q + 0.5).

(** Section 4.1, the closed form of the price. *)
Definition estimatedPrice (t : PropertyType) (bedrooms bathrooms area : Q) : Z :=
  let base := 250000 in
  let bedroomComponent := bedrooms * 25000 in
  let bathroomComponent := bathrooms * 15000 in
  let areaComponent := area * 100 in
  round ((base + bedroomComponent + bathroomComponent + areaComponent)
         * typeMultiplier t).

(** Section 4.1:
    [confidence = min(95, round(70 + bedrooms*2 + bathrooms*3 + area/100))]. *)
Definition confidence (bedrooms bathrooms area : Q) : Z :=
  Z.min 95 (round (70 + bedrooms * 2 + bathrooms * 3 + area / 100)).

(** Section 3, the invariant of a [PriceEstimateRequest]: [propertyType] is
    one of the three values and the numeric fields are within their ranges.
    Bedrooms and area are whole numbers: their form fields step by one, the
    README grants decimals to bathrooms only, and the handler reads both with
    [parseInt].  Bathrooms may be any number of the range, the halves of the
    form included. *)
Definition Valid (req : PriceEstimator.Request)
    (t : PropertyType) (bedrooms : Z) (bathrooms : Q) (area : Z) : Prop :=
  PriceEstimator.propertyType req = name t /\
  PriceEstimator.bedrooms req = of_Z bedrooms /\ (0 <= bedrooms <= 10)%Z /\
  PriceEstimator.bathrooms req = Fin bathrooms /\ 0 <= bathrooms <= 10 /\
  PriceEstimator.area req = of_Z area /\ (100 <= area <= 50000)%Z.

(** Section 3, a [DealEvaluationRequest] with a positive price [p] and a
    positive market value [m]. *)
Definition PositiveDeal (req : DealEvaluator.Request) (p m : Q) : Prop :=
  DealEvaluator.propertyPrice req = Fin p /\ 0 < p /\
  DealEvaluator.estimatedMarketValue req = Fin m /\ 0 < m.

(** A response carries the given score and confidence level. *)
Definition gives (resp : DealEvaluator.Response)
    (score : DealEvaluator.DealScore) (level : Z) : Prop :=
  DealEvaluator.dealScore resp = score /\
  DealEvaluator.confidenceLevel resp = of_Z level.

(** Section 3: bathrooms come in steps of a half, as the form field of the
    page makes them. *)
Definition Halves (bathrooms : Q) : Prop :=
  exists k : Z, bathrooms == inject_Z k / 2.

End Spec.

(** ** Examples of requests *)

Module Examples.
Import JS Env.

Definition world : World :=
  {| random_source := fun _ => Fin 0; random_drawn := 0 |}.

(** The house of section 8: four bedrooms, three bathrooms, 2500 sq.ft. *)
Definition house : PriceEstimator.Request :=
  {| PriceEstimator.propertyType := "House";
     PriceEstimator.bedrooms := of_Z 4;
     PriceEstimator.bathrooms := of_Z 3;
     PriceEstimator.area := of_Z 2500;
     PriceEstimator.location := "San Francisco, CA" |}.

Definition apartment : PriceEstimator.Request :=
  {| PriceEstimator.propertyType := "Apartment";
     PriceEstimator.bedrooms := of_Z 2;
     PriceEstimator.bathrooms := Fin 1.5;
     PriceEstimator.area := of_Z 150;
     PriceEstimator.location := "Miami, FL" |}.

Definition larger_apartment : PriceEstimator.Request :=
  {| PriceEstimator.propertyType := "Apartment";
     PriceEstimator.bedrooms := of_Z 3;
     PriceEstimator.bathrooms := of_Z 2;
     PriceEstimator.area := of_Z 1200;
     PriceEstimator.location := "Miami, FL" |}.

(** The deal of section 8: 350000 asked for a value of 400000. *)
Definition deal : DealEvaluator.Request :=
  {| DealEvaluator.propertyPrice := of_Z 350000;
     DealEvaluator.estimatedMarketValue := of_Z 400000;
     DealEvaluator.location := "San Francisco, CA" |}.

(** The same price for a market value of zero, and of [-400000]. *)
Definition deal_zero_value : DealEvaluator.Request :=
  {| DealEvaluator.propertyPrice := of_Z 350000;
     DealEvaluator.estimatedMarketValue := of_Z 0;
     DealEvaluator.location := "San Francisco, CA" |}.

Definition deal_negative_value : DealEvaluator.Request :=
  {| DealEvaluator.propertyPrice := of_Z 350000;
     DealEvaluator.estimatedMarketValue := of_Z (-400000);
     DealEvaluator.location := "San Francisco, CA" |}.

(** Twice the price and twice the value of [deal], somewhere else. *)
Definition deal_doubled : DealEvaluator.Request :=
  {| DealEvaluator.propertyPrice := of_Z 700000;
     DealEvaluator.estimatedMarketValue := of_Z 800000;
     DealEvaluator.location := "Austin, TX" |}.

(** The house of section 8 with eleven bedrooms, one more than the range
    allows. *)
Definition house_eleven_bedrooms : PriceEstimator.Request :=
  {| PriceEstimator.propertyType := "House";
     PriceEstimator.bedrooms := of_Z 11;
     PriceEstimator.bathrooms := of_Z 3;
     PriceEstimator.area := of_Z 2500;
     PriceEstimator.location := "San Francisco, CA" |}.

(** The house of section 8 with a property type outside the three. *)
Definition castle : PriceEstimator.Request :=
  {| PriceEstimator.propertyType := "Castle";
     PriceEstimator.bedrooms := of_Z 4;
     PriceEstimator.bathrooms := of_Z 3;
     PriceEstimator.area := of_Z 2500;
     PriceEstimator.location := "San Francisco, CA" |}.

(** A world whose generator returns 0, 1/2, 0, 1/2, ... *)
Definition alternating_world : World :=
  {| random_source := fun n => if Nat.even n then Fin 0 else Fin 0.5;
     random_drawn := 1 |}.

End Examples.

(** ** Readings and requests for the further properties *)

Module Ranking.

(** The scores from the most to the least favourable. *)
Definition severity (score : DealEvaluator.DealScore) : Z :=
  match score with
  | DealEvaluator.Buy => 0
  | DealEvaluator.Hold => 1
  | DealEvaluator.Avoid => 2
  end.

(** The pairs of a score and a confidence level the [if] chain can assign. *)
Definition verdicts : list (DealEvaluator.DealScore * JS.number) :=
  [ (DealEvaluator.Buy, JS.of_Z 90); (DealEvaluator.Buy, JS.of_Z 80);
    (DealEvaluator.Hold, JS.of_Z 75); (DealEvaluator.Hold, JS.of_Z 70);
    (DealEvaluator.Avoid, JS.of_Z 85) ].

(** The numeric fields of a request are finite numbers [b], [ba] and [a],
    whole or not, and its [propertyType] is [t]. *)
Definition Numbers (req : PriceEstimator.Request)
    (t : Spec.PropertyType) (b ba a : Q) : Prop :=
  PriceEstimator.propertyType req = Spec.name t /\
  PriceEstimator.bedrooms req = JS.Fin b /\
  PriceEstimator.bathrooms req = JS.Fin ba /\
  PriceEstimator.area req = JS.Fin a.

End Ranking.

Module Cases.
Import JS Env.

(** The numbers of [Examples.apartment] for a plot of land and for a
    house. *)
Definition land : PriceEstimator.Request :=
  {| PriceEstimator.propertyType := "Land";
     PriceEstimator.bedrooms := of_Z 2;
     PriceEstimator.bathrooms := Fin 1.5;
     PriceEstimator.area := of_Z 150;
     PriceEstimator.location := "Miami, FL" |}.

Definition small_house : PriceEstimator.Request :=
  {| PriceEstimator.propertyType := "House";
     PriceEstimator.bedrooms := of_Z 2;
     PriceEstimator.bathrooms := Fin 1.5;
     PriceEstimator.area := of_Z 150;
     PriceEstimator.location := "Miami, FL" |}.

(** Two and a half bedrooms on 1500.5 sq.ft. *)
Definition fractional : PriceEstimator.Request :=
  {| PriceEstimator.propertyType := "Apartment";
     PriceEstimator.bedrooms := Fin 2.5;
     PriceEstimator.bathrooms := Fin 1.5;
     PriceEstimator.area := Fin 1500.5;
     PriceEstimator.location := "Miami, FL" |}.

(** A deal above its value: 500000 asked for a value of 400000. *)
Definition overpriced : DealEvaluator.Request :=
  {| DealEvaluator.propertyPrice := of_Z 500000;
     DealEvaluator.estimatedMarketValue := of_Z 400000;
     DealEvaluator.location := "Austin, TX" |}.


(** A price that is 1.15 times the value when both are read as decimals:
    3.45 for 3. *)
Definition at_bound : DealEvaluator.Request :=
  {| DealEvaluator.propertyPrice := Fin 3.45;
     DealEvaluator.estimatedMarketValue := of_Z 3;
     DealEvaluator.location := "Austin, TX" |}.

(** The same ratio with the value as the unit: 1.15 for 1. *)
Definition unit_value : DealEvaluator.Request :=
  {| DealEvaluator.propertyPrice := Fin 1.15;
     DealEvaluator.estimatedMarketValue := of_Z 1;
     DealEvaluator.location := "Austin, TX" |}.

(** Two whole amounts whose ratio is above 1.15 by less than binary64
    tells. *)
Definition past_bound : DealEvaluator.Request :=
  {| DealEvaluator.propertyPrice := of_Z 4600000000000015;
     DealEvaluator.estimatedMarketValue := of_Z 4000000000000013;
     DealEvaluator.location := "Austin, TX" |}.

(** The house of section 8 with a number of bathrooms off the halves. *)
Definition odd_bathrooms : PriceEstimator.Request :=
  {| PriceEstimator.propertyType := "House";
     PriceEstimator.bedrooms := of_Z 4;
     PriceEstimator.bathrooms := Fin 0.03124999999999999;
     PriceEstimator.area := of_Z 2500;
     PriceEstimator.location := "San Francisco, CA" |}.

(** Whole amounts at the same bound: 460000 for 400000. *)
Definition whole_at_bound : DealEvaluator.Request :=
  {| DealEvaluator.propertyPrice := of_Z 460000;
     DealEvaluator.estimatedMarketValue := of_Z 400000;
     DealEvaluator.location := "Austin, TX" |}.


End Cases.

(** * Proofs *)

Import JS Env.

(** ** Numbers *)

Lemma add_Fin (a b : Q) : add (Fin a) (Fin b) = Fin (Qred (a + b)).
Proof. reflexivity. Qed.

Lemma mul_Fin (a b : Q) : mul (Fin a) (Fin b) = Fin (Qred (a * b)).
Proof. reflexivity. Qed.

Lemma mul_NaN (x : number) : mul x NaN = NaN.
Proof. destruct x; reflexivity. Qed.

Lemma div_Fin (a b : Q) :
  ~ b == 0 -> div (Fin a) (Fin b) = Fin (Qred (a / b)).
Proof.
  intros Hb. unfold div.
  destruct (b ?= 0) eqn:E; try reflexivity.
  apply Qeq_alt in E. contradiction.
Qed.

Lemma le_Fin (a b : Q) : le (Fin a) (Fin b) = Qle_bool a b.
Proof. reflexivity. Qed.

Lemma Math_min_Fin (a b : Q) :
  Math_min (Fin a) (Fin b) = if Qle_bool a b then Fin a else Fin b.
Proof. reflexivity. Qed.

Lemma Math_round_Fin (q : Q) : Math_round (Fin q) = of_Z (Spec.round q).
Proof. reflexivity. Qed.

Create Rewrite HintDb finite.
#[local] Hint Rewrite add_Fin mul_Fin le_Fin Math_min_Fin Math_round_Fin
  : finite.

Lemma Qle_bool_false (a b : Q) : Qle_bool a b = false -> b < a.
Proof.
  intros E. apply Qnot_le_lt. intros H.
  apply Qle_bool_iff in H. congruence.
Qed.

(** A test [a <= b] taken both ways, with what it says in each. *)
Ltac case_le a b :=
  let E := fresh "E" in
  destruct (Qle_bool a b) eqn:E;
  [apply Qle_bool_iff in E | apply Qle_bool_false in E].

Lemma Qle_bool_Qred (r c : Q) : Qle_bool (Qred r) c = Qle_bool r c.
Proof.
  case_le r c.
  - apply Qle_bool_iff. now rewrite Qred_correct.
  - apply not_true_is_false. intros H. apply Qle_bool_iff in H.
    rewrite Qred_correct in H. lra.
Qed.

Lemma Qfloor_ge (z : Z) (q : Q) : inject_Z z <= q -> (z <= Qfloor q)%Z.
Proof.
  intros H. rewrite <- (Qfloor_Z z). now apply Qfloor_resp_le.
Qed.

Lemma Qfloor_lt (z : Z) (q : Q) : q < inject_Z z -> (Qfloor q < z)%Z.
Proof.
  intros H. rewrite Zlt_Qlt.
  eapply Qle_lt_trans; [apply Qfloor_le | exact H].
Qed.

Lemma round_comp (x y : Q) : x == y -> Spec.round x = Spec.round y.
Proof. intros H. unfold Spec.round. now rewrite H. Qed.

(** [Spec.round] gives an integer at distance at most one half. *)
Lemma round_nearest (q : Q) :
  Qabs (inject_Z (Spec.round q) - q) <= 0.5.
Proof.
  unfold Spec.round.
  pose proof (Qfloor_le (q + 0.5)) as Hlo.
  pose proof (Qlt_floor (q + 0.5)) as Hhi.
  rewrite inject_Z_plus in Hhi. change (inject_Z 1) with 1 in Hhi.
  apply Qabs_Qle_condition. split; lra.
Qed.

(** Rounding and capping commute: [Math.round(Math.min(95, x))] is
    [min(95, round(x))]. *)
Lemma round_min_95 (x : Q) :
  Math_round (Math_min (of_Z 95) (Fin x)) = of_Z (Z.min 95 (Spec.round x)).
Proof.
  unfold of_Z at 1. rewrite Math_min_Fin.
  change (inject_Z 95) with 95.
  case_le 95 x.
  - rewrite Z.min_l; [reflexivity |].
    apply Qfloor_ge. change (inject_Z 95) with 95. lra.
  - rewrite Math_round_Fin, Z.min_r; [reflexivity |].
    apply Z.lt_succ_r, Qfloor_lt. change (inject_Z (Z.succ 95)) with 96.
    lra.
Qed.

Lemma le_whole (x y : Z) : le (of_Z x) (of_Z y) = (x <=? y)%Z.
Proof.
  unfold of_Z. rewrite le_Fin.
  destruct (x <=? y)%Z eqn:E.
  - apply Qle_bool_iff. rewrite <- Zle_Qle. now apply Z.leb_le.
  - apply not_true_is_false. intros H. apply Qle_bool_iff in H.
    rewrite <- Zle_Qle in H. apply Z.leb_le in H. congruence.
Qed.

Lemma ge_whole (x y : Z) : ge (of_Z x) (of_Z y) = (y <=? x)%Z.
Proof. exact (le_whole y x). Qed.

(** [parseInt] gives a whole number of the positional range back. *)
Lemma parseInt_whole (z : Z) :
  (0 <= z < 10 ^ 21)%Z -> parseInt (of_Z z) = of_Z z.
Proof.
  intros [H0 H1]. unfold parseInt, of_Z.
  assert (Ha : Qabs (inject_Z z) = inject_Z z).
  { unfold Qabs, inject_Z. now rewrite Z.abs_eq. }
  rewrite Ha.
  destruct (Z.eq_dec z 0) as [-> | Hz]; [reflexivity |].
  replace (Qeq_bool (inject_Z z) 0) with false.
  2:{ symmetry. apply not_true_is_false. intros E. apply Qeq_bool_iff in E.
      unfold Qeq, inject_Z in E. simpl in E. lia. }
  replace (Qle_bool (1 # 1000000) (inject_Z z)) with true.
  2:{ symmetry. apply Qle_bool_iff. unfold Qle, inject_Z. simpl. lia. }
  replace (Qle_bool (ten_pow 21) (inject_Z z)) with false.
  2:{ symmetry. apply not_true_is_false. intros E. apply Qle_bool_iff in E.
      unfold ten_pow in E. rewrite <- Zle_Qle in E.
      change (Z.of_nat 21) with 21%Z in E. lia. }
  cbn [andb negb].
  replace (sign_Z (inject_Z z)) with 1%Z.
  2:{ unfold sign_Z. replace (Qle_bool 0 (inject_Z z)) with true; [reflexivity |].
      symmetry. apply Qle_bool_iff. unfold Qle, inject_Z. simpl. lia. }
  rewrite Qfloor_Z. now rewrite Z.mul_1_l.
Qed.

(** Off the whole numbers the handler does not use a field as it stands:
    [parseInt] drops the fraction of two and a half bedrooms, and reads the
    first digit of a number small enough to be written [5e-7]. *)
Lemma parseInt_off_whole_numbers :
  parseInt (Fin 2.5) = of_Z 2 /\ parseInt (Fin 0.0000005) = of_Z 5.
Proof. split; reflexivity. Qed.

(** The text of a number: positional between [1e-6] and [1e21], with an
    exponent outside; [toFixed] rounds a tie away from zero. *)
Lemma number_text :
  ToString (of_Z 2500) = "2500"%string
  /\ ToString (Fin 2.5) = "2.5"%string
  /\ ToString (Fin 0.0000005) = "5e-7"%string
  /\ ToString (of_Z (10 ^ 21)) = "1e+21"%string
  /\ toFixed (Fin 87.5) 1 = "87.5"%string
  /\ toFixed (Fin 0.25) 1 = "0.3"%string
  /\ toFixed (Fin (- 0.04)) 1 = "-0.0"%string
  /\ toFixed PosInf 1 = "Infinity"%string.
Proof. repeat split; vm_compute; reflexivity. Qed.

(** ** Binary64 *)

Lemma pow2_spec (e : Z) : Binary64.pow2 e == 2 ^ e.
Proof.
  unfold Binary64.pow2.
  destruct (0 <=? e)%Z eqn:E.
  - apply Z.leb_le in E.
    rewrite Z.shiftl_mul_pow2, Z.mul_1_l by exact E.
    now rewrite Zpower_Qpower.
  - apply Z.leb_gt in E.
    rewrite Z.shiftl_mul_pow2, Z.mul_1_l by lia.
    rewrite Zpower_Qpower by lia.
    rewrite <- Qpower_opp. now rewrite Z.opp_involutive.
Qed.

Lemma pow2_pos (e : Z) : 0 < Binary64.pow2 e.
Proof. rewrite pow2_spec. now apply Qpower_0_lt. Qed.

Lemma pow2_add (a b : Z) :
  Binary64.pow2 (a + b) == Binary64.pow2 a * Binary64.pow2 b.
Proof. rewrite !pow2_spec. now apply Qpower_plus. Qed.

Lemma pow2_le (a b : Z) : (a <= b)%Z -> Binary64.pow2 a <= Binary64.pow2 b.
Proof. intros H. rewrite !pow2_spec. apply Qpower_le_compat_l; [exact H | lra]. Qed.

Lemma pow2_lt_inv (a b : Z) : Binary64.pow2 a < Binary64.pow2 b -> (a < b)%Z.
Proof.
  rewrite !pow2_spec. intros H.
  apply (Qpower_lt_compat_l_inv 2); [exact H | lra].
Qed.

Lemma pow2_whole (e : Z) : (0 <= e)%Z -> Binary64.pow2 e == inject_Z (2 ^ e).
Proof. intros H. rewrite pow2_spec. now rewrite Zpower_Qpower. Qed.

Lemma pow2_succ (e : Z) : Binary64.pow2 (e + 1) == 2 * Binary64.pow2 e.
Proof. rewrite pow2_add. change (Binary64.pow2 1) with 2. ring. Qed.

Lemma ilog2_spec (q : Q) :
  0 < q ->
  Binary64.pow2 (Binary64.ilog2 q) <= q < Binary64.pow2 (Binary64.ilog2 q + 1).
Proof.
  intros Hq.
  destruct q as [n d].
  assert (Hn : (0 < n)%Z) by (unfold Qlt in Hq; simpl in Hq; lia).
  unfold Binary64.ilog2. cbn [Qnum Qden].
  set (ln := Z.log2 n). set (ld := Z.log2 (Z.pos d)).
  destruct (Z.log2_spec n Hn) as [Hn1 Hn2]. fold ln in Hn1, Hn2.
  destruct (Z.log2_spec (Z.pos d) eq_refl) as [Hd1 Hd2]. fold ld in Hd1, Hd2.
  assert (Hln : (0 <= ln)%Z) by apply Z.log2_nonneg.
  assert (Hld : (0 <= ld)%Z) by apply Z.log2_nonneg.
  set (A := Binary64.pow2 ln). set (B := Binary64.pow2 ld).
  assert (HA : 0 < A) by apply pow2_pos.
  assert (HB : 0 < B) by apply pow2_pos.
  set (N := inject_Z n). set (D := inject_Z (Z.pos d)).
  assert (HN1 : A <= N).
  { unfold A, N. rewrite pow2_whole by exact Hln. now rewrite <- Zle_Qle. }
  assert (HN2 : N < 2 * A).
  { unfold A, N. rewrite <- pow2_succ, pow2_whole by lia. now rewrite <- Zlt_Qlt. }
  assert (HD1 : B <= D).
  { unfold B, D. rewrite pow2_whole by exact Hld. now rewrite <- Zle_Qle. }
  assert (HD2 : D < 2 * B).
  { unfold B, D. rewrite <- pow2_succ, pow2_whole by lia. now rewrite <- Zlt_Qlt. }
  assert (Hq' : n # d == N / D) by apply Qmake_Qdiv.
  assert (HD : 0 < D) by lra.
  assert (E0 : Binary64.pow2 (ln - ld) == A / B).
  { unfold A, B. rewrite !pow2_spec. apply Qpower_minus. lra. }
  assert (Hup : N / D < 2 * (A / B)).
  { apply Qlt_shift_div_r; [exact HD |].
    apply Qlt_le_trans with (2 * A); [exact HN2 |].
    setoid_replace (2 * A) with (2 * (A / B) * B) by (field; lra).
    apply Qmult_le_l; [| exact HD1].
    apply Qmult_lt_0_compat; [lra |]. apply Qlt_shift_div_l; lra. }
  assert (Hlo : A / B / 2 < N / D).
  { apply Qlt_shift_div_l; [exact HD |].
    apply Qlt_le_trans with A; [| exact HN1].
    setoid_replace A with (A / B / 2 * (2 * B)) at 2 by (field; lra).
    apply Qmult_lt_l; [| exact HD2].
    apply Qlt_shift_div_l; [lra |]. rewrite Qmult_0_l.
    apply Qlt_shift_div_l; lra. }
  case_le (Binary64.pow2 (ln - ld)) (n # d).
  - split; [exact E |].
    rewrite pow2_succ, E0, Hq'. exact Hup.
  - replace (ln - ld - 1 + 1)%Z with (ln - ld)%Z by lia.
    split; [| exact E].
    assert (E1 : Binary64.pow2 (ln - ld - 1) == A / B / 2).
    { assert (H2 := pow2_succ (ln - ld - 1)).
      replace (ln - ld - 1 + 1)%Z with (ln - ld)%Z in H2 by lia.
      rewrite E0 in H2. 
      assert (0 < Binary64.pow2 (ln - ld - 1)) by apply pow2_pos.
      apply Qmult_inj_l with 2; [lra |]. rewrite <- H2. field. lra. }
    rewrite E1, Hq'. apply Qlt_le_weak. exact Hlo.
Qed.

Lemma ilog2_lt (q : Q) (e : Z) :
  0 < q -> q < Binary64.pow2 e -> (Binary64.ilog2 q < e)%Z.
Proof.
  intros Hq H. apply pow2_lt_inv.
  destruct (ilog2_spec q Hq) as [Hlo _]. lra.
Qed.

Lemma Qfloor_eq (z : Z) (q : Q) :
  inject_Z z <= q -> q < inject_Z (z + 1) -> Qfloor q = z.
Proof.
  intros Hlo Hhi.
  pose proof (Qfloor_ge z q Hlo). pose proof (Qfloor_lt (z + 1) q Hhi). lia.
Qed.

Lemma nearest_even_whole (q : Q) (z : Z) :
  q == inject_Z z -> Binary64.nearest_even q = z.
Proof.
  intros H. unfold Binary64.nearest_even.
  rewrite (Qfloor_comp _ _ H), Qfloor_Z.
  replace (Qcompare (q - inject_Z z) (1 # 2)) with Lt; [reflexivity |].
  symmetry. apply (proj1 (Qlt_alt _ _)). lra.
Qed.

Lemma nearest_even_error (q : Q) :
  Qabs (inject_Z (Binary64.nearest_even q) - q) <= 1 # 2.
Proof.
  unfold Binary64.nearest_even.
  pose proof (Qfloor_le q) as Hlo.
  pose proof (Qlt_floor q) as Hhi.
  rewrite inject_Z_plus in Hhi. change (inject_Z 1) with 1 in Hhi.
  apply Qabs_Qle_condition.
  destruct (Qcompare (q - inject_Z (Qfloor q)) (1 # 2)) eqn:E.
  - apply (proj2 (Qeq_alt _ _)) in E.
    destruct (Z.even (Qfloor q));
      rewrite ?inject_Z_plus; change (inject_Z 1) with 1; split; lra.
  - apply (proj2 (Qlt_alt _ _)) in E. split; lra.
  - apply (proj2 (Qgt_alt _ _)) in E.
    rewrite inject_Z_plus. change (inject_Z 1) with 1. split; lra.
Qed.

Lemma Qred_whole (z : Z) : Qred (inject_Z z) = inject_Z z.
Proof.
  unfold Qred, inject_Z.
  pose proof (Z.ggcd_gcd z 1) as Hg.
  pose proof (Z.ggcd_correct_divisors z 1) as Hd.
  destruct (Z.ggcd z 1) as (g & a & b). cbn [fst snd] in *.
  rewrite Z.gcd_1_r in Hg. subst g. destruct Hd as [Ha Hb].
  rewrite Z.mul_1_l in Ha, Hb. subst a. subst b. reflexivity.
Qed.

Lemma Fin_Qred (q q' : Q) : q == q' -> Fin (Qred q) = Fin (Qred q').
Proof. intros H. f_equal. now apply Qred_complete. Qed.

Lemma Fin_whole (q : Q) (z : Z) : q == inject_Z z -> Fin (Qred q) = of_Z z.
Proof.
  intros H. unfold of_Z. rewrite <- (Qred_whole z). now apply Fin_Qred.
Qed.

(** A positive multiple of [2^j] with at most 53 bits is a binary64 value. *)
Lemma round_dyadic (q : Q) (n j : Z) :
  0 < q -> q == inject_Z n * Binary64.pow2 j ->
  (-1074 <= j)%Z -> q < Binary64.pow2 (j + 53) -> (j <= 970)%Z ->
  Binary64.round (Fin q) = Fin (Qred q).
Proof.
  intros Hq Hn Hj Hlt Hj'.
  unfold Binary64.round.
  replace (q ?= 0) with Gt by (symmetry; now apply (proj1 (Qgt_alt _ _))).
  unfold Binary64.round_positive, Binary64.nearest, Binary64.ulp.
  set (p := (Z.max (Binary64.ilog2 q) (-1022) - 52)%Z).
  assert (Hp : (p <= j)%Z).
  { pose proof (ilog2_lt q (j + 53) Hq Hlt). unfold p. lia. }
  assert (HP : 0 < Binary64.pow2 p) by apply pow2_pos.
  assert (Hy : q / Binary64.pow2 p == inject_Z (n * 2 ^ (j - p))).
  { rewrite Hn. replace j with ((j - p) + p)%Z at 1 by lia.
    rewrite pow2_add, (pow2_whole (j - p)) by lia.
    rewrite inject_Z_mult. field. lra. }
  rewrite (nearest_even_whole _ _ Hy).
  assert (Hr : inject_Z (n * 2 ^ (j - p)) * Binary64.pow2 p == q).
  { rewrite <- Hy. field. lra. }
  replace (Qle_bool (Binary64.pow2 1024) (inject_Z (n * 2 ^ (j - p)) * Binary64.pow2 p))
    with false.
  - now apply Fin_Qred.
  - symmetry. apply not_true_is_false. intros E. apply Qle_bool_iff in E.
    rewrite Hr in E.
    assert (Binary64.pow2 (j + 53) <= Binary64.pow2 1024) by (apply pow2_le; lia).
    lra.
Qed.

Lemma round_zero (q : Q) : q == 0 -> Binary64.round (Fin q) = Fin 0.
Proof.
  intros H. unfold Binary64.round.
  replace (q ?= 0) with Eq; [reflexivity |]. symmetry. now apply (proj1 (Qeq_alt _ _)).
Qed.

(** The whole numbers below [2^53] are binary64 values. *)
Lemma round_whole (q : Q) (z : Z) :
  q == inject_Z z -> (0 <= z < 2 ^ 53)%Z -> Binary64.round (Fin q) = of_Z z.
Proof.
  intros H Hz.
  destruct (Z.eq_dec z 0) as [-> | Hz0].
  - now apply round_zero.
  - rewrite <- (Fin_whole q z H).
    apply (round_dyadic q z 0); try lia.
    + rewrite H. change 0 with (inject_Z 0). rewrite <- Zlt_Qlt. lia.
    + rewrite H. change (Binary64.pow2 0) with 1. ring.
    + rewrite H, pow2_whole by lia. rewrite <- Zlt_Qlt. simpl. lia.
Qed.

(** So are the halves below [2^52]. *)
Lemma round_half (q : Q) (h : Z) :
  q == inject_Z h / 2 -> (0 <= h < 2 ^ 53)%Z ->
  Binary64.round (Fin q) = Binary64.half h.
Proof.
  intros H Hh. unfold Binary64.half.
  destruct (Z.eq_dec h 0) as [-> | Hh0].
  - rewrite round_zero; [reflexivity |]. rewrite H. reflexivity.
  - rewrite <- (Fin_Qred q _ H).
    assert (Hh' : 0 < inject_Z h).
    { change 0 with (inject_Z 0). rewrite <- Zlt_Qlt. lia. }
    assert (Hh2 : inject_Z h < inject_Z (2 ^ 53)) by (rewrite <- Zlt_Qlt; lia).
    apply (round_dyadic q h (-1)); try lia.
    + rewrite H. apply Qlt_shift_div_l; lra.
    + rewrite H. change (Binary64.pow2 (-1)) with (/ 2). field.
    + rewrite H, pow2_whole by lia. simpl (-1 + 53)%Z.
      apply Qlt_shift_div_r; [lra |].
      setoid_replace (inject_Z (2 ^ 52) * 2) with (inject_Z (2 ^ 53))
        by reflexivity.
      exact Hh2.
Qed.

(** Rounding a positive result below [2^(e+1)] moves it by at most half the
    distance [2^(e-52)] between the binary64 values there. *)
Lemma round_error (q : Q) (e : Z) :
  0 < q -> q < Binary64.pow2 (e + 1) -> (-1022 <= e <= 1000)%Z ->
  exists r : Q,
    Binary64.round (Fin q) = Fin r /\ Qabs (r - q) <= Binary64.pow2 (e - 53).
Proof.
  intros Hq Hlt He.
  unfold Binary64.round.
  replace (q ?= 0) with Gt by (symmetry; now apply (proj1 (Qgt_alt _ _))).
  unfold Binary64.round_positive, Binary64.nearest, Binary64.ulp.
  set (p := (Z.max (Binary64.ilog2 q) (-1022) - 52)%Z).
  assert (Hp : (p <= e - 52)%Z).
  { pose proof (ilog2_lt q (e + 1) Hq Hlt). unfold p. lia. }
  set (U := Binary64.pow2 p).
  assert (HU : 0 < U) by apply pow2_pos.
  assert (HU' : U <= 2 * Binary64.pow2 (e - 53)).
  { rewrite <- pow2_succ. apply pow2_le. lia. }
  set (ne := Binary64.nearest_even (q / U)).
  pose proof (nearest_even_error (q / U)) as Hne. fold ne in Hne.
  apply Qabs_Qle_condition in Hne. destruct Hne as [Hne1 Hne2].
  set (d := inject_Z ne - q / U) in *.
  assert (Hr : inject_Z ne * U - q == d * U) by (unfold d; field; lra).
  assert (Hd1 : - ((1 # 2) * U) <= d * U).
  { setoid_replace (- ((1 # 2) * U)) with (- (1 # 2) * U) by ring.
    apply Qmult_le_compat_r; lra. }
  assert (Hd2 : d * U <= (1 # 2) * U).
  { apply Qmult_le_compat_r; lra. }
  assert (Hb : Qabs (inject_Z ne * U - q) <= Binary64.pow2 (e - 53)).
  { apply Qabs_Qle_condition. rewrite Hr. split; lra. }
  assert (Hfin : Qle_bool (Binary64.pow2 1024) (inject_Z ne * U) = false).
  { apply not_true_is_false. intros E. apply Qle_bool_iff in E.
    apply Qabs_Qle_condition in Hb. destruct Hb as [_ Hb].
    assert (H1 : Binary64.pow2 (e - 53) <= Binary64.pow2 (e + 1))
      by (apply pow2_le; lia).
    assert (H2 : 2 * Binary64.pow2 (e + 1) <= Binary64.pow2 1024).
    { rewrite <- pow2_succ. apply pow2_le. lia. }
    lra. }
  rewrite Hfin. eexists. split; [reflexivity |].
  now rewrite Qred_correct.
Qed.

Lemma mul_whole (x y : Z) :
  (0 <= x * y < 2 ^ 53)%Z ->
  Binary64.mul (of_Z x) (of_Z y) = of_Z (x * y).
Proof.
  intros H. unfold Binary64.mul, of_Z. rewrite mul_Fin.
  apply round_whole; [| exact H].
  now rewrite Qred_correct, inject_Z_mult.
Qed.

Lemma add_whole (x y : Z) :
  (0 <= x + y < 2 ^ 53)%Z ->
  Binary64.add (of_Z x) (of_Z y) = of_Z (x + y).
Proof.
  intros H. unfold Binary64.add, of_Z. rewrite add_Fin.
  apply round_whole; [| exact H].
  now rewrite Qred_correct, inject_Z_plus.
Qed.

Lemma half_even (z : Z) : Binary64.half (2 * z) = of_Z z.
Proof.
  unfold Binary64.half. apply Fin_whole.
  rewrite inject_Z_mult. field.
Qed.

Lemma mul_half (h y : Z) :
  (0 <= h * y < 2 ^ 53)%Z ->
  Binary64.mul (Binary64.half h) (of_Z y) = Binary64.half (h * y).
Proof.
  intros H. unfold Binary64.mul, Binary64.half at 1, of_Z. rewrite mul_Fin.
  apply round_half; [| exact H].
  rewrite !Qred_correct, inject_Z_mult. field.
Qed.

Lemma add_half (h1 h2 : Z) :
  (0 <= h1 + h2 < 2 ^ 53)%Z ->
  Binary64.add (Binary64.half h1) (Binary64.half h2) = Binary64.half (h1 + h2).
Proof.
  intros H. unfold Binary64.add, Binary64.half at 1 2. rewrite add_Fin.
  apply round_half; [| exact H].
  rewrite !Qred_correct, inject_Z_plus. field.
Qed.

(** The floor of [x] is that of [n / d] when [n / d] is not whole and
    [x * d] is within one of [n]. *)
Lemma Qfloor_near (n d : Z) (x : Q) :
  (0 < d)%Z -> (n mod d <> 0)%Z ->
  inject_Z (n - 1) <= x * inject_Z d -> x * inject_Z d < inject_Z (n + 1) ->
  Qfloor x = (n / d)%Z.
Proof.
  intros Hd Hr Hlo Hhi.
  pose proof (Z.div_mod n d ltac:(lia)) as E.
  pose proof (Z.mod_pos_bound n d Hd) as Hb.
  set (f := (n / d)%Z) in *. set (r := (n mod d)%Z) in *.
  assert (HD : 0 < inject_Z d).
  { change 0 with (inject_Z 0). now rewrite <- Zlt_Qlt. }
  apply Qfloor_eq.
  - apply Qmult_le_r with (inject_Z d); [exact HD |].
    eapply Qle_trans; [| exact Hlo].
    rewrite <- inject_Z_mult, <- Zle_Qle. lia.
  - apply Qmult_lt_r with (inject_Z d); [exact HD |].
    eapply Qlt_le_trans; [exact Hhi |].
    rewrite <- inject_Z_mult, <- Zle_Qle. lia.
Qed.

Lemma exponent_up_bounds (fuel : nat) :
  forall (q : Q) (n : Z) (j : nat),
    q < inject_Z (10 ^ Z.of_nat j) ->
    (n <= exponent_up fuel q n <= n + Z.of_nat j)%Z.
Proof.
  induction fuel as [| fuel IH]; intros q n j Hq; cbn [exponent_up]; [lia |].
  case_le 1 q; [| lia].
  destruct j as [| j].
  - change (inject_Z (10 ^ Z.of_nat 0)) with 1 in Hq. lra.
  - assert (Hq' : Qred (q / 10) < inject_Z (10 ^ Z.of_nat j)).
    { rewrite Qred_correct. apply Qlt_shift_div_r; [reflexivity |].
      eapply Qlt_le_trans; [exact Hq |].
      rewrite Nat2Z.inj_succ, Z.pow_succ_r by lia.
      rewrite inject_Z_mult. change (inject_Z 10) with 10. lra. }
    specialize (IH _ (n + 1)%Z _ Hq'). lia.
Qed.

Lemma exponent_whole (z : Z) (j : nat) :
  (1 <= z < 10 ^ Z.of_nat j)%Z ->
  (1 <= exponent (inject_Z z) <= Z.of_nat j)%Z.
Proof.
  intros [H1 H2]. unfold exponent.
  replace (Qle_bool 1 (inject_Z z)) with true.
  2:{ symmetry. apply Qle_bool_iff. change 1 with (inject_Z 1).
      now rewrite <- Zle_Qle. }
  unfold size_fuel. cbn [exponent_up].
  replace (Qle_bool 1 (inject_Z z)) with true.
  2:{ symmetry. apply Qle_bool_iff. change 1 with (inject_Z 1).
      now rewrite <- Zle_Qle. }
  destruct j as [| j]; [change (10 ^ Z.of_nat 0)%Z with 1%Z in H2; lia |].
  assert (Hq' : Qred (inject_Z z / 10) < inject_Z (10 ^ Z.of_nat j)).
  { rewrite Qred_correct. apply Qlt_shift_div_r; [reflexivity |].
    rewrite Nat2Z.inj_succ, Z.pow_succ_r in H2 by lia.
    rewrite <- (inject_Z_mult _ 10), <- Zlt_Qlt. lia. }
  pose proof (exponent_up_bounds
                (Pos.size_nat (Z.to_pos (Z.abs (Qnum (inject_Z z))))
                 + Pos.size_nat (Qden (inject_Z z)))
                _ (0 + 1)%Z _ Hq').
  lia.
Qed.

(** Among the whole numbers below [2^53] only [z] itself reads back as
    [z]. *)
Lemma reads_whole (c : Q) (cz z : Z) :
  c == inject_Z cz -> (0 <= cz < 2 ^ 53)%Z ->
  match Binary64.round (Fin c) with
  | Fin r => Qeq_bool r (inject_Z z)
  | _ => false
  end = (cz =? z)%Z.
Proof.
  intros Hc Hcz. rewrite (round_whole c cz Hc Hcz). unfold of_Z.
  destruct (cz =? z)%Z eqn:E.
  - apply Z.eqb_eq in E. subst. apply Qeq_bool_iff. reflexivity.
  - apply Z.eqb_neq in E. apply not_true_is_false. intros H.
    apply Qeq_bool_iff in H. apply E.
    unfold Qeq, inject_Z in H. simpl in H. lia.
Qed.

Lemma shortest_whole (fuel : nat) :
  forall (k n z : Z),
    (1 <= z < 10 ^ 15)%Z -> (1 <= k <= n)%Z -> (n <= 15)%Z ->
    (n - k < Z.of_nat fuel)%Z ->
    Binary64.shortest fuel k (inject_Z z) n == inject_Z z.
Proof.
  induction fuel as [| fuel IH]; intros k n z Hz Hk Hn Hf; [lia |].
  cbn [Binary64.shortest].
  set (u := (10 ^ (n - k))%Z).
  assert (Hu : pow10 (n - k) = inject_Z u).
  { unfold pow10. replace (0 <=? n - k)%Z with true; [reflexivity |].
    symmetry. apply Z.leb_le. lia. }
  rewrite Hu.
  assert (Hu1' : (1 <= u <= 10 ^ 14)%Z).
  { unfold u. split.
    - pose proof (Z.pow_pos_nonneg 10 (n - k)). lia.
    - apply Z.pow_le_mono_r; lia. }
  assert (Hs : Qfloor (inject_Z z / inject_Z u) = (z / u)%Z).
  { assert (E : inject_Z z / inject_Z u == z # Z.to_pos u).
    { rewrite Qmake_Qdiv. rewrite Z2Pos.id by lia. reflexivity. }
    rewrite (Qfloor_comp _ _ E). unfold Qfloor. rewrite Z2Pos.id by lia.
    reflexivity. }
  rewrite Hs.
  set (s := (z / u)%Z).
  assert (Hlo : inject_Z s * inject_Z u == inject_Z (s * u))
    by (now rewrite inject_Z_mult).
  assert (Hhi : inject_Z s * inject_Z u + inject_Z u == inject_Z (s * u + u))
    by (now rewrite inject_Z_plus, inject_Z_mult).
  pose proof (Z.div_mod z u ltac:(lia)) as Ediv. fold s in Ediv.
  pose proof (Z.mod_pos_bound z u ltac:(lia)) as Hmod.
  assert (Hs0 : (0 <= s)%Z) by (unfold s; apply Z.div_pos; lia).
  assert (Hsu : (0 <= s * u <= z)%Z) by nia.
  rewrite (reads_whole _ (s * u) z Hlo) by lia.
  rewrite (reads_whole _ (s * u + u) z Hhi) by lia.
  replace (s * u + u =? z)%Z with false by (symmetry; apply Z.eqb_neq; lia).
  destruct (s * u =? z)%Z eqn:E.
  - apply Z.eqb_eq in E. now rewrite Hlo, E.
  - apply Z.eqb_neq in E.
    assert (Hnk : (n - k <> 0)%Z).
    { intros H0. apply E. unfold s, u. rewrite H0.
      change (10 ^ 0)%Z with 1%Z. rewrite Z.div_1_r. lia. }
    apply IH; lia.
Qed.

(** A whole number below [10^15] is written with its own digits. *)
Lemma decimal_whole (z : Z) :
  (0 <= z < 10 ^ 15)%Z -> Binary64.decimal (of_Z z) = of_Z z.
Proof.
  intros Hz. unfold Binary64.decimal, of_Z.
  destruct (Z.eq_dec z 0) as [-> | Hz0]; [reflexivity |].
  replace (inject_Z z ?= 0) with Gt.
  2:{ symmetry. apply (proj1 (Qgt_alt _ _)). change 0 with (inject_Z 0).
      rewrite <- Zlt_Qlt. lia. }
  apply Fin_whole.
  pose proof (exponent_whole z 15 ltac:(change (Z.of_nat 15) with 15%Z; lia)) as He.
  change (Z.of_nat 15) with 15%Z in He.
  apply shortest_whole; lia.
Qed.

Lemma parseInt_whole64 (z : Z) :
  (0 <= z < 10 ^ 15)%Z -> Binary64.parseInt (of_Z z) = of_Z z.
Proof.
  intros Hz. unfold Binary64.parseInt.
  rewrite decimal_whole by exact Hz. apply parseInt_whole. lia.
Qed.

Lemma read_whole (z : Z) :
  (0 <= z < 2 ^ 53)%Z -> Binary64.read (of_Z z) = of_Z z.
Proof. intros Hz. apply round_whole; [reflexivity | exact Hz]. Qed.

Lemma whole_representable (z : Z) :
  (0 <= z < 2 ^ 53)%Z -> Binary64.representable (inject_Z z).
Proof.
  intros Hz. unfold Binary64.representable.
  rewrite Qred_whole. now apply round_whole.
Qed.

Lemma nearest_even_nonneg (q : Q) : 0 <= q -> (0 <= Binary64.nearest_even q)%Z.
Proof.
  intros H. unfold Binary64.nearest_even.
  assert (Hf : (0 <= Qfloor q)%Z) by (apply Qfloor_ge; exact H).
  destruct (Qcompare (q - inject_Z (Qfloor q)) (1 # 2));
    [destruct (Z.even (Qfloor q)) | |]; lia.
Qed.

(** A negative result is rounded to a number that is not positive. *)
Lemma round_negative (q : Q) (c : Q) :
  q < 0 -> 0 <= c -> le (Binary64.round (Fin q)) (Fin c) = true.
Proof.
  intros Hq Hc. unfold Binary64.round.
  replace (q ?= 0) with Lt by (symmetry; now apply (proj1 (Qlt_alt _ _))).
  unfold Binary64.round_positive, Binary64.nearest.
  set (U := Binary64.ulp (- q)).
  assert (HU : 0 < U) by apply pow2_pos.
  assert (Hy : 0 <= - q / U).
  { apply Qle_shift_div_l; [exact HU |]. lra. }
  pose proof (nearest_even_nonneg _ Hy) as Hn.
  rewrite Zle_Qle in Hn. change (inject_Z 0) with 0 in Hn.
  set (n := inject_Z (Binary64.nearest_even (- q / U))) in *.
  destruct (Qle_bool (Binary64.pow2 1024) (n * U)); [reflexivity |].
  cbn [neg le]. apply Qle_bool_iff. rewrite !Qred_correct.
  assert (0 <= n * U) by (apply Qmult_le_0_compat; lra). lra.
Qed.

(** *** Rounding keeps the order *)

Lemma le_trans (x y z : number) :
  le x y = true -> le y z = true -> le x z = true.
Proof.
  destruct x as [a | | |], y as [b | | |], z as [c | | |];
    cbn [le]; try congruence.
  intros H1 H2. apply Qle_bool_iff in H1, H2. apply Qle_bool_iff. lra.
Qed.

Lemma le_below (x : number) (a b : Q) :
  a < b -> le x (Fin a) = true -> le x (Fin b) = true.
Proof.
  intros H Hx. apply (le_trans x (Fin a)); [exact Hx |].
  apply Qle_bool_iff. lra.
Qed.

Lemma nearest_even_monotone (x y : Q) :
  x <= y -> (Binary64.nearest_even x <= Binary64.nearest_even y)%Z.
Proof.
  intros H. unfold Binary64.nearest_even.
  pose proof (Qfloor_resp_le _ _ H) as Hf.
  pose proof (Qfloor_le x) as Hx1. pose proof (Qlt_floor x) as Hx2.
  pose proof (Qfloor_le y) as Hy1. pose proof (Qlt_floor y) as Hy2.
  rewrite inject_Z_plus in Hx2, Hy2. change (inject_Z 1) with 1 in Hx2, Hy2.
  destruct (Z.eq_dec (Qfloor x) (Qfloor y)) as [E | E].
  - rewrite E in *.
    destruct (Qcompare (x - inject_Z (Qfloor y)) (1 # 2)) eqn:Cx;
      destruct (Qcompare (y - inject_Z (Qfloor y)) (1 # 2)) eqn:Cy;
      try apply (proj2 (Qeq_alt _ _)) in Cx;
      try apply (proj2 (Qlt_alt _ _)) in Cx;
      try apply (proj2 (Qgt_alt _ _)) in Cx;
      try apply (proj2 (Qeq_alt _ _)) in Cy;
      try apply (proj2 (Qlt_alt _ _)) in Cy;
      try apply (proj2 (Qgt_alt _ _)) in Cy;
      destruct (Z.even (Qfloor y)); try lia; exfalso; lra.
  - assert (Qfloor x + 1 <= Qfloor y)%Z by lia.
    destruct (Qcompare (x - inject_Z (Qfloor x)) (1 # 2));
      destruct (Qcompare (y - inject_Z (Qfloor y)) (1 # 2));
      destruct (Z.even (Qfloor x)); destruct (Z.even (Qfloor y)); lia.
Qed.

Lemma nearest_even_ge (k : Z) (y : Q) :
  inject_Z k <= y -> (k <= Binary64.nearest_even y)%Z.
Proof.
  intros H. pose proof (nearest_even_monotone _ _ H) as M.
  now rewrite (nearest_even_whole (inject_Z k) k) in M by reflexivity.
Qed.

Lemma nearest_even_le (k : Z) (y : Q) :
  y <= inject_Z k -> (Binary64.nearest_even y <= k)%Z.
Proof.
  intros H. pose proof (nearest_even_monotone _ _ H) as M.
  now rewrite (nearest_even_whole (inject_Z k) k) in M by reflexivity.
Qed.

(** A positive result is rounded within its binade. *)
Lemma nearest_bounds (q : Q) :
  0 < q ->
  let e := Z.max (Binary64.ilog2 q) (-1022) in
  0 <= Binary64.nearest q
  /\ Binary64.nearest q <= Binary64.pow2 (e + 1)
  /\ ((-1022 <= Binary64.ilog2 q)%Z -> Binary64.pow2 e <= Binary64.nearest q).
Proof.
  intros Hq e. unfold Binary64.nearest, Binary64.ulp. fold e.
  set (U := Binary64.pow2 (e - 52)).
  assert (HU : 0 < U) by apply pow2_pos.
  destruct (ilog2_spec q Hq) as [Hlo Hhi].
  assert (E1 : Binary64.pow2 (e + 1) == inject_Z (2 ^ 53) * U).
  { unfold U. rewrite <- pow2_whole, <- pow2_add by lia. 
    replace (53 + (e - 52))%Z with (e + 1)%Z by lia. reflexivity. }
  assert (E0 : Binary64.pow2 e == inject_Z (2 ^ 52) * U).
  { unfold U. rewrite <- pow2_whole, <- pow2_add by lia. 
    replace (52 + (e - 52))%Z with e by lia. reflexivity. }
  split; [| split].
  - apply Qmult_le_0_compat; [| lra].
    change 0 with (inject_Z 0). rewrite <- Zle_Qle.
    apply nearest_even_nonneg. apply Qle_shift_div_l; lra.
  - rewrite E1. apply Qmult_le_compat_r; [| lra].
    rewrite <- Zle_Qle. apply nearest_even_le.
    apply Qle_shift_div_r; [exact HU |]. rewrite <- E1.
    apply Qlt_le_weak. eapply Qlt_le_trans; [exact Hhi |].
    apply pow2_le. unfold e. lia.
  - intros He. rewrite E0. apply Qmult_le_compat_r; [| lra].
    rewrite <- Zle_Qle. apply nearest_even_ge.
    apply Qle_shift_div_l; [exact HU |]. rewrite <- E0.
    replace e with (Binary64.ilog2 q) by (unfold e; lia). exact Hlo.
Qed.

Lemma ilog2_monotone (x y : Q) :
  0 < x -> x <= y -> (Binary64.ilog2 x <= Binary64.ilog2 y)%Z.
Proof.
  intros Hx H.
  destruct (ilog2_spec x Hx) as [Hlo _].
  destruct (ilog2_spec y ltac:(lra)) as [_ Hhi].
  assert (Binary64.ilog2 x < Binary64.ilog2 y + 1)%Z by (apply pow2_lt_inv; lra).
  lia.
Qed.

Lemma nearest_monotone (x y : Q) :
  0 < x -> x <= y -> Binary64.nearest x <= Binary64.nearest y.
Proof.
  intros Hx H.
  assert (Hy : 0 < y) by lra.
  pose proof (ilog2_monotone x y Hx H) as Hi.
  destruct (nearest_bounds x Hx) as (_ & Hxu & _).
  destruct (nearest_bounds y Hy) as (_ & _ & Hyl).
  cbv zeta in Hxu, Hyl.
  destruct (Z.eq_dec (Z.max (Binary64.ilog2 x) (-1022))
                     (Z.max (Binary64.ilog2 y) (-1022))) as [E | E].
  - unfold Binary64.nearest, Binary64.ulp. rewrite E.
    set (U := Binary64.pow2 (Z.max (Binary64.ilog2 y) (-1022) - 52)).
    assert (HU : 0 < U) by apply pow2_pos.
    apply Qmult_le_compat_r; [| lra].
    rewrite <- Zle_Qle. apply nearest_even_monotone.
    apply Qmult_le_compat_r; [exact H |].
    apply Qlt_le_weak, Qinv_lt_0_compat. exact HU.
  - eapply Qle_trans; [exact Hxu |].
    eapply Qle_trans; [| apply Hyl; lia].
    apply pow2_le. lia.
Qed.

Lemma round_positive_monotone (x y : Q) :
  0 < x -> x <= y ->
  le (Binary64.round_positive x) (Binary64.round_positive y) = true.
Proof.
  intros Hx H. unfold Binary64.round_positive.
  pose proof (nearest_monotone x y Hx H) as M.
  case_le (Binary64.pow2 1024) (Binary64.nearest y).
  - destruct (Qle_bool (Binary64.pow2 1024) (Binary64.nearest x)); reflexivity.
  - case_le (Binary64.pow2 1024) (Binary64.nearest x); [exfalso; lra |].
    cbn [le]. apply Qle_bool_iff. now rewrite !Qred_correct.
Qed.

Lemma round_positive_nonneg (x : Q) :
  0 < x -> le (Fin 0) (Binary64.round_positive x) = true.
Proof.
  intros Hx. unfold Binary64.round_positive.
  destruct (nearest_bounds x Hx) as (H0 & _).
  destruct (Qle_bool (Binary64.pow2 1024) (Binary64.nearest x)); [reflexivity |].
  cbn [le]. apply Qle_bool_iff. now rewrite Qred_correct.
Qed.

Lemma le_neg (x y : number) : le x y = true -> le (neg y) (neg x) = true.
Proof.
  destruct x as [a | | |], y as [b | | |]; cbn [le neg]; try congruence.
  intros H. apply Qle_bool_iff in H. apply Qle_bool_iff.
  rewrite !Qred_correct. lra.
Qed.

(** Rounding keeps the order. *)
Lemma round_monotone (x y : number) :
  le x y = true -> le (Binary64.round x) (Binary64.round y) = true.
Proof.
  destruct x as [a | | |], y as [b | | |]; cbn [le Binary64.round];
    try congruence; try reflexivity.
  - intros H. apply Qle_bool_iff in H.
    destruct (a ?= 0) eqn:Ca; destruct (b ?= 0) eqn:Cb;
      try apply (proj2 (Qeq_alt _ _)) in Ca;
      try apply (proj2 (Qlt_alt _ _)) in Ca;
      try apply (proj2 (Qgt_alt _ _)) in Ca;
      try apply (proj2 (Qeq_alt _ _)) in Cb;
      try apply (proj2 (Qlt_alt _ _)) in Cb;
      try apply (proj2 (Qgt_alt _ _)) in Cb;
      try (exfalso; lra).
    + reflexivity.
    + now apply round_positive_nonneg.
    + change (Fin 0) with (neg (Fin 0)). apply le_neg.
      apply round_positive_nonneg. lra.
    + apply le_neg. apply round_positive_monotone; lra.
    + apply (le_trans _ (Fin 0)).
      * change (Fin 0) with (neg (Fin 0)). apply le_neg.
        apply round_positive_nonneg. lra.
      * now apply round_positive_nonneg.
    + now apply round_positive_monotone.
  - intros _.
    destruct (a ?= 0); [reflexivity | |].
    + unfold Binary64.round_positive.
      destruct (Qle_bool (Binary64.pow2 1024) (Binary64.nearest (- a)));
        reflexivity.
    + unfold Binary64.round_positive.
      destruct (Qle_bool (Binary64.pow2 1024) (Binary64.nearest a));
        reflexivity.
  - intros _.
    destruct (b ?= 0); [reflexivity | |].
    + unfold Binary64.round_positive.
      destruct (Qle_bool (Binary64.pow2 1024) (Binary64.nearest (- b)));
        reflexivity.
    + unfold Binary64.round_positive.
      destruct (Qle_bool (Binary64.pow2 1024) (Binary64.nearest b));
        reflexivity.
Qed.

Lemma round_nonneg (x : number) :
  le (Fin 0) x = true -> le (Fin 0) (Binary64.round x) = true.
Proof. intros H. exact (round_monotone (Fin 0) x H). Qed.

(** The operations keep the order of numbers that are not negative. *)
Lemma add_monotone (x1 y1 x2 y2 : number) :
  le (Fin 0) x1 = true -> le (Fin 0) x2 = true ->
  le x1 y1 = true -> le x2 y2 = true ->
  le (Binary64.add x1 x2) (Binary64.add y1 y2) = true.
Proof.
  intros P1 P2 H1 H2. apply round_monotone.
  destruct x1 as [a1 | | |], y1 as [b1 | | |], x2 as [a2 | | |],
    y2 as [b2 | | |]; cbn [le add] in *; try congruence.
  apply Qle_bool_iff in H1, H2. apply Qle_bool_iff.
  rewrite !Qred_correct. lra.
Qed.

Lemma add_nonneg (x1 x2 : number) :
  le (Fin 0) x1 = true -> le (Fin 0) x2 = true ->
  le (Fin 0) (Binary64.add x1 x2) = true.
Proof.
  intros P1 P2. apply round_nonneg.
  destruct x1 as [a1 | | |], x2 as [a2 | | |]; cbn [le add] in *;
    try congruence.
  apply Qle_bool_iff in P1, P2. apply Qle_bool_iff.
  rewrite Qred_correct. lra.
Qed.

Lemma mul_monotone (x y : number) (c1 c2 : Q) :
  0 < c1 -> c1 <= c2 -> le (Fin 0) x = true -> le x y = true ->
  le (Binary64.mul x (Fin c1)) (Binary64.mul y (Fin c2)) = true.
Proof.
  intros Hc H12 P H. apply round_monotone.
  assert (G1 : (c1 ?= 0) = Gt) by (apply (proj1 (Qgt_alt _ _)); exact Hc).
  assert (G2 : (c2 ?= 0) = Gt) by (apply (proj1 (Qgt_alt _ _)); lra).
  destruct x as [a | | |], y as [b | | |];
    cbn [le mul scale_inf neg] in *; rewrite ?G1, ?G2; cbn [scale_inf le];
    try congruence.
  apply Qle_bool_iff in P, H. apply Qle_bool_iff.
  rewrite !Qred_correct.
  nra.
Qed.

Lemma mul_nonneg (x : number) (c : Q) :
  0 < c -> le (Fin 0) x = true -> le (Fin 0) (Binary64.mul x (Fin c)) = true.
Proof.
  intros Hc P. apply round_nonneg.
  assert (G : (c ?= 0) = Gt) by (apply (proj1 (Qgt_alt _ _)); exact Hc).
  destruct x as [a | | |]; cbn [le mul scale_inf] in *; rewrite ?G;
    cbn [scale_inf le]; try congruence.
  apply Qle_bool_iff in P. apply Qle_bool_iff. rewrite Qred_correct. nra.
Qed.

Lemma div_monotone (x y : number) (c : Q) :
  0 < c -> le x y = true ->
  le (Binary64.div x (Fin c)) (Binary64.div y (Fin c)) = true.
Proof.
  intros Hc H. apply round_monotone.
  assert (G : (c ?= 0) = Gt) by (apply (proj1 (Qgt_alt _ _)); exact Hc).
  destruct x as [a | | |], y as [b | | |];
    cbn [le div neg] in *; rewrite ?G; cbn [le]; try congruence.
  apply Qle_bool_iff in H. apply Qle_bool_iff.
  rewrite !Qred_correct. apply Qmult_le_compat_r; [exact H |].
  apply Qlt_le_weak, Qinv_lt_0_compat. exact Hc.
Qed.

Lemma div_nonneg (x : number) (c : Q) :
  0 < c -> le (Fin 0) x = true -> le (Fin 0) (Binary64.div x (Fin c)) = true.
Proof.
  intros Hc P.
  assert (E : Binary64.div (Fin 0) (Fin c) = Fin 0).
  { unfold Binary64.div. rewrite div_Fin by lra.
    apply round_zero. rewrite Qred_correct. field. lra. }
  rewrite <- E. now apply div_monotone.
Qed.

Lemma Math_min_monotone (c : Q) (x y : number) :
  le (Fin 0) x = true -> le x y = true ->
  le (Math_min (Fin c) x) (Math_min (Fin c) y) = true.
Proof.
  intros P H.
  destruct x as [a | | |], y as [b | | |]; cbn [le Math_min] in *;
    try congruence.
  - apply Qle_bool_iff in H.
    case_le c a; case_le c b; cbn [le]; apply Qle_bool_iff; lra.
  - case_le c a; cbn [le]; apply Qle_bool_iff; lra.
  - apply Qle_bool_iff. lra.
Qed.

Lemma Math_round_monotone (x y : number) :
  le x y = true -> le (Math_round x) (Math_round y) = true.
Proof.
  destruct x as [a | | |], y as [b | | |]; cbn [le Math_round];
    try congruence; try reflexivity.
  intros H. apply Qle_bool_iff in H. unfold of_Z. cbn [le].
  apply Qle_bool_iff. rewrite <- Zle_Qle. apply Qfloor_resp_le. lra.
Qed.

(** ** The price estimator on valid requests *)

Section ValidRequest.

Variables (req : PriceEstimator.Request) (t : Spec.PropertyType).
Variables (bedrooms : Z) (bathrooms : Q) (area : Z).
Hypothesis valid : Spec.Valid req t bedrooms bathrooms area.

(** The price of a valid request is the closed form of section 4.1. *)
Lemma estimatedPrice_closed_form :
  PriceEstimator.estimatedPrice (PriceEstimator.response req)
  = of_Z (Spec.estimatedPrice t (inject_Z bedrooms) bathrooms (inject_Z area)).
Proof.
  destruct valid as (Ht & Hb & Hbr & Hba & Hbar & Ha & Har).
  unfold PriceEstimator.response.
  cbn [PriceEstimator.estimatedPrice].
  rewrite Ht, Hb, Hba, Ha.
  rewrite !parseInt_whole by lia.
  unfold parseFloat, of_Z.
  assert (Hm : exists m, property PriceEstimator.typeMultiplier (Spec.name t)
                         = Some (Fin m) /\ m == Spec.typeMultiplier t).
  { destruct t; eexists; (split; [reflexivity |]); reflexivity. }
  destruct Hm as (m & -> & Hm).
  cbn [ToNumber]. autorewrite with finite.
  unfold of_Z. do 2 f_equal.
  unfold Spec.estimatedPrice. apply round_comp.
  rewrite !Qred_correct, Hm.
  reflexivity.
Qed.

(** The confidence of a valid request is the formula of section 4.1. *)
Lemma confidence_closed_form :
  PriceEstimator.confidence (PriceEstimator.response req)
  = of_Z (Spec.confidence (inject_Z bedrooms) bathrooms (inject_Z area)).
Proof.
  destruct valid as (Ht & Hb & Hbr & Hba & Hbar & Ha & Har).
  unfold PriceEstimator.response.
  cbn [PriceEstimator.confidence].
  rewrite Hb, Hba, Ha.
  unfold of_Z at 2 3 4 5 6 7.
  rewrite div_Fin by discriminate.
  rewrite !mul_Fin, !add_Fin, round_min_95.
  unfold Spec.confidence. do 2 f_equal. apply round_comp.
  rewrite !Qred_correct. reflexivity.
Qed.

Lemma confidence_bounds :
  (70 <= Spec.confidence (inject_Z bedrooms) bathrooms (inject_Z area) <= 95)%Z.
Proof.
  destruct valid as (_ & _ & (Hb & _) & _ & (Hba & _) & _ & (Ha & _)).
  unfold Spec.confidence. split; [| apply Z.le_min_l].
  apply Z.min_glb; [lia |].
  apply Qfloor_ge.
  rewrite Zle_Qle in Hb, Ha.
  change (inject_Z 0) with 0 in Hb. change (inject_Z 100) with 100 in Ha.
  change (inject_Z 70) with 70.
  change (inject_Z area / 100) with (inject_Z area * (1 # 100)). lra.
Qed.

(** C5.  For every valid PriceEstimateRequest the factors are exactly four,
    in the order Property Type, Location, Size, Bedrooms; the first three
    have impact Positive, and the Bedrooms entry has impact Positive if and
    only if bedrooms >= 3, and Neutral otherwise. *)
Theorem factors_shape :
  let fs := PriceEstimator.factors (PriceEstimator.response req) in
  List.length fs = 4%nat
  /\ map PriceEstimator.factor fs
     = ["Property Type"; "Location"; "Size"; "Bedrooms"]%string
  /\ exists bedrooms_impact : PriceEstimator.Impact,
       map PriceEstimator.impact fs
       = [PriceEstimator.Positive; PriceEstimator.Positive;
          PriceEstimator.Positive; bedrooms_impact]
       /\ (bedrooms_impact = PriceEstimator.Positive <-> (3 <= bedrooms)%Z)
       /\ (bedrooms_impact = PriceEstimator.Neutral <-> (bedrooms < 3)%Z).
Proof.
  destruct valid as (_ & Hb & _). intros fs. subst fs.
  unfold PriceEstimator.response.
  cbn [PriceEstimator.factors List.length map
       PriceEstimator.factor PriceEstimator.impact].
  rewrite Hb, ge_whole.
  split; [reflexivity |]. split; [reflexivity |].
  eexists. split; [reflexivity |].
  destruct (3 <=? bedrooms)%Z eqn:E;
    [apply Z.leb_le in E | apply Z.leb_gt in E];
    split; split; intros; try reflexivity; try lia; discriminate.
Qed.

End ValidRequest.

Lemma valid_house : Spec.Valid Examples.house Spec.House 4 3 2500.
Proof.
  repeat split; try reflexivity; try lia; unfold Qle; simpl; lia.
Qed.

Lemma valid_apartment :
  Spec.Valid Examples.apartment Spec.Apartment 2 1.5 150.
Proof.
  repeat split; try reflexivity; try lia; unfold Qle; simpl; lia.
Qed.

Lemma valid_larger_apartment :
  Spec.Valid Examples.larger_apartment Spec.Apartment 3 2 1200.
Proof.
  repeat split; try reflexivity; try lia; unfold Qle; simpl; lia.
Qed.

Lemma factors_shape_witness :
  Spec.Valid Examples.apartment Spec.Apartment 2 1.5 150
  /\ map PriceEstimator.impact
       (PriceEstimator.factors (PriceEstimator.response Examples.apartment))
     = [PriceEstimator.Positive; PriceEstimator.Positive;
        PriceEstimator.Positive; PriceEstimator.Neutral].
Proof.
  split; [exact valid_apartment |].
  destruct (factors_shape Examples.apartment Spec.Apartment
              2%Z 1.5 150%Z valid_apartment)
    as (_ & _ & i & Hi & _ & Hn).
  rewrite Hi. do 4 f_equal.
  apply Hn. reflexivity.
Defined.

(** ** The price estimator in binary64 *)

(** The multipliers of the table are within [10^-15] of 1.2, 1 and 0.8. *)
Lemma typeMultiplier64 (t : Spec.PropertyType) :
  exists c : Q,
    property PriceEstimator64.typeMultiplier (Spec.name t) = Some (Fin c)
    /\ Spec.typeMultiplier t - (1 # 1000000000000000) <= c
    /\ c <= Spec.typeMultiplier t + (1 # 1000000000000000).
Proof.
  destruct t; eexists; (split; [vm_compute; reflexivity |]);
    split; vm_compute; discriminate.
Qed.

(** A whole sum times a multiplier of the table, rounded twice: by the
    product and by [Math.round]. *)
Lemma price_rounding (t : Spec.PropertyType) (s : Z) (c : Q) :
  (1 <= s <= 6000000)%Z ->
  Spec.typeMultiplier t - (1 # 1000000000000000) <= c ->
  c <= Spec.typeMultiplier t + (1 # 1000000000000000) ->
  Math_round (Binary64.mul (of_Z s) (Fin c))
  = of_Z (Spec.round (inject_Z s * Spec.typeMultiplier t)).
Proof.
  intros Hs Hc1 Hc2.
  set (n := match t with
            | Spec.House => 12%Z | Spec.Apartment => 10%Z | Spec.Land => 8%Z
            end).
  assert (Hm : Spec.typeMultiplier t == inject_Z n / 10)
    by (destruct t; reflexivity).
  assert (Hn : (n = 12 \/ n = 10 \/ n = 8)%Z) by (destruct t; auto).
  assert (Hmod : ((n * s + 5) mod 10 <> 0)%Z).
  { intros H. apply Z.mod_divide in H; [| lia]. destruct H as [k Hk].
    destruct Hn as [E | [E | E]]; rewrite E in Hk; lia. }
  rewrite Hm in Hc1, Hc2.
  assert (HS1 : 1 <= inject_Z s).
  { change 1 with (inject_Z 1). rewrite <- Zle_Qle. lia. }
  assert (HS2 : inject_Z s <= 6000000).
  { change 6000000 with (inject_Z 6000000). rewrite <- Zle_Qle. lia. }
  assert (HN : 8 <= inject_Z n <= 12).
  { change 8 with (inject_Z 8). change 12 with (inject_Z 12).
    rewrite <- !Zle_Qle. lia. }
  assert (Hns : inject_Z (n * s + 5) == inject_Z n * inject_Z s + 5).
  { now rewrite inject_Z_plus, inject_Z_mult. }
  assert (Hns1 : inject_Z (n * s + 5 - 1) == inject_Z n * inject_Z s + 4).
  { replace (n * s + 5 - 1)%Z with (n * s + 4)%Z by lia.
    now rewrite inject_Z_plus, inject_Z_mult. }
  assert (Hns2 : inject_Z (n * s + 5 + 1) == inject_Z n * inject_Z s + 6).
  { replace (n * s + 5 + 1)%Z with (n * s + 6)%Z by lia.
    now rewrite inject_Z_plus, inject_Z_mult. }
  set (S' := inject_Z s) in *. set (N := inject_Z n) in *.
  assert (E2 : Spec.round (S' * Spec.typeMultiplier t) = ((n * s + 5) / 10)%Z).
  { unfold Spec.round. apply Qfloor_near; [lia | exact Hmod | |].
    - rewrite Hns1, Hm. change (inject_Z 10) with 10. 
      setoid_replace ((S' * (N / 10) + 0.5) * 10) with (N * S' + 5) by field. lra.
    - rewrite Hns2, Hm. change (inject_Z 10) with 10.
      setoid_replace ((S' * (N / 10) + 0.5) * 10) with (N * S' + 5) by field. lra. }
  rewrite E2.
  unfold Binary64.mul, of_Z at 1. fold S'. rewrite mul_Fin.
  set (q := Qred (S' * c)).
  assert (Hq : q == S' * c) by apply Qred_correct.
  set (d := c - N / 10).
  assert (Hd : - (1 # 1000000000000000) <= d <= 1 # 1000000000000000)
    by (unfold d; lra).
  assert (Hsd : - (6 # 1000000000) <= S' * d <= 6 # 1000000000) by nra.
  assert (Hsn : 8 <= S' * N <= 72000000) by nra.
  assert (Hq' : q == S' * N * (1 # 10) + S' * d) by (rewrite Hq; unfold d; field).
  destruct (round_error q 22) as (r & Er & Hr).
  - lra.
  - change (Binary64.pow2 (22 + 1)) with (inject_Z 8388608).
    change (inject_Z 8388608) with 8388608. lra.
  - lia.
  - rewrite Er, Math_round_Fin. do 2 f_equal.
    change (Binary64.pow2 (22 - 53)) with (/ inject_Z 2147483648) in Hr.
    apply Qabs_Qle_condition in Hr.
    assert (Hi : / inject_Z 2147483648 == 1 # 2147483648) by reflexivity.
    rewrite Hi in Hr.
    unfold Spec.round. apply Qfloor_near; [lia | exact Hmod | |].
    + rewrite Hns1. change (inject_Z 10) with 10. lra.
    + rewrite Hns2. change (inject_Z 10) with 10. lra.
Qed.

Section ValidHalves.

Variables (req : PriceEstimator.Request) (t : Spec.PropertyType).
Variables (bedrooms : Z) (bathrooms : Q) (area : Z).
Hypothesis valid : Spec.Valid req t bedrooms bathrooms area.
Hypothesis halves : Spec.Halves bathrooms.

(** What the handler reads: the whole numbers as they are, the bathrooms as
    the half of a whole number up to 20. *)
Lemma fields_read :
  Binary64.read (PriceEstimator.bedrooms req) = of_Z bedrooms
  /\ Binary64.read (PriceEstimator.area req) = of_Z area
  /\ exists k : Z,
       (0 <= k <= 20)%Z /\ bathrooms == inject_Z k / 2
       /\ Binary64.read (PriceEstimator.bathrooms req) = Binary64.half k.
Proof.
  destruct valid as (_ & Hb & Hbr & Hba & Hbar & Ha & Har).
  destruct halves as (k & Hk).
  rewrite Hb, Ha, Hba.
  split; [apply read_whole; lia |]. split; [apply read_whole; lia |].
  exists k.
  assert (Hk' : (0 <= k <= 20)%Z).
  { rewrite Hk in Hbar. destruct Hbar as [H0 H1].
    assert (E : inject_Z k == inject_Z k / 2 * 2) by field.
    split; rewrite Zle_Qle, E.
    - change (inject_Z 0) with 0. lra.
    - change (inject_Z 20) with 20. lra. }
  split; [exact Hk' |]. split; [exact Hk |].
  apply round_half; [exact Hk | lia].
Qed.

Lemma estimatedPrice64_closed_form :
  PriceEstimator.estimatedPrice (PriceEstimator64.response req)
  = of_Z (Spec.estimatedPrice t (inject_Z bedrooms) bathrooms (inject_Z area)).
Proof.
  destruct fields_read as (Hb & Ha & k & Hk & Hba & Hk').
  destruct valid as (Ht & _ & Hbr & _ & _ & _ & Har).
  unfold PriceEstimator64.response.
  cbn [PriceEstimator.estimatedPrice].
  rewrite Ht, Hb, Ha, Hk'.
  rewrite !parseInt_whole64 by lia.
  unfold parseFloat.
  rewrite !mul_whole by lia.
  rewrite mul_half by lia.
  replace (k * 15000)%Z with (2 * (k * 7500))%Z by lia.
  rewrite half_even.
  rewrite !add_whole by lia.
  destruct (typeMultiplier64 t) as (c & -> & Hc1 & Hc2).
  cbn [ToNumber].
  rewrite (price_rounding t _ c) by (assumption || lia).
  do 2 f_equal. unfold Spec.estimatedPrice. apply round_comp.
  rewrite !inject_Z_plus, !inject_Z_mult, Hba.
  change (inject_Z 250000) with 250000. change (inject_Z 25000) with 25000.
  change (inject_Z 7500) with 7500. change (inject_Z 100) with 100.
  field.
Qed.

Lemma confidence64_closed_form :
  PriceEstimator.confidence (PriceEstimator64.response req)
  = of_Z (Spec.confidence (inject_Z bedrooms) bathrooms (inject_Z area)).
Proof.
  destruct fields_read as (Hb & Ha & k & Hk & Hba & Hk').
  destruct valid as (_ & _ & Hbr & _ & _ & _ & Har).
  unfold PriceEstimator64.response.
  cbn [PriceEstimator.confidence].
  rewrite Hb, Ha, Hk'.
  rewrite mul_whole, add_whole by lia.
  rewrite <- (half_even (70 + bedrooms * 2)).
  rewrite mul_half, add_half by lia.
  set (h := (2 * (70 + bedrooms * 2) + k * 3)%Z).
  assert (Hh : (140 <= h <= 240)%Z) by (unfold h; lia).
  assert (HA : 100 <= inject_Z area <= 50000).
  { change 100 with (inject_Z 100). change 50000 with (inject_Z 50000).
    rewrite <- !Zle_Qle. lia. }
  assert (HH : 140 <= inject_Z h <= 240).
  { change 140 with (inject_Z 140). change 240 with (inject_Z 240).
    rewrite <- !Zle_Qle. lia. }
  assert (Hx : 70 + inject_Z bedrooms * 2 + bathrooms * 3 + inject_Z area / 100
               == inject_Z h * (1 # 2) + inject_Z area * (1 # 100)).
  { unfold h. rewrite Hba.
    repeat (rewrite inject_Z_plus || rewrite inject_Z_mult).
    change (inject_Z 2) with 2. change (inject_Z 70) with 70.
    change (inject_Z 3) with 3. field. }
  unfold Spec.confidence. rewrite (round_comp _ _ Hx).
  unfold Binary64.div, of_Z at 2 3. rewrite div_Fin by discriminate.
  change (inject_Z 100) with 100.
  destruct (Z.eq_dec (area mod 50) 0) as [Hm | Hm].
  - (* the area is a whole number of halves of a hundred: nothing rounds *)
    apply Z.mod_divide in Hm; [| lia]. destruct Hm as (j & Hj).
    assert (Hq : Qred (inject_Z area / 100) == inject_Z j / 2).
    { rewrite Qred_correct, Hj, inject_Z_mult.
      change (inject_Z 50) with 50. field. }
    rewrite (round_half _ j Hq) by lia.
    rewrite add_half by lia.
    unfold Binary64.half. rewrite round_min_95.
    do 2 f_equal. apply round_comp.
    rewrite Qred_correct, Hj, inject_Z_plus, inject_Z_mult.
    change (inject_Z 50) with 50. field.
  - (* otherwise the sum is at least a hundredth away from a tie *)
    set (n := (50 * h + area + 50)%Z).
    assert (Hn : (n mod 100 <> 0)%Z).
    { intros H. apply Z.mod_divide in H; [| lia]. destruct H as (j & Hj).
      apply Hm. apply Z.mod_divide; [lia |].
      exists (2 * j - h - 1)%Z. unfold n in Hj. lia. }
    assert (Hn1 : inject_Z (n - 1) == 50 * inject_Z h + inject_Z area + 49).
    { unfold n. replace (50 * h + area + 50 - 1)%Z with (50 * h + area + 49)%Z by lia.
      now rewrite !inject_Z_plus, inject_Z_mult. }
    assert (Hn2 : inject_Z (n + 1) == 50 * inject_Z h + inject_Z area + 51).
    { unfold n. replace (50 * h + area + 50 + 1)%Z with (50 * h + area + 51)%Z by lia.
      now rewrite !inject_Z_plus, inject_Z_mult. }
    set (q1 := Qred (inject_Z area / 100)).
    assert (Hq1 : q1 == inject_Z area * (1 # 100)).
    { unfold q1. rewrite Qred_correct. field. }
    destruct (round_error q1 8) as (r1 & -> & Hr1).
    { lra. }
    { change (Binary64.pow2 (8 + 1)) with (inject_Z 512).
      change (inject_Z 512) with 512. lra. }
    { lia. }
    change (Binary64.pow2 (8 - 53)) with (/ inject_Z 35184372088832) in Hr1.
    assert (Hi1 : / inject_Z 35184372088832 == 1 # 35184372088832) by reflexivity.
    rewrite Hi1 in Hr1. apply Qabs_Qle_condition in Hr1.
    unfold Binary64.add, Binary64.half. rewrite add_Fin.
    set (q2 := Qred (Qred (inject_Z h / 2) + r1)).
    assert (Hq2 : q2 == inject_Z h * (1 # 2) + r1).
    { unfold q2. rewrite !Qred_correct. field. }
    destruct (round_error q2 9) as (r2 & -> & Hr2).
    { lra. }
    { change (Binary64.pow2 (9 + 1)) with (inject_Z 1024).
      change (inject_Z 1024) with 1024. lra. }
    { lia. }
    change (Binary64.pow2 (9 - 53)) with (/ inject_Z 17592186044416) in Hr2.
    assert (Hi2 : / inject_Z 17592186044416 == 1 # 17592186044416) by reflexivity.
    rewrite Hi2 in Hr2. apply Qabs_Qle_condition in Hr2.
    rewrite round_min_95. do 2 f_equal.
    unfold Spec.round.
    rewrite (Qfloor_near n 100 (r2 + 0.5)); [| lia | exact Hn | |].
    + symmetry. apply Qfloor_near; [lia | exact Hn | |].
      * rewrite Hn1. change (inject_Z 100) with 100. lra.
      * rewrite Hn2. change (inject_Z 100) with 100. lra.
    + rewrite Hn1. change (inject_Z 100) with 100. lra.
    + rewrite Hn2. change (inject_Z 100) with 100. lra.
Qed.

End ValidHalves.

Lemma halves_apartment : Spec.Halves 1.5.
Proof. exists 3%Z. reflexivity. Qed.

Lemma halves_house : Spec.Halves 3.
Proof. exists 6%Z. reflexivity. Qed.

(** C1.  For every valid PriceEstimateRequest, that is a property type of
    the three, whole bedrooms from 0 to 10, bathrooms from 0 to 10 in steps
    of a half and a whole area from 100 to 50000, the [estimatedPrice] the
    handler computes in binary64 is
    [round((250000 + bedrooms*25000 + bathrooms*15000 + area*100) * m)]
    exactly, with [m] 1.2 for House, 1.0 for Apartment and 0.8 for Land; the
    house with four bedrooms, three bathrooms and 2500 sq.ft is estimated at
    774000. *)
Theorem price_estimate_formula :
  (forall (req : PriceEstimator.Request) (t : Spec.PropertyType)
          (bedrooms : Z) (bathrooms : Q) (area : Z),
      Spec.Valid req t bedrooms bathrooms area -> Spec.Halves bathrooms ->
      PriceEstimator.estimatedPrice (PriceEstimator64.response req)
      = of_Z (Spec.round
                ((250000 + inject_Z bedrooms * 25000 + bathrooms * 15000
                  + inject_Z area * 100) * Spec.typeMultiplier t)))
  /\ PriceEstimator.estimatedPrice (PriceEstimator64.response Examples.house)
     = of_Z 774000.
Proof.
  split.
  - intros req t b ba a Hv Hh. now apply estimatedPrice64_closed_form.
  - exact (estimatedPrice64_closed_form Examples.house Spec.House 4%Z 3 2500%Z
             valid_house halves_house).
Qed.

Lemma price_estimate_formula_witness :
  Spec.Valid Examples.apartment Spec.Apartment 2 1.5 150
  /\ Spec.Halves 1.5
  /\ PriceEstimator.estimatedPrice (PriceEstimator64.response Examples.apartment)
     = of_Z 337500.
Proof.
  split; [exact valid_apartment |]. split; [exact halves_apartment |].
  exact (proj1 price_estimate_formula Examples.apartment Spec.Apartment
           2%Z 1.5 150%Z valid_apartment halves_apartment).
Defined.

(** C4.  For every valid PriceEstimateRequest, with bathrooms in steps of
    a half, the [confidence] the handler computes in binary64 is
    [min(95, round(70 + bedrooms*2 + bathrooms*3 + area/100))], and it lies
    in the interval from 70 to 95. *)
Theorem confidence_formula (req : PriceEstimator.Request)
    (t : Spec.PropertyType) (bedrooms : Z) (bathrooms : Q) (area : Z) :
  Spec.Valid req t bedrooms bathrooms area -> Spec.Halves bathrooms ->
  let c := Z.min 95 (Spec.round (70 + inject_Z bedrooms * 2 + bathrooms * 3
                                 + inject_Z area / 100)) in
  PriceEstimator.confidence (PriceEstimator64.response req) = of_Z c
  /\ (70 <= c <= 95)%Z.
Proof.
  intros Hv Hh c. split.
  - now apply (confidence64_closed_form req t).
  - now apply (confidence_bounds req t).
Qed.

Lemma confidence_formula_witness :
  Spec.Valid Examples.apartment Spec.Apartment 2 1.5 150
  /\ Spec.Halves 1.5
  /\ PriceEstimator.confidence (PriceEstimator64.response Examples.apartment)
     = of_Z 80.
Proof.
  split; [exact valid_apartment |]. split; [exact halves_apartment |].
  exact (proj1 (confidence_formula Examples.apartment Spec.Apartment
                  2%Z 1.5 150%Z valid_apartment halves_apartment)).
Defined.

(** Off the halves the product and the sums round, and the two roundings of
    the price can land on the other side of a tie. *)
Lemma off_the_halves :
  Spec.Valid Cases.odd_bathrooms Spec.House 4 0.03124999999999999 2500
  /\ ~ Spec.Halves 0.03124999999999999
  /\ PriceEstimator.estimatedPrice (PriceEstimator64.response Cases.odd_bathrooms)
     = of_Z 720563
  /\ Spec.estimatedPrice Spec.House 4 0.03124999999999999 2500 = 720562%Z.
Proof.
  split; [repeat split; try reflexivity; try lia; vm_compute; discriminate |].
  split.
  - intros (k & Hk). unfold Qeq in Hk. cbn in Hk. lia.
  - split; vm_compute; reflexivity.
Qed.

(** ** The order of the prices *)




(** ** The deal evaluator *)

(** The reply is built from the ratio and from nothing else. *)
Lemma response_of_ratio (req : DealEvaluator.Request) :
  DealEvaluator.response req
  = let v := DealEvaluator.verdict
               (div (DealEvaluator.propertyPrice req)
                    (DealEvaluator.estimatedMarketValue req)) in
    {| DealEvaluator.dealScore := DealEvaluator.v_dealScore v;
       DealEvaluator.confidenceLevel := DealEvaluator.v_confidenceLevel v;
       DealEvaluator.aiExplanation := DealEvaluator.v_aiExplanation v;
       DealEvaluator.message := "Deal evaluation completed successfully" |}.
Proof. reflexivity. Qed.

Section PositiveDeal.

Variables (req : DealEvaluator.Request) (p m : Q).
Hypothesis positive : Spec.PositiveDeal req p m.



End PositiveDeal.

Lemma positive_deal : Spec.PositiveDeal Examples.deal 350000 400000.
Proof. repeat split. Qed.


(** The reply to the deal of section 8, as the handler sends it. *)
Lemma deal_reply :
  DealEvaluator.response Examples.deal
  = {| DealEvaluator.dealScore := DealEvaluator.Buy;
       DealEvaluator.confidenceLevel := of_Z 80;
       DealEvaluator.aiExplanation :=
         "This is a good buying opportunity. The property is priced at 87.5% of its estimated market value, offering a reasonable discount. The location and market conditions support this investment decision.";
       DealEvaluator.message := "Deal evaluation completed successfully" |}.
Proof. vm_compute. reflexivity. Qed.

(** ** The deal evaluator in binary64 *)

(** The four bounds as binary64 numbers, in ascending order. *)
Lemma bounds64 :
  exists c1 c2 c3 c4 : Q,
    Binary64.lit 0.85 = Fin c1 /\ Binary64.lit 0.95 = Fin c2
    /\ Binary64.lit 1.05 = Fin c3 /\ Binary64.lit 1.15 = Fin c4
    /\ c1 < c2 /\ c2 < c3 /\ c3 < c4.
Proof.
  do 4 eexists.
  repeat match goal with |- _ /\ _ => split end;
    try (vm_compute; reflexivity).
Qed.

(** The reply is built from the computed ratio and from nothing else. *)
Lemma response64_of_ratio (req : DealEvaluator.Request) :
  DealEvaluator64.response req
  = let v := DealEvaluator64.verdict (DealEvaluator64.priceRatio req) in
    {| DealEvaluator.dealScore := DealEvaluator.v_dealScore v;
       DealEvaluator.confidenceLevel := DealEvaluator.v_confidenceLevel v;
       DealEvaluator.aiExplanation := DealEvaluator.v_aiExplanation v;
       DealEvaluator.message := "Deal evaluation completed successfully" |}.
Proof. reflexivity. Qed.

(** The [if] chain, tier by tier. *)
Lemma verdict64_tiers (ratio : number) :
  let v := DealEvaluator64.verdict ratio in
  let assigns (score : DealEvaluator.DealScore) (level : Z) :=
    DealEvaluator.v_dealScore v = score
    /\ DealEvaluator.v_confidenceLevel v = of_Z level in
  (le ratio (Binary64.lit 0.85) = true -> assigns DealEvaluator.Buy 90%Z)
  /\ (le ratio (Binary64.lit 0.85) = false ->
      le ratio (Binary64.lit 0.95) = true -> assigns DealEvaluator.Buy 80%Z)
  /\ (le ratio (Binary64.lit 0.95) = false ->
      le ratio (Binary64.lit 1.05) = true -> assigns DealEvaluator.Hold 75%Z)
  /\ (le ratio (Binary64.lit 1.05) = false ->
      le ratio (Binary64.lit 1.15) = true -> assigns DealEvaluator.Hold 70%Z)
  /\ (le ratio (Binary64.lit 1.15) = false -> assigns DealEvaluator.Avoid 85%Z).
Proof.
  destruct bounds64 as (c1 & c2 & c3 & c4 & E1 & E2 & E3 & E4 & H12 & H23 & H34).
  cbv zeta. unfold DealEvaluator64.verdict. rewrite E1, E2, E3, E4.
  pose proof (le_below ratio c1 c2 H12) as M1.
  pose proof (le_below ratio c2 c3 H23) as M2.
  pose proof (le_below ratio c3 c4 H34) as M3.
  destruct (le ratio (Fin c1)), (le ratio (Fin c2)), (le ratio (Fin c3)),
    (le ratio (Fin c4));
    try (specialize (M1 eq_refl); discriminate M1);
    try (specialize (M2 eq_refl); discriminate M2);
    try (specialize (M3 eq_refl); discriminate M3);
    repeat match goal with |- _ /\ _ => split end; intros;
    try match goal with
        | H : true = false |- _ => discriminate H
        | H : false = true |- _ => discriminate H
        end;
    split; reflexivity.
Qed.

(** A bound is not above itself, and each bound is above the one before. *)
Lemma bounds64_order :
  le (Binary64.lit 0.85) (Binary64.lit 0.85) = true
  /\ le (Binary64.lit 0.95) (Binary64.lit 0.95) = true
  /\ le (Binary64.lit 1.05) (Binary64.lit 1.05) = true
  /\ le (Binary64.lit 1.15) (Binary64.lit 1.15) = true
  /\ le (Binary64.lit 0.95) (Binary64.lit 0.85) = false
  /\ le (Binary64.lit 1.05) (Binary64.lit 0.95) = false
  /\ le (Binary64.lit 1.15) (Binary64.lit 1.05) = false.
Proof. repeat split; vm_compute; reflexivity. Qed.

(** The deal of section 8 in binary64: the ratio is 0.875, that is 7/8. *)
Lemma deal_reply64 :
  DealEvaluator64.priceRatio Examples.deal = Fin (7 # 8)
  /\ DealEvaluator64.response Examples.deal
     = {| DealEvaluator.dealScore := DealEvaluator.Buy;
          DealEvaluator.confidenceLevel := of_Z 80;
          DealEvaluator.aiExplanation :=
            "This is a good buying opportunity. The property is priced at 87.5% of its estimated market value, offering a reasonable discount. The location and market conditions support this investment decision.";
          DealEvaluator.message := "Deal evaluation completed successfully" |}.
Proof. split; vm_compute; reflexivity. Qed.

(** C2, as the handler has it.  For every DealEvaluationRequest with a
    positive price and a positive market value, the score and the confidence
    level are those of the first tier, in ascending order, that the test
    [ratio <= bound] selects, where the ratio is the binary64 quotient the
    handler computes from the two amounts as it reads them and the bounds are
    the binary64 numbers written 0.85, 0.95, 1.05 and 1.15: (Buy, 90),
    (Buy, 80), (Hold, 75), (Hold, 70), and (Avoid, 85) when no test holds.  A
    computed ratio that is one of the four bounds belongs to the lower tier,
    and the deal of section 8, whose ratio is 0.875, gets Buy with the
    confidence level 80. *)
Theorem deal_tiers :
  (forall (req : DealEvaluator.Request) (p m : Q),
      Spec.PositiveDeal req p m ->
      let ratio := DealEvaluator64.priceRatio req in
      let reply := DealEvaluator64.response req in
      (le ratio (Binary64.lit 0.85) = true ->
       Spec.gives reply DealEvaluator.Buy 90)
      /\ (le ratio (Binary64.lit 0.85) = false ->
          le ratio (Binary64.lit 0.95) = true ->
          Spec.gives reply DealEvaluator.Buy 80)
      /\ (le ratio (Binary64.lit 0.95) = false ->
          le ratio (Binary64.lit 1.05) = true ->
          Spec.gives reply DealEvaluator.Hold 75)
      /\ (le ratio (Binary64.lit 1.05) = false ->
          le ratio (Binary64.lit 1.15) = true ->
          Spec.gives reply DealEvaluator.Hold 70)
      /\ (le ratio (Binary64.lit 1.15) = false ->
          Spec.gives reply DealEvaluator.Avoid 85)
      /\ (ratio = Binary64.lit 0.85 -> Spec.gives reply DealEvaluator.Buy 90)
      /\ (ratio = Binary64.lit 0.95 -> Spec.gives reply DealEvaluator.Buy 80)
      /\ (ratio = Binary64.lit 1.05 -> Spec.gives reply DealEvaluator.Hold 75)
      /\ (ratio = Binary64.lit 1.15 -> Spec.gives reply DealEvaluator.Hold 70))
  /\ DealEvaluator64.priceRatio Examples.deal = Fin (7 # 8)
  /\ Spec.gives (DealEvaluator64.response Examples.deal) DealEvaluator.Buy 80.
Proof.
  split.
  - intros req p m _ ratio reply. subst reply. unfold Spec.gives.
    rewrite response64_of_ratio. fold ratio.
    cbn [DealEvaluator.dealScore DealEvaluator.confidenceLevel].
    destruct (verdict64_tiers ratio) as (T1 & T2 & T3 & T4 & T5).
    destruct bounds64_order as (R1 & R2 & R3 & R4 & L2 & L3 & L4).
    split; [exact T1 |]. split; [exact T2 |]. split; [exact T3 |].
    split; [exact T4 |]. split; [exact T5 |].
    split; [intros E; apply T1; rewrite E; exact R1 |].
    split; [intros E; apply T2; rewrite E; assumption |].
    split; [intros E; apply T3; rewrite E; assumption |].
    intros E; apply T4; rewrite E; assumption.
  - destruct deal_reply64 as (Er & Ed). split; [exact Er |].
    rewrite Ed. split; reflexivity.
Qed.

Lemma deal_tiers_witness :
  Spec.PositiveDeal Examples.deal 350000 400000
  /\ le (DealEvaluator64.priceRatio Examples.deal) (Binary64.lit 0.85) = false
  /\ le (DealEvaluator64.priceRatio Examples.deal) (Binary64.lit 0.95) = true
  /\ Spec.gives (DealEvaluator64.response Examples.deal) DealEvaluator.Buy 80.
Proof.
  assert (Hlo : le (DealEvaluator64.priceRatio Examples.deal)
                   (Binary64.lit 0.85) = false) by (vm_compute; reflexivity).
  assert (Hhi : le (DealEvaluator64.priceRatio Examples.deal)
                   (Binary64.lit 0.95) = true) by (vm_compute; reflexivity).
  split; [exact positive_deal |]. split; [exact Hlo |]. split; [exact Hhi |].
  destruct (proj1 deal_tiers Examples.deal 350000 400000 positive_deal)
    as (_ & Htier & _).
  exact (Htier Hlo Hhi).
Defined.

(** Read on the ratio of the two amounts as decimals, the tiers are not
    those of the handler: 3.45 for 3 is at the bound 1.15 and is computed
    above it, and 4600000000000015 for 4000000000000013 is above the bound
    and is computed at it. *)
Lemma bound_computed_apart :
  (Spec.PositiveDeal Cases.at_bound 3.45 3
   /\ 3.45 / 3 == 1.15
   /\ Spec.gives (DealEvaluator64.response Cases.at_bound) DealEvaluator.Avoid 85
   /\ ~ Spec.gives (DealEvaluator64.response Cases.at_bound)
          DealEvaluator.Hold 70)
  /\ (Spec.PositiveDeal Cases.past_bound 4600000000000015 4000000000000013
      /\ 1.15 < 4600000000000015 / 4000000000000013
      /\ Spec.gives (DealEvaluator64.response Cases.past_bound)
           DealEvaluator.Hold 70
      /\ ~ Spec.gives (DealEvaluator64.response Cases.past_bound)
             DealEvaluator.Avoid 85).
Proof.
  assert (E1 : DealEvaluator.dealScore (DealEvaluator64.response Cases.at_bound)
               = DealEvaluator.Avoid) by (vm_compute; reflexivity).
  assert (L1 : DealEvaluator.confidenceLevel
                 (DealEvaluator64.response Cases.at_bound) = of_Z 85)
    by (vm_compute; reflexivity).
  assert (E2 : DealEvaluator.dealScore
                 (DealEvaluator64.response Cases.past_bound)
               = DealEvaluator.Hold) by (vm_compute; reflexivity).
  assert (L2 : DealEvaluator.confidenceLevel
                 (DealEvaluator64.response Cases.past_bound) = of_Z 70)
    by (vm_compute; reflexivity).
  unfold Spec.gives. rewrite E1, L1, E2, L2.
  split; (split; [repeat split |]); (split; [reflexivity |]);
    (split; [split; reflexivity |]); intros [H _]; discriminate H.
Qed.

(** The computed ratio alone decides the reply. *)
Lemma computed_ratio_decides (req1 req2 : DealEvaluator.Request) :
  DealEvaluator64.priceRatio req1 = DealEvaluator64.priceRatio req2 ->
  DealEvaluator.dealScore (DealEvaluator64.response req1)
  = DealEvaluator.dealScore (DealEvaluator64.response req2)
  /\ DealEvaluator.confidenceLevel (DealEvaluator64.response req1)
     = DealEvaluator.confidenceLevel (DealEvaluator64.response req2)
  /\ DealEvaluator.aiExplanation (DealEvaluator64.response req1)
     = DealEvaluator.aiExplanation (DealEvaluator64.response req2).
Proof.
  intros H. rewrite !response64_of_ratio, H. repeat split.
Qed.

(** Amounts that are binary64 numbers are read as they are, so that equal
    ratios are computed as the same number. *)
Lemma equal_ratio64 (req1 req2 : DealEvaluator.Request) (p1 m1 p2 m2 : Q) :
  DealEvaluator.propertyPrice req1 = Fin p1 ->
  DealEvaluator.estimatedMarketValue req1 = Fin m1 -> 0 < m1 ->
  DealEvaluator.propertyPrice req2 = Fin p2 ->
  DealEvaluator.estimatedMarketValue req2 = Fin m2 -> 0 < m2 ->
  Binary64.representable p1 -> Binary64.representable m1 ->
  Binary64.representable p2 -> Binary64.representable m2 ->
  p1 / m1 == p2 / m2 ->
  DealEvaluator64.priceRatio req1 = DealEvaluator64.priceRatio req2.
Proof.
  intros Hp1 Hm1 H1 Hp2 Hm2 H2 Rp1 Rm1 Rp2 Rm2 Hr.
  unfold DealEvaluator64.priceRatio, Binary64.read.
  rewrite Hp1, Hm1, Hp2, Hm2.
  unfold Binary64.representable in Rp1, Rm1, Rp2, Rm2.
  rewrite Rp1, Rm1, Rp2, Rm2.
  unfold Binary64.div.
  rewrite !div_Fin by (rewrite Qred_correct; lra).
  f_equal. apply Fin_Qred. now rewrite !Qred_correct.
Qed.

(** C8, as the handler has it.  The ratio decides the deal when the amounts
    are binary64 numbers, as whole amounts below [2^53] are: two requests
    with positive market values, amounts that are binary64 numbers and the
    same ratio [propertyPrice / estimatedMarketValue] get the same dealScore,
    the same confidenceLevel and the same explanation text, whatever their
    prices and their locations. *)
Theorem ratio_decides (req1 req2 : DealEvaluator.Request) (p1 m1 p2 m2 : Q) :
  DealEvaluator.propertyPrice req1 = Fin p1 ->
  DealEvaluator.estimatedMarketValue req1 = Fin m1 -> 0 < m1 ->
  DealEvaluator.propertyPrice req2 = Fin p2 ->
  DealEvaluator.estimatedMarketValue req2 = Fin m2 -> 0 < m2 ->
  Binary64.representable p1 -> Binary64.representable m1 ->
  Binary64.representable p2 -> Binary64.representable m2 ->
  p1 / m1 == p2 / m2 ->
  DealEvaluator.dealScore (DealEvaluator64.response req1)
  = DealEvaluator.dealScore (DealEvaluator64.response req2)
  /\ DealEvaluator.confidenceLevel (DealEvaluator64.response req1)
     = DealEvaluator.confidenceLevel (DealEvaluator64.response req2)
  /\ DealEvaluator.aiExplanation (DealEvaluator64.response req1)
     = DealEvaluator.aiExplanation (DealEvaluator64.response req2).
Proof.
  intros Hp1 Hm1 H1 Hp2 Hm2 H2 Rp1 Rm1 Rp2 Rm2 Hr.
  apply computed_ratio_decides.
  exact (equal_ratio64 req1 req2 p1 m1 p2 m2
           Hp1 Hm1 H1 Hp2 Hm2 H2 Rp1 Rm1 Rp2 Rm2 Hr).
Qed.

Lemma ratio_decides_witness :
  0 < 400000 /\ 0 < 800000
  /\ Binary64.representable 350000 /\ Binary64.representable 400000
  /\ Binary64.representable 700000 /\ Binary64.representable 800000
  /\ 350000 / 400000 == 700000 / 800000
  /\ DealEvaluator.aiExplanation (DealEvaluator64.response Examples.deal)
     = DealEvaluator.aiExplanation
         (DealEvaluator64.response Examples.deal_doubled).
Proof.
  assert (H1 : 0 < 400000) by reflexivity.
  assert (H2 : 0 < 800000) by reflexivity.
  assert (R1 : Binary64.representable 350000)
    by (apply (whole_representable 350000); lia).
  assert (R2 : Binary64.representable 400000)
    by (apply (whole_representable 400000); lia).
  assert (R3 : Binary64.representable 700000)
    by (apply (whole_representable 700000); lia).
  assert (R4 : Binary64.representable 800000)
    by (apply (whole_representable 800000); lia).
  assert (Hr : 350000 / 400000 == 700000 / 800000) by reflexivity.
  split; [exact H1 |]. split; [exact H2 |].
  split; [exact R1 |]. split; [exact R2 |].
  split; [exact R3 |]. split; [exact R4 |]. split; [exact Hr |].
  exact (proj2 (proj2 (ratio_decides Examples.deal Examples.deal_doubled
                         350000 400000 700000 800000
                         eq_refl eq_refl H1 eq_refl eq_refl H2
                         R1 R2 R3 R4 Hr))).
Defined.

(** 3.45 for 3 and 1.15 for 1 have the same ratio and are scored apart: 3.45
    is not a binary64 number, and the quotient of what is read for it by 3 is
    above what is read for 1.15. *)
Lemma equal_ratio_scored_apart :
  DealEvaluator.propertyPrice Cases.at_bound = Fin 3.45
  /\ DealEvaluator.estimatedMarketValue Cases.at_bound = Fin 3 /\ 0 < 3
  /\ DealEvaluator.propertyPrice Cases.unit_value = Fin 1.15
  /\ DealEvaluator.estimatedMarketValue Cases.unit_value = Fin 1 /\ 0 < 1
  /\ 3.45 / 3 == 1.15 / 1
  /\ DealEvaluator.dealScore (DealEvaluator64.response Cases.at_bound)
     = DealEvaluator.Avoid
  /\ DealEvaluator.dealScore (DealEvaluator64.response Cases.unit_value)
     = DealEvaluator.Hold
  /\ DealEvaluator.dealScore (DealEvaluator64.response Cases.at_bound)
     <> DealEvaluator.dealScore (DealEvaluator64.response Cases.unit_value).
Proof.
  assert (E1 : DealEvaluator.dealScore (DealEvaluator64.response Cases.at_bound)
               = DealEvaluator.Avoid) by (vm_compute; reflexivity).
  assert (E2 : DealEvaluator.dealScore
                 (DealEvaluator64.response Cases.unit_value)
               = DealEvaluator.Hold) by (vm_compute; reflexivity).
  rewrite E1, E2.
  repeat match goal with |- _ /\ _ => split end;
    try reflexivity. discriminate.
Qed.

(** ** Requests outside the invariants *)

(** With a market value of zero the handler does not fail: the ratio is
    [Infinity] and the reply is (Avoid, 85). *)
Lemma deal_zero_value_responds :
  le (DealEvaluator.estimatedMarketValue Examples.deal_zero_value) (of_Z 0)
  = true
  /\ fst (DealEvaluator.handler Examples.deal_zero_value Examples.world)
     = Responded (DealEvaluator.response Examples.deal_zero_value)
  /\ Spec.gives (DealEvaluator.response Examples.deal_zero_value)
       DealEvaluator.Avoid 85
  /\ ~ (exists e : InvalidInput,
          fst (DealEvaluator.handler Examples.deal_zero_value Examples.world)
          = Failed e).
Proof.
  split; [reflexivity |]. split; [reflexivity |].
  split; [split; reflexivity |].
  intros (e & He). discriminate He.
Qed.

Lemma first_bound_positive :
  exists c : Q, Binary64.lit 0.85 = Fin c /\ 0 < c.
Proof. eexists. split; vm_compute; reflexivity. Qed.

(** C3, as the handler has it.  The deal evaluator never fails: every
    request gets a reply and the world is left as it was, in exact arithmetic
    and in binary64.  With a negative market value and a positive price,
    both binary64 numbers, the computed ratio is not positive and the reply
    is (Buy, 90). *)
Theorem deal_evaluator_total (req : DealEvaluator.Request) (w : World) :
  DealEvaluator.handler req w = (Responded (DealEvaluator.response req), w)
  /\ (forall e : InvalidInput, fst (DealEvaluator.handler req w) <> Failed e)
  /\ DealEvaluator64.handler req w
     = (Responded (DealEvaluator64.response req), w)
  /\ (forall e : InvalidInput, fst (DealEvaluator64.handler req w) <> Failed e)
  /\ (forall p m : Q,
        DealEvaluator.propertyPrice req = Fin p ->
        DealEvaluator.estimatedMarketValue req = Fin m ->
        Binary64.representable p -> Binary64.representable m ->
        0 < p -> m < 0 ->
        Spec.gives (DealEvaluator64.response req) DealEvaluator.Buy 90).
Proof.
  split; [reflexivity |]. split; [discriminate |].
  split; [reflexivity |]. split; [discriminate |].
  intros p m Hp Hm Rp Rm Hp0 Hm0.
  unfold Spec.gives. rewrite response64_of_ratio.
  cbn [DealEvaluator.dealScore DealEvaluator.confidenceLevel].
  apply (proj1 (verdict64_tiers (DealEvaluator64.priceRatio req))).
  unfold DealEvaluator64.priceRatio, Binary64.read.
  rewrite Hp, Hm. unfold Binary64.representable in Rp, Rm. rewrite Rp, Rm.
  unfold Binary64.div. rewrite div_Fin by (rewrite Qred_correct; lra).
  destruct first_bound_positive as (c & -> & Hc).
  apply round_negative; [| lra].
  rewrite !Qred_correct.
  setoid_replace (p / m) with (- (p / - m)) by (field; lra).
  assert (0 < p / - m) by (apply Qlt_shift_div_l; lra). lra.
Qed.

Lemma deal_evaluator_total_witness :
  Binary64.representable 350000 /\ Binary64.representable (- 400000)
  /\ 0 < 350000 /\ - 400000 < 0
  /\ Spec.gives (DealEvaluator64.response Examples.deal_negative_value)
       DealEvaluator.Buy 90.
Proof.
  assert (Rp : Binary64.representable 350000)
    by (apply (whole_representable 350000); lia).
  assert (Rm : Binary64.representable (- 400000)) by (vm_compute; reflexivity).
  assert (Hp : 0 < 350000) by reflexivity.
  assert (Hm : - 400000 < 0) by reflexivity.
  split; [exact Rp |]. split; [exact Rm |].
  split; [exact Hp |]. split; [exact Hm |].
  destruct (deal_evaluator_total Examples.deal_negative_value Examples.world)
    as (_ & _ & _ & _ & Hneg).
  exact (Hneg 350000 (- 400000) eq_refl eq_refl Rp Rm Hp Hm).
Defined.

(** A key that is none of the three names is not a property of
    [typeMultiplier]. *)
Lemma property_unknown (key : string) :
  (forall t : Spec.PropertyType, key <> Spec.name t) ->
  property PriceEstimator.typeMultiplier key = None.
Proof.
  intros H. unfold PriceEstimator.typeMultiplier, property.
  pose proof (H Spec.House) as H1.
  pose proof (H Spec.Apartment) as H2.
  pose proof (H Spec.Land) as H3.
  cbn [Spec.name] in H1, H2, H3.
  destruct (String.eqb_spec "House" key); [congruence |].
  destruct (String.eqb_spec "Apartment" key); [congruence |].
  destruct (String.eqb_spec "Land" key); [congruence |].
  reflexivity.
Qed.

(** With eleven bedrooms, or with a property type outside the three, the
    handler does not fail: it replies, with the price of the formula (984000)
    in the first case and with [NaN] as the price in the second. *)
Lemma invalid_requests_respond :
  (PriceEstimator.bedrooms Examples.house_eleven_bedrooms = of_Z 11
   /\ ~ (0 <= 11 <= 10)%Z
   /\ fst (PriceEstimator.handler Examples.house_eleven_bedrooms Examples.world)
      = Responded (PriceEstimator.response Examples.house_eleven_bedrooms)
   /\ PriceEstimator.estimatedPrice
        (PriceEstimator.response Examples.house_eleven_bedrooms)
      = of_Z 984000
   /\ ~ (exists e : InvalidInput,
           fst (PriceEstimator.handler Examples.house_eleven_bedrooms
                  Examples.world) = Failed e))
  /\ ((forall t : Spec.PropertyType,
         PriceEstimator.propertyType Examples.castle <> Spec.name t)
      /\ fst (PriceEstimator.handler Examples.castle Examples.world)
         = Responded (PriceEstimator.response Examples.castle)
      /\ PriceEstimator.estimatedPrice (PriceEstimator.response Examples.castle)
         = NaN
      /\ ~ (exists e : InvalidInput,
              fst (PriceEstimator.handler Examples.castle Examples.world)
              = Failed e)).
Proof.
  split.
  - split; [reflexivity |]. split; [lia |]. split; [reflexivity |].
    split; [reflexivity |]. intros (e & He). discriminate He.
  - split; [intros t; destruct t; discriminate |]. split; [reflexivity |].
    split; [reflexivity |]. intros (e & He). discriminate He.
Qed.

(** C6, as the handler has it.  The price estimator is total: every request,
    valid or not, gets a reply and none gets an error; the world is left as
    it was.  Numeric fields outside their ranges go through the same
    arithmetic, and a property type that is none of House, Apartment and
    Land has no multiplier, which makes the price [NaN]. *)
Theorem price_estimator_total (req : PriceEstimator.Request) (w : World) :
  PriceEstimator.handler req w = (Responded (PriceEstimator.response req), w)
  /\ (forall e : InvalidInput, fst (PriceEstimator.handler req w) <> Failed e)
  /\ ((forall t : Spec.PropertyType,
         PriceEstimator.propertyType req <> Spec.name t) ->
      PriceEstimator.estimatedPrice (PriceEstimator.response req) = NaN).
Proof.
  split; [reflexivity |]. split; [discriminate |].
  intros Ht. unfold PriceEstimator.response.
  cbn [PriceEstimator.estimatedPrice].
  rewrite (property_unknown _ Ht). cbn [ToNumber].
  now rewrite mul_NaN.
Qed.

Lemma price_estimator_total_witness :
  (forall t : Spec.PropertyType,
      PriceEstimator.propertyType Examples.castle <> Spec.name t)
  /\ PriceEstimator.estimatedPrice (PriceEstimator.response Examples.castle)
     = NaN.
Proof.
  assert (Ht : forall t : Spec.PropertyType,
             PriceEstimator.propertyType Examples.castle <> Spec.name t)
    by (intros t; destruct t; discriminate).
  split; [exact Ht |].
  exact (proj2 (proj2 (price_estimator_total Examples.castle Examples.world))
           Ht).
Defined.

(** ** Determinism *)

(** A handler that ends in [res.json] without drawing from the world is
    deterministic, and calling it twice gives the same reply twice. *)
Lemma res_json_deterministic {A : Type} (body : A) :
  deterministic (res_json body)
  /\ forall w : World,
       twice (res_json body) w = ((Responded body, Responded body), w).
Proof. split; [intros w1 w2 |]; reflexivity. Qed.

(** The location analyzer, which draws from [Math.random()], is not
    deterministic: two worlds give two safety ratings. *)
Lemma location_analyzer_not_deterministic (req : LocationAnalyzer.Request) :
  ~ deterministic (LocationAnalyzer.handler req).
Proof.
  intros H.
  specialize (H Examples.world Examples.alternating_world).
  discriminate H.
Qed.

(** C7.  The price estimator and the deal evaluator are deterministic: the
    reply to a request is the same in every world, two calls in a row with
    the same request give the same reply, field for field, and a call leaves
    the world as it found it. *)
Theorem handlers_deterministic :
  (forall req : PriceEstimator.Request,
      deterministic (PriceEstimator.handler req)
      /\ forall w : World,
           fst (fst (twice (PriceEstimator.handler req) w))
           = snd (fst (twice (PriceEstimator.handler req) w))
           /\ snd (PriceEstimator.handler req w) = w)
  /\ (forall req : DealEvaluator.Request,
        deterministic (DealEvaluator.handler req)
        /\ forall w : World,
             fst (fst (twice (DealEvaluator.handler req) w))
             = snd (fst (twice (DealEvaluator.handler req) w))
             /\ snd (DealEvaluator.handler req w) = w).
Proof.
  split; intros req.
  - destruct (res_json_deterministic (PriceEstimator.response req)) as (D & T).
    split; [exact D |]. intros w. unfold PriceEstimator.handler.
    rewrite T. split; reflexivity.
  - destruct (res_json_deterministic (DealEvaluator.response req)) as (D & T).
    split; [exact D |]. intros w. unfold DealEvaluator.handler.
    rewrite T. split; reflexivity.
Qed.

(** * Further properties of the handlers and of the pages *)

(** ** The location analyzer *)

Lemma truthy_positive (z : Z) : (0 < z)%Z -> truthy (of_Z z) = true.
Proof.
  intros H. unfold truthy, of_Z.
  apply negb_true_iff, not_true_is_false. intros E.
  apply Qeq_bool_iff in E. unfold Qeq, inject_Z in E. simpl in E. lia.
Qed.






(** ** The LocationAnalyzer page *)

Lemma or_string_keeps (x d : string) : x <> ""%string -> or_string (Some x) d = x.
Proof.
  intros H. unfold or_string.
  destruct (String.eqb_spec x ""); [contradiction | reflexivity].
Qed.

Lemma safetyRatings_not_empty (rating : string) :
  In rating LocationAnalyzer.safetyRatings -> rating <> ""%string.
Proof.
  intros H. repeat (destruct H as [<- | H]; [discriminate |]). destruct H.
Qed.



Lemma index_In {A : Type} (xs : list A) (i : number) (x : A) :
  index xs i = Some x -> In x xs.
Proof.
  unfold index. destruct i as [q | | |]; try discriminate.
  destruct (Qle_bool 0 q && Qeq_bool q (inject_Z (Qfloor q)));
    [apply nth_error_In | discriminate].
Qed.

(** X3.  Whatever the world, the badge of the safety rating the page shows
    for a reply of the location analyzer never gets the red classes of
    [getRatingColor], and the badge of the summary's rating always does:
    the summaries are rated Excellent or Good, which are none of the letters
    [getRatingColor] knows.  The same holds for the analysis the page falls
    back to. *)
Theorem location_page_colours (req : LocationAnalyzer.Request) (w : World) :
  (exists body : LocationAnalyzer.Response,
     fst (LocationAnalyzer.handler req w) = Responded body
     /\ let analysis :=
          LocationAnalyzerPage.from_api (LocationAnalyzerPage.received body) in
        LocationAnalyzerPage.getRatingColor
          (LocationAnalyzerPage.safetyRating analysis)
        <> "bg-red-100 text-red-800"%string
        /\ LocationAnalyzerPage.getRatingColor
             (LocationAnalyzer.rating (LocationAnalyzerPage.summary analysis))
           = "bg-red-100 text-red-800"%string)
  /\ LocationAnalyzerPage.getRatingColor
       (LocationAnalyzerPage.safetyRating LocationAnalyzerPage.fallback)
     = "bg-green-100 text-green-800"%string
  /\ LocationAnalyzerPage.getRatingColor
       (LocationAnalyzer.rating
          (LocationAnalyzerPage.summary LocationAnalyzerPage.fallback))
     = "bg-red-100 text-red-800"%string.
Proof.
  split; [| split; reflexivity].
  unfold LocationAnalyzer.handler, bind, Math_random, res_json, ret.
  cbn [random_source random_drawn fst].
  eexists. split; [reflexivity |].
  cbv zeta. unfold LocationAnalyzerPage.from_api, LocationAnalyzerPage.received.
  cbn [LocationAnalyzerPage.safetyRating LocationAnalyzerPage.summary
       LocationAnalyzerPage.data_safetyRating LocationAnalyzerPage.data_summary
       LocationAnalyzer.safetyRating LocationAnalyzer.summary].
  split.
  - destruct (index LocationAnalyzer.safetyRatings _) as [rating |] eqn:E;
      [| discriminate].
    apply index_In in E.
    rewrite (or_string_keeps _ _ (safetyRatings_not_empty _ E)).
    repeat (destruct E as [<- | E]; [discriminate |]). destruct E.
  - destruct (index LocationAnalyzer.summaries _) as [summary |] eqn:E;
      [| reflexivity].
    apply index_In in E. cbn [or_object].
    repeat (destruct E as [<- | E]; [reflexivity |]). destruct E.
Qed.

(** ** The PriceEstimator page *)




(** ** The deal evaluator and its page *)

Lemma append_not_empty (s t : string) :
  s <> ""%string -> (s ++ t)%string <> ""%string.
Proof. destruct s; [congruence | discriminate]. Qed.

(** What the [if] chain assigns, whatever the ratio, [NaN] and the
    infinities included. *)
Lemma verdict_range (ratio : number) :
  In (DealEvaluator.v_dealScore (DealEvaluator.verdict ratio),
      DealEvaluator.v_confidenceLevel (DealEvaluator.verdict ratio))
     Ranking.verdicts
  /\ DealEvaluator.v_aiExplanation (DealEvaluator.verdict ratio) <> ""%string.
Proof.
  unfold DealEvaluator.verdict, Ranking.verdicts. cbv zeta.
  destruct (le ratio (Fin 0.85));
    [| destruct (le ratio (Fin 0.95));
       [| destruct (le ratio (Fin 1.05));
          [| destruct (le ratio (Fin 1.15))]]];
    cbn [DealEvaluator.v_dealScore DealEvaluator.v_confidenceLevel
         DealEvaluator.v_aiExplanation];
    (split; [cbn [In]; tauto | apply append_not_empty; discriminate]).
Qed.

(** X5.  For every request, also one whose ratio is [NaN] or infinite, the
    deal evaluator replies with one of five pairs, (Buy, 90), (Buy, 80),
    (Hold, 75), (Hold, 70) or (Avoid, 85), and with an explanation that is
    not empty. *)
Theorem deal_reply_range (req : DealEvaluator.Request) :
  In (DealEvaluator.dealScore (DealEvaluator.response req),
      DealEvaluator.confidenceLevel (DealEvaluator.response req))
     [ (DealEvaluator.Buy, of_Z 90); (DealEvaluator.Buy, of_Z 80);
       (DealEvaluator.Hold, of_Z 75); (DealEvaluator.Hold, of_Z 70);
       (DealEvaluator.Avoid, of_Z 85) ]
  /\ DealEvaluator.aiExplanation (DealEvaluator.response req) <> ""%string.
Proof.
  rewrite response_of_ratio.
  cbn [DealEvaluator.dealScore DealEvaluator.confidenceLevel
       DealEvaluator.aiExplanation].
  apply verdict_range.
Qed.

Lemma level_kept (score : DealEvaluator.DealScore) (level : number) :
  In (score, level) Ranking.verdicts ->
  or_number (json_number level) (of_Z 85) = level
  /\ ge level (of_Z 70) = true
  /\ (ge level (of_Z 85) = true <->
      (score, level) = (DealEvaluator.Buy, of_Z 90)
      \/ (score, level) = (DealEvaluator.Avoid, of_Z 85)).
Proof.
  unfold Ranking.verdicts. intros H.
  repeat (destruct H as [H | H];
          [inversion H; subst; split; [reflexivity |];
           split; [reflexivity |];
           split; [intros E; try discriminate E; tauto
                  | intros [E | E]; try discriminate E; reflexivity] |]).
  destruct H.
Qed.

(** The five confidence levels of a reply. *)
Lemma deal_reply_cases (req : DealEvaluator.Request) :
  DealEvaluator.confidenceLevel (DealEvaluator.response req) = of_Z 90
  \/ DealEvaluator.confidenceLevel (DealEvaluator.response req) = of_Z 80
  \/ DealEvaluator.confidenceLevel (DealEvaluator.response req) = of_Z 75
  \/ DealEvaluator.confidenceLevel (DealEvaluator.response req) = of_Z 70
  \/ DealEvaluator.confidenceLevel (DealEvaluator.response req) = of_Z 85.
Proof.
  rewrite response_of_ratio. cbn [DealEvaluator.confidenceLevel].
  destruct (verdict_range
              (div (DealEvaluator.propertyPrice req)
                   (DealEvaluator.estimatedMarketValue req))) as (Hin & _).
  unfold Ranking.verdicts in Hin. cbn [In] in Hin.
  destruct Hin as [H | [H | [H | [H | [H | []]]]]]; inversion H; tauto.
Qed.

(** What the page stores is what the server sent. *)
Lemma from_api_received (req : DealEvaluator.Request) :
  DealEvaluatorPage.from_api
    (DealEvaluatorPage.received (DealEvaluator.response req))
  = {| DealEvaluatorPage.dealScore :=
         DealEvaluator.dealScore (DealEvaluator.response req);
       DealEvaluatorPage.confidenceLevel :=
         DealEvaluator.confidenceLevel (DealEvaluator.response req);
       DealEvaluatorPage.aiExplanation :=
         DealEvaluator.aiExplanation (DealEvaluator.response req) |}.
Proof.
  rewrite response_of_ratio.
  destruct (verdict_range
              (div (DealEvaluator.propertyPrice req)
                   (DealEvaluator.estimatedMarketValue req))) as (Hin & Hne).
  cbv zeta.
  unfold DealEvaluatorPage.from_api, DealEvaluatorPage.received.
  cbn [DealEvaluatorPage.data_dealScore DealEvaluatorPage.data_confidenceLevel
       DealEvaluatorPage.data_aiExplanation DealEvaluator.dealScore
       DealEvaluator.confidenceLevel DealEvaluator.aiExplanation or_object].
  rewrite (proj1 (level_kept _ _ Hin)), (or_string_keeps _ _ Hne).
  reflexivity.
Qed.

(** X6.  The DealEvaluator page stores the reply of the server as it is, for
    every request: the score, the confidence level and the explanation the
    server sends are never replaced by the defaults behind [||]. *)
Theorem deal_page_keeps_reply (req : DealEvaluator.Request) :
  let evaluation :=
    DealEvaluatorPage.from_api
      (DealEvaluatorPage.received (DealEvaluator.response req)) in
  DealEvaluatorPage.dealScore evaluation
  = DealEvaluator.dealScore (DealEvaluator.response req)
  /\ DealEvaluatorPage.confidenceLevel evaluation
     = DealEvaluator.confidenceLevel (DealEvaluator.response req)
  /\ DealEvaluatorPage.aiExplanation evaluation
     = DealEvaluator.aiExplanation (DealEvaluator.response req).
Proof.
  cbv zeta. rewrite from_api_received. repeat split.
Qed.

Lemma confidence_colours :
  DealEvaluatorPage.getConfidenceColor (of_Z 90) = "text-green-600"%string
  /\ DealEvaluatorPage.getConfidenceColor (of_Z 85) = "text-green-600"%string
  /\ DealEvaluatorPage.getConfidenceColor (of_Z 80) = "text-blue-600"%string
  /\ DealEvaluatorPage.getConfidenceColor (of_Z 75) = "text-blue-600"%string
  /\ DealEvaluatorPage.getConfidenceColor (of_Z 70) = "text-blue-600"%string.
Proof. repeat split. Qed.

(** The score and the level of the chain as functions of its tests. *)
Lemma verdict64_score (ratio : number) :
  DealEvaluator.v_dealScore (DealEvaluator64.verdict ratio)
  = if le ratio (Binary64.lit 0.95) then DealEvaluator.Buy
    else if le ratio (Binary64.lit 1.15) then DealEvaluator.Hold
    else DealEvaluator.Avoid.
Proof.
  destruct (verdict64_tiers ratio) as (T1 & T2 & T3 & T4 & T5).
  destruct bounds64 as (c1 & c2 & c3 & c4 & E1 & E2 & E3 & E4 & H12 & H23 & H34).
  rewrite E1, E2, E3, E4 in *.
  pose proof (le_below ratio c1 c2 H12) as M1.
  pose proof (le_below ratio c2 c3 H23) as M2.
  pose proof (le_below ratio c3 c4 H34) as M3.
  destruct (le ratio (Fin c1)), (le ratio (Fin c2)), (le ratio (Fin c3)),
    (le ratio (Fin c4));
    try (specialize (M1 eq_refl); discriminate M1);
    try (specialize (M2 eq_refl); discriminate M2);
    try (specialize (M3 eq_refl); discriminate M3).
  - exact (proj1 (T1 eq_refl)).
  - exact (proj1 (T2 eq_refl eq_refl)).
  - exact (proj1 (T3 eq_refl eq_refl)).
  - exact (proj1 (T4 eq_refl eq_refl)).
  - exact (proj1 (T5 eq_refl)).
Qed.

Lemma verdict64_level (ratio : number) :
  DealEvaluator.v_confidenceLevel (DealEvaluator64.verdict ratio)
  = if le ratio (Binary64.lit 0.85) then of_Z 90
    else if le ratio (Binary64.lit 0.95) then of_Z 80
    else if le ratio (Binary64.lit 1.05) then of_Z 75
    else if le ratio (Binary64.lit 1.15) then of_Z 70
    else of_Z 85.
Proof.
  unfold DealEvaluator64.verdict.
  destruct (le ratio (Binary64.lit 0.85)); [reflexivity |].
  destruct (le ratio (Binary64.lit 0.95)); [reflexivity |].
  destruct (le ratio (Binary64.lit 1.05)); [reflexivity |].
  destruct (le ratio (Binary64.lit 1.15)); reflexivity.
Qed.

Lemma verdict64_range (ratio : number) :
  In (DealEvaluator.v_dealScore (DealEvaluator64.verdict ratio),
      DealEvaluator.v_confidenceLevel (DealEvaluator64.verdict ratio))
     Ranking.verdicts
  /\ DealEvaluator.v_aiExplanation (DealEvaluator64.verdict ratio) <> ""%string.
Proof.
  unfold DealEvaluator64.verdict, Ranking.verdicts.
  destruct (le ratio (Binary64.lit 0.85));
    [| destruct (le ratio (Binary64.lit 0.95));
       [| destruct (le ratio (Binary64.lit 1.05));
          [| destruct (le ratio (Binary64.lit 1.15))]]];
    cbn [DealEvaluator.v_dealScore DealEvaluator.v_confidenceLevel
         DealEvaluator.v_aiExplanation];
    (split; [cbn [In]; tauto | apply append_not_empty; discriminate]).
Qed.

(** What the page stores of a reply computed in binary64. *)
Lemma from_api_received64 (req : DealEvaluator.Request) :
  DealEvaluatorPage.from_api
    (DealEvaluatorPage.received (DealEvaluator64.response req))
  = {| DealEvaluatorPage.dealScore :=
         DealEvaluator.dealScore (DealEvaluator64.response req);
       DealEvaluatorPage.confidenceLevel :=
         DealEvaluator.confidenceLevel (DealEvaluator64.response req);
       DealEvaluatorPage.aiExplanation :=
         DealEvaluator.aiExplanation (DealEvaluator64.response req) |}.
Proof.
  rewrite response64_of_ratio.
  destruct (verdict64_range (DealEvaluator64.priceRatio req)) as (Hin & Hne).
  cbv zeta.
  unfold DealEvaluatorPage.from_api, DealEvaluatorPage.received.
  cbn [DealEvaluatorPage.data_dealScore DealEvaluatorPage.data_confidenceLevel
       DealEvaluatorPage.data_aiExplanation DealEvaluator.dealScore
       DealEvaluator.confidenceLevel DealEvaluator.aiExplanation or_object].
  rewrite (proj1 (level_kept _ _ Hin)), (or_string_keeps _ _ Hne).
  reflexivity.
Qed.

(** X7.  The colours of the DealEvaluator page for a reply of the server.
    The confidence is never shown in the yellow of a low confidence,
    whatever the request.  For a positive price and market value, with the
    ratio and the bounds as the handler computes them in binary64, the score
    is green when the ratio is at most 0.95, yellow when it is above that
    and at most 1.15, and red otherwise; the confidence is green when the
    ratio is at most 0.85 or not at most 1.15, and blue in between. *)
Theorem deal_page_colours :
  (forall req : DealEvaluator.Request,
      DealEvaluatorPage.getConfidenceColor
        (DealEvaluatorPage.confidenceLevel
           (DealEvaluatorPage.from_api
              (DealEvaluatorPage.received (DealEvaluator.response req))))
      <> "text-yellow-600"%string)
  /\ (forall (req : DealEvaluator.Request) (p m : Q),
         Spec.PositiveDeal req p m ->
         let ratio := DealEvaluator64.priceRatio req in
         let evaluation :=
           DealEvaluatorPage.from_api
             (DealEvaluatorPage.received (DealEvaluator64.response req)) in
         let score_colour :=
           DealEvaluatorPage.getDealScoreColor
             (DealEvaluatorPage.dealScore evaluation) in
         let confidence_colour :=
           DealEvaluatorPage.getConfidenceColor
             (DealEvaluatorPage.confidenceLevel evaluation) in
         (score_colour = "text-green-600"%string
          <-> le ratio (Binary64.lit 0.95) = true)
         /\ (score_colour = "text-yellow-600"%string
             <-> le ratio (Binary64.lit 0.95) = false
                 /\ le ratio (Binary64.lit 1.15) = true)
         /\ (score_colour = "text-red-600"%string
             <-> le ratio (Binary64.lit 1.15) = false)
         /\ (confidence_colour = "text-green-600"%string
             <-> le ratio (Binary64.lit 0.85) = true
                 \/ le ratio (Binary64.lit 1.15) = false)
         /\ (confidence_colour = "text-blue-600"%string
             <-> le ratio (Binary64.lit 0.85) = false
                 /\ le ratio (Binary64.lit 1.15) = true)
         /\ confidence_colour <> "text-yellow-600"%string).
Proof.
  destruct confidence_colours as (C90 & C85 & C80 & C75 & C70).
  split.
  - intros req. rewrite from_api_received.
    cbn [DealEvaluatorPage.confidenceLevel].
    destruct (deal_reply_cases req) as [E | [E | [E | [E | E]]]];
      rewrite E; congruence.
  - intros req p m _ ratio evaluation score_colour confidence_colour.
    subst score_colour confidence_colour evaluation.
    rewrite from_api_received64.
    cbn [DealEvaluatorPage.dealScore DealEvaluatorPage.confidenceLevel].
    rewrite response64_of_ratio. fold ratio.
    cbn [DealEvaluator.dealScore DealEvaluator.confidenceLevel].
    rewrite verdict64_score, verdict64_level.
    destruct bounds64
      as (c1 & c2 & c3 & c4 & E1 & E2 & E3 & E4 & H12 & H23 & H34).
    rewrite E1, E2, E3, E4.
    pose proof (le_below ratio c1 c2 H12) as M1.
    pose proof (le_below ratio c2 c3 H23) as M2.
    pose proof (le_below ratio c3 c4 H34) as M3.
    destruct (le ratio (Fin c1)), (le ratio (Fin c2)), (le ratio (Fin c3)),
      (le ratio (Fin c4));
      try (specialize (M1 eq_refl); discriminate M1);
      try (specialize (M2 eq_refl); discriminate M2);
      try (specialize (M3 eq_refl); discriminate M3);
      cbn [DealEvaluatorPage.getDealScoreColor];
      rewrite ?C90, ?C85, ?C80, ?C75, ?C70;
      repeat match goal with
             | |- _ /\ _ => split
             | |- _ <-> _ => split; intros
             | |- _ <> _ => intros ?
             | H : _ /\ _ |- _ => destruct H
             | H : _ \/ _ |- _ => destruct H
             end;
      try reflexivity; try congruence; try (left; reflexivity);
      try (right; reflexivity).
Qed.

Lemma positive_overpriced : Spec.PositiveDeal Cases.overpriced 500000 400000.
Proof. repeat split. Qed.

Lemma deal_page_colours_witness :
  Spec.PositiveDeal Cases.overpriced 500000 400000
  /\ le (DealEvaluator64.priceRatio Cases.overpriced) (Binary64.lit 1.15)
     = false
  /\ DealEvaluatorPage.getDealScoreColor
       (DealEvaluatorPage.dealScore
          (DealEvaluatorPage.from_api
             (DealEvaluatorPage.received
                (DealEvaluator64.response Cases.overpriced))))
     = "text-red-600"%string
  /\ DealEvaluatorPage.getConfidenceColor
       (DealEvaluatorPage.confidenceLevel
          (DealEvaluatorPage.from_api
             (DealEvaluatorPage.received
                (DealEvaluator64.response Cases.overpriced))))
     = "text-green-600"%string.
Proof.
  assert (Hr : le (DealEvaluator64.priceRatio Cases.overpriced)
                  (Binary64.lit 1.15) = false) by (vm_compute; reflexivity).
  split; [exact positive_overpriced |]. split; [exact Hr |].
  destruct (proj2 deal_page_colours Cases.overpriced 500000 400000
              positive_overpriced) as (_ & _ & Hred & Hgreen & _).
  split; [exact (proj2 Hred Hr) | exact (proj2 Hgreen (or_intror Hr))].
Defined.

(** X8.  The score never improves as the ratio grows: of two requests with
    positive prices and market values, the one whose ratio is computed
    higher is scored the same or worse, in the order Buy, Hold, Avoid. *)
Theorem deal_score_monotone (req1 req2 : DealEvaluator.Request)
    (p1 m1 p2 m2 : Q) :
  Spec.PositiveDeal req1 p1 m1 -> Spec.PositiveDeal req2 p2 m2 ->
  le (DealEvaluator64.priceRatio req1) (DealEvaluator64.priceRatio req2) = true ->
  (Ranking.severity (DealEvaluator.dealScore (DealEvaluator64.response req1))
   <= Ranking.severity
        (DealEvaluator.dealScore (DealEvaluator64.response req2)))%Z.
Proof.
  intros _ _ H.
  rewrite !response64_of_ratio.
  cbn [DealEvaluator.dealScore]. rewrite !verdict64_score.
  set (r1 := DealEvaluator64.priceRatio req1) in *.
  set (r2 := DealEvaluator64.priceRatio req2) in *.
  pose proof (le_trans r1 r2 (Binary64.lit 0.95) H) as M1.
  pose proof (le_trans r1 r2 (Binary64.lit 1.15) H) as M2.
  destruct (le r2 (Binary64.lit 0.95)); [rewrite (M1 eq_refl); reflexivity |].
  destruct (le r2 (Binary64.lit 1.15)).
  - rewrite (M2 eq_refl). destruct (le r1 (Binary64.lit 0.95)); cbn; lia.
  - destruct (le r1 (Binary64.lit 0.95)), (le r1 (Binary64.lit 1.15)); cbn; lia.
Qed.

Lemma deal_score_monotone_witness :
  Spec.PositiveDeal Examples.deal 350000 400000
  /\ Spec.PositiveDeal Cases.overpriced 500000 400000
  /\ le (DealEvaluator64.priceRatio Examples.deal)
        (DealEvaluator64.priceRatio Cases.overpriced) = true
  /\ (Ranking.severity
        (DealEvaluator.dealScore (DealEvaluator64.response Examples.deal))
      <= Ranking.severity
           (DealEvaluator.dealScore
              (DealEvaluator64.response Cases.overpriced)))%Z.
Proof.
  assert (Hr : le (DealEvaluator64.priceRatio Examples.deal)
                  (DealEvaluator64.priceRatio Cases.overpriced) = true)
    by (vm_compute; reflexivity).
  split; [exact positive_deal |]. split; [exact positive_overpriced |].
  split; [exact Hr |].
  exact (deal_score_monotone Examples.deal Cases.overpriced
           350000 400000 500000 400000 positive_deal positive_overpriced Hr).
Defined.

(** ** More on the price estimator *)




Lemma valid_land : Spec.Valid Cases.land Spec.Land 2 1.5 150.
Proof.
  repeat split; try reflexivity; try lia; unfold Qle; simpl; lia.
Qed.

Lemma valid_small_house : Spec.Valid Cases.small_house Spec.House 2 1.5 150.
Proof.
  repeat split; try reflexivity; try lia; unfold Qle; simpl; lia.
Qed.


(** ** The confidence in binary64 *)

Lemma le_Fin_true (a b : Q) : a <= b -> le (Fin a) (Fin b) = true.
Proof. intros H. now apply Qle_bool_iff. Qed.

(** The sum the confidence is taken from, for fields that are read [b],
    [ba] and [a]. *)
Lemma confidence64_sum (req : PriceEstimator.Request) :
  PriceEstimator.confidence (PriceEstimator64.response req)
  = Math_round
      (Math_min (of_Z 95)
         (Binary64.add
            (Binary64.add
               (Binary64.add (of_Z 70)
                  (Binary64.mul (Binary64.read (PriceEstimator.bedrooms req))
                     (of_Z 2)))
               (Binary64.mul (Binary64.read (PriceEstimator.bathrooms req))
                  (of_Z 3)))
            (Binary64.div (Binary64.read (PriceEstimator.area req))
               (of_Z 100)))).
Proof. reflexivity. Qed.

Lemma confidence64_sum_monotone (b1 ba1 a1 b2 ba2 a2 : number) :
  le (Fin 0) b1 = true -> le b1 b2 = true ->
  le (Fin 0) ba1 = true -> le ba1 ba2 = true ->
  le (Fin 0) a1 = true -> le a1 a2 = true ->
  let sum b ba a :=
    Binary64.add
      (Binary64.add (Binary64.add (of_Z 70) (Binary64.mul b (of_Z 2)))
         (Binary64.mul ba (of_Z 3)))
      (Binary64.div a (of_Z 100)) in
  le (Fin 0) (sum b1 ba1 a1) = true
  /\ le (sum b1 ba1 a1) (sum b2 ba2 a2) = true.
Proof.
  intros Pb Hb Pba Hba Pa Ha sum. subst sum. cbv beta.
  assert (P70 : le (Fin 0) (of_Z 70) = true) by reflexivity.
  assert (R70 : le (of_Z 70) (of_Z 70) = true) by reflexivity.
  assert (H2 : 0 < inject_Z 2) by reflexivity.
  assert (H3 : 0 < inject_Z 3) by reflexivity.
  assert (H100 : 0 < inject_Z 100) by reflexivity.
  unfold of_Z at 2 3 4 6 7 8 10 11 12.
  split.
  - repeat (apply add_nonneg || apply mul_nonneg || apply div_nonneg);
      assumption.
  - repeat (apply add_monotone || apply add_nonneg);
      try (apply mul_monotone; try assumption; lra);
      try (apply mul_nonneg; assumption);
      try (apply div_monotone; assumption);
      try (apply div_nonneg; assumption); assumption.
Qed.

Section TwoRequests.

Variables (req1 req2 : PriceEstimator.Request) (t1 t2 : Spec.PropertyType).
Variables (bedrooms1 bathrooms1 area1 bedrooms2 bathrooms2 area2 : Q).
Hypothesis numbers1 : Ranking.Numbers req1 t1 bedrooms1 bathrooms1 area1.
Hypothesis numbers2 : Ranking.Numbers req2 t2 bedrooms2 bathrooms2 area2.

Lemma confidence64_order :
  0 <= bedrooms1 -> bedrooms1 <= bedrooms2 ->
  0 <= bathrooms1 -> bathrooms1 <= bathrooms2 ->
  0 <= area1 -> area1 <= area2 ->
  le (PriceEstimator.confidence (PriceEstimator64.response req1))
     (PriceEstimator.confidence (PriceEstimator64.response req2)) = true.
Proof.
  intros Pb Hb Pba Hba Pa Ha.
  destruct numbers1 as (_ & Eb1 & Eba1 & Ea1).
  destruct numbers2 as (_ & Eb2 & Eba2 & Ea2).
  rewrite !confidence64_sum, Eb1, Eba1, Ea1, Eb2, Eba2, Ea2.
  apply Math_round_monotone.
  unfold Binary64.read.
  destruct (confidence64_sum_monotone
              (Binary64.round (Fin bedrooms1)) (Binary64.round (Fin bathrooms1))
              (Binary64.round (Fin area1))
              (Binary64.round (Fin bedrooms2)) (Binary64.round (Fin bathrooms2))
              (Binary64.round (Fin area2))) as (P & M);
    try (apply round_nonneg, le_Fin_true; assumption);
    try (apply round_monotone, le_Fin_true; assumption).
  unfold of_Z at 1 3. now apply Math_min_monotone.
Qed.

End TwoRequests.

Lemma Math_min_reached (c : Q) (x : number) :
  le (Fin c) x = true -> Math_min (Fin c) x = Fin c.
Proof.
  destruct x as [a | | |]; cbn [le Math_min]; try congruence.
  intros H. now rewrite H.
Qed.

(** X12.  An area of 2500 sq.ft or more caps the confidence: computed in
    binary64, it is 95 whatever the bedrooms and the bathrooms, as long as
    they are not negative. *)
Theorem confidence_cap (req : PriceEstimator.Request)
    (t : Spec.PropertyType) (bedrooms bathrooms area : Q) :
  Ranking.Numbers req t bedrooms bathrooms area ->
  0 <= bedrooms -> 0 <= bathrooms -> 2500 <= area ->
  PriceEstimator.confidence (PriceEstimator64.response req) = of_Z 95.
Proof.
  intros (_ & Eb & Eba & Ea) Hb Hba Ha.
  rewrite confidence64_sum, Eb, Eba, Ea. unfold Binary64.read.
  destruct (confidence64_sum_monotone
              (Binary64.round (Fin 0)) (Binary64.round (Fin 0))
              (Binary64.round (Fin 2500))
              (Binary64.round (Fin bedrooms)) (Binary64.round (Fin bathrooms))
              (Binary64.round (Fin area))) as (_ & M);
    try reflexivity;
    try (apply round_monotone, le_Fin_true; assumption).
  cbv zeta in M.
  assert (E : Binary64.add
                (Binary64.add
                   (Binary64.add (of_Z 70)
                      (Binary64.mul (Binary64.round (Fin 0)) (of_Z 2)))
                   (Binary64.mul (Binary64.round (Fin 0)) (of_Z 3)))
                (Binary64.div (Binary64.round (Fin 2500)) (of_Z 100))
              = Fin 95) by (vm_compute; reflexivity).
  rewrite E in M.
  unfold of_Z at 1. change (inject_Z 95) with 95.
  rewrite (Math_min_reached 95 _ M). reflexivity.
Qed.

Lemma confidence_cap_witness :
  Ranking.Numbers Examples.house Spec.House 4 3 2500
  /\ 0 <= 4 /\ 0 <= 3 /\ 2500 <= 2500
  /\ PriceEstimator.confidence (PriceEstimator64.response Examples.house)
     = of_Z 95.
Proof.
  assert (Hn : Ranking.Numbers Examples.house Spec.House 4 3 2500)
    by (repeat split).
  assert (H1 : 0 <= 4) by (vm_compute; discriminate).
  assert (H2 : 0 <= 3) by (vm_compute; discriminate).
  assert (H3 : 2500 <= 2500) by (vm_compute; discriminate).
  split; [exact Hn |]. split; [exact H1 |]. split; [exact H2 |].
  split; [exact H3 |].
  exact (confidence_cap Examples.house Spec.House 4 3 2500 Hn H1 H2 H3).
Defined.

Lemma numbers_fractional :
  Ranking.Numbers Cases.fractional Spec.Apartment 2.5 1.5 1500.5.
Proof. repeat split. Qed.

(** X13.  Computed in binary64, the confidence does not decrease when
    bedrooms, bathrooms or area increase, for fields that are not negative,
    whole or not, and whatever the property types of the two requests. *)
Theorem confidence_monotone (req1 req2 : PriceEstimator.Request)
    (t1 t2 : Spec.PropertyType)
    (bedrooms1 bathrooms1 area1 bedrooms2 bathrooms2 area2 : Q) :
  Ranking.Numbers req1 t1 bedrooms1 bathrooms1 area1 ->
  Ranking.Numbers req2 t2 bedrooms2 bathrooms2 area2 ->
  0 <= bedrooms1 -> bedrooms1 <= bedrooms2 ->
  0 <= bathrooms1 -> bathrooms1 <= bathrooms2 ->
  0 <= area1 -> area1 <= area2 ->
  le (PriceEstimator.confidence (PriceEstimator64.response req1))
     (PriceEstimator.confidence (PriceEstimator64.response req2)) = true.
Proof.
  intros H1 H2. exact (confidence64_order req1 req2 t1 t2 _ _ _ _ _ _ H1 H2).
Qed.

Lemma confidence_monotone_witness :
  Ranking.Numbers Examples.apartment Spec.Apartment 2 1.5 150
  /\ Ranking.Numbers Cases.fractional Spec.Apartment 2.5 1.5 1500.5
  /\ 0 <= 2 /\ 2 <= 2.5 /\ 0 <= 1.5 /\ 1.5 <= 1.5 /\ 0 <= 150 /\ 150 <= 1500.5
  /\ le (PriceEstimator.confidence
           (PriceEstimator64.response Examples.apartment))
        (PriceEstimator.confidence
           (PriceEstimator64.response Cases.fractional)) = true.
Proof.
  assert (Hn : Ranking.Numbers Examples.apartment Spec.Apartment 2 1.5 150)
    by (repeat split).
  assert (B0 : 0 <= 2) by (vm_compute; discriminate).
  assert (B1 : 2 <= 2.5) by (vm_compute; discriminate).
  assert (T0 : 0 <= 1.5) by (vm_compute; discriminate).
  assert (T1 : 1.5 <= 1.5) by (vm_compute; discriminate).
  assert (A0 : 0 <= 150) by (vm_compute; discriminate).
  assert (A1 : 150 <= 1500.5) by (vm_compute; discriminate).
  split; [exact Hn |]. split; [exact numbers_fractional |].
  split; [exact B0 |]. split; [exact B1 |].
  split; [exact T0 |]. split; [exact T1 |].
  split; [exact A0 |]. split; [exact A1 |].
  exact (confidence_monotone Examples.apartment Cases.fractional
           Spec.Apartment Spec.Apartment 2 1.5 150 2.5 1.5 1500.5
           Hn numbers_fractional B0 B1 T0 T1 A0 A1).
Defined.

(** ** The price in binary64 *)

(** The multipliers of the table are positive and in the order of the
    types: Land, Apartment, House. *)
Lemma typeMultiplier64_order :
  exists land apartment house : Q,
    property PriceEstimator64.typeMultiplier (Spec.name Spec.Land)
    = Some (Fin land)
    /\ property PriceEstimator64.typeMultiplier (Spec.name Spec.Apartment)
       = Some (Fin apartment)
    /\ property PriceEstimator64.typeMultiplier (Spec.name Spec.House)
       = Some (Fin house)
    /\ 0 < land /\ land <= apartment /\ apartment <= house.
Proof.
  do 3 eexists.
  repeat match goal with |- _ /\ _ => split end;
    try (vm_compute; reflexivity); vm_compute; discriminate.
Qed.

Section ValidPrice.

Variables (req : PriceEstimator.Request) (t : Spec.PropertyType).
Variables (bedrooms : Z) (bathrooms : Q) (area : Z).
Hypothesis valid : Spec.Valid req t bedrooms bathrooms area.

(** The price of a valid request: the whole components are exact, the
    bathrooms are read and their component, the sums and the product
    round. *)
Lemma price64_sum :
  PriceEstimator.estimatedPrice (PriceEstimator64.response req)
  = Math_round
      (Binary64.mul
         (Binary64.add
            (Binary64.add (of_Z (250000 + bedrooms * 25000))
               (Binary64.mul (Binary64.round (Fin bathrooms)) (of_Z 15000)))
            (of_Z (area * 100)))
         (ToNumber (property PriceEstimator64.typeMultiplier (Spec.name t)))).
Proof.
  destruct valid as (Ht & Hb & Hbr & Hba & Hbar & Ha & Har).
  unfold PriceEstimator64.response.
  cbn [PriceEstimator.estimatedPrice].
  rewrite Ht, Hb, Hba, Ha.
  rewrite !read_whole by lia.
  rewrite !parseInt_whole64 by lia.
  rewrite !mul_whole by lia.
  rewrite add_whole by lia.
  reflexivity.
Qed.

Lemma bathrooms_read :
  le (Fin 0) (Binary64.round (Fin bathrooms)) = true.
Proof.
  destruct valid as (_ & _ & _ & _ & (H0 & _) & _).
  apply round_nonneg, le_Fin_true. exact H0.
Qed.

End ValidPrice.

Lemma price64_order (req1 req2 : PriceEstimator.Request)
    (t1 t2 : Spec.PropertyType) (c1 c2 : Q)
    (bedrooms1 : Z) (bathrooms1 : Q) (area1 : Z)
    (bedrooms2 : Z) (bathrooms2 : Q) (area2 : Z) :
  Spec.Valid req1 t1 bedrooms1 bathrooms1 area1 ->
  Spec.Valid req2 t2 bedrooms2 bathrooms2 area2 ->
  property PriceEstimator64.typeMultiplier (Spec.name t1) = Some (Fin c1) ->
  property PriceEstimator64.typeMultiplier (Spec.name t2) = Some (Fin c2) ->
  0 < c1 -> c1 <= c2 ->
  (bedrooms1 <= bedrooms2)%Z -> bathrooms1 <= bathrooms2 ->
  (area1 <= area2)%Z ->
  le (PriceEstimator.estimatedPrice (PriceEstimator64.response req1))
     (PriceEstimator.estimatedPrice (PriceEstimator64.response req2)) = true.
Proof.
  intros Hv1 Hv2 E1 E2 Hc H12 Hb Hba Ha.
  rewrite (price64_sum _ _ _ _ _ Hv1), (price64_sum _ _ _ _ _ Hv2), E1, E2.
  cbn [ToNumber].
  pose proof (bathrooms_read _ _ _ _ _ Hv1) as P1.
  destruct Hv1 as (_ & _ & Hbr1 & _ & _ & _ & Har1).
  destruct Hv2 as (_ & _ & Hbr2 & _ & _ & _ & Har2).
  assert (H15 : 0 < inject_Z 15000) by reflexivity.
  apply Math_round_monotone.
  apply mul_monotone; [exact Hc | exact H12 | |].
  - apply add_nonneg; [apply add_nonneg |].
    + rewrite (le_whole 0). apply Z.leb_le. lia.
    + unfold of_Z. now apply mul_nonneg.
    + rewrite (le_whole 0). apply Z.leb_le. lia.
  - apply add_monotone.
    + apply add_nonneg.
      * rewrite (le_whole 0). apply Z.leb_le. lia.
      * unfold of_Z. now apply mul_nonneg.
    + rewrite (le_whole 0). apply Z.leb_le. lia.
    + apply add_monotone.
      * rewrite (le_whole 0). apply Z.leb_le. lia.
      * unfold of_Z. now apply mul_nonneg.
      * rewrite le_whole. apply Z.leb_le. lia.
      * unfold of_Z. apply mul_monotone; [exact H15 | lra | exact P1 |].
        apply round_monotone, le_Fin_true. exact Hba.
    + rewrite le_whole. apply Z.leb_le. lia.
Qed.

Lemma price64_same_type (req1 req2 : PriceEstimator.Request)
    (t : Spec.PropertyType)
    (bedrooms1 : Z) (bathrooms1 : Q) (area1 : Z)
    (bedrooms2 : Z) (bathrooms2 : Q) (area2 : Z) :
  Spec.Valid req1 t bedrooms1 bathrooms1 area1 ->
  Spec.Valid req2 t bedrooms2 bathrooms2 area2 ->
  (bedrooms1 <= bedrooms2)%Z -> bathrooms1 <= bathrooms2 ->
  (area1 <= area2)%Z ->
  le (PriceEstimator.estimatedPrice (PriceEstimator64.response req1))
     (PriceEstimator.estimatedPrice (PriceEstimator64.response req2)) = true.
Proof.
  intros Hv1 Hv2 Hb Hba Ha.
  destruct typeMultiplier64_order
    as (cl & ca & ch & El & Ea & Eh & Hl & Hla & Hah).
  destruct t;
    [apply (price64_order req1 req2 Spec.House Spec.House ch ch
              bedrooms1 bathrooms1 area1 bedrooms2 bathrooms2 area2)
    | apply (price64_order req1 req2 Spec.Apartment Spec.Apartment ca ca
               bedrooms1 bathrooms1 area1 bedrooms2 bathrooms2 area2)
    | apply (price64_order req1 req2 Spec.Land Spec.Land cl cl
               bedrooms1 bathrooms1 area1 bedrooms2 bathrooms2 area2)];
    try assumption; lra.
Qed.

(** X15.  Computed in binary64, the estimated price of a valid request does
    not decrease when bedrooms, bathrooms or area increase and the property
    type stays as it is; the bathrooms may be any number from 0 to 10. *)
Theorem price64_monotone (req1 req2 : PriceEstimator.Request)
    (t : Spec.PropertyType)
    (bedrooms1 : Z) (bathrooms1 : Q) (area1 : Z)
    (bedrooms2 : Z) (bathrooms2 : Q) (area2 : Z) :
  Spec.Valid req1 t bedrooms1 bathrooms1 area1 ->
  Spec.Valid req2 t bedrooms2 bathrooms2 area2 ->
  (bedrooms1 <= bedrooms2)%Z -> bathrooms1 <= bathrooms2 ->
  (area1 <= area2)%Z ->
  le (PriceEstimator.estimatedPrice (PriceEstimator64.response req1))
     (PriceEstimator.estimatedPrice (PriceEstimator64.response req2)) = true.
Proof. exact (price64_same_type req1 req2 t _ _ _ _ _ _). Qed.

Lemma price64_monotone_witness :
  Spec.Valid Examples.apartment Spec.Apartment 2 1.5 150
  /\ Spec.Valid Examples.larger_apartment Spec.Apartment 3 2 1200
  /\ (2 <= 3)%Z /\ 1.5 <= 2 /\ (150 <= 1200)%Z
  /\ le (PriceEstimator.estimatedPrice
           (PriceEstimator64.response Examples.apartment))
        (PriceEstimator.estimatedPrice
           (PriceEstimator64.response Examples.larger_apartment)) = true.
Proof.
  assert (Hb : (2 <= 3)%Z) by lia.
  assert (Hba : 1.5 <= 2) by (vm_compute; discriminate).
  assert (Ha : (150 <= 1200)%Z) by lia.
  split; [exact valid_apartment |]. split; [exact valid_larger_apartment |].
  split; [exact Hb |]. split; [exact Hba |]. split; [exact Ha |].
  exact (price64_monotone Examples.apartment Examples.larger_apartment
           Spec.Apartment 2%Z 1.5 150%Z 3%Z 2 1200%Z
           valid_apartment valid_larger_apartment Hb Hba Ha).
Defined.

(** A rounded number between two whole numbers is a whole number. *)
Lemma Math_round_between (x : number) (lo hi : Z) :
  le (of_Z lo) (Math_round x) = true -> le (Math_round x) (of_Z hi) = true ->
  exists z : Z, Math_round x = of_Z z /\ (lo <= z <= hi)%Z.
Proof.
  destruct x as [q | | |]; cbn [Math_round];
    try (unfold of_Z; cbn [le]; congruence).
  intros H1 H2. exists (Qfloor (q + 0.5)). split; [reflexivity |].
  rewrite le_whole in H1, H2. apply Z.leb_le in H1, H2. lia.
Qed.

(** X16.  Computed in binary64, the price of a valid request is a whole
    number between 208000 and 6780000. *)
Theorem price64_bounds (req : PriceEstimator.Request)
    (t : Spec.PropertyType) (bedrooms : Z) (bathrooms : Q) (area : Z) :
  Spec.Valid req t bedrooms bathrooms area ->
  exists price : Z,
    PriceEstimator.estimatedPrice (PriceEstimator64.response req) = of_Z price
    /\ (208000 <= price <= 6780000)%Z.
Proof.
  intros Hv.
  set (lowest := {| PriceEstimator.propertyType := Spec.name t;
                    PriceEstimator.bedrooms := of_Z 0;
                    PriceEstimator.bathrooms := Fin 0;
                    PriceEstimator.area := of_Z 100;
                    PriceEstimator.location := PriceEstimator.location req |}).
  set (highest := {| PriceEstimator.propertyType := Spec.name t;
                     PriceEstimator.bedrooms := of_Z 10;
                     PriceEstimator.bathrooms := Fin 10;
                     PriceEstimator.area := of_Z 50000;
                     PriceEstimator.location := PriceEstimator.location req |}).
  assert (Hlo : Spec.Valid lowest t 0 0 100).
  { repeat split; try reflexivity; try lia; unfold Qle; simpl; lia. }
  assert (Hhi : Spec.Valid highest t 10 10 50000).
  { repeat split; try reflexivity; try lia; unfold Qle; simpl; lia. }
  assert (H0 : Spec.Halves 0) by (exists 0%Z; reflexivity).
  assert (H10 : Spec.Halves 10) by (exists 20%Z; reflexivity).
  pose proof (estimatedPrice64_closed_form lowest t 0 0 100 Hlo H0) as El.
  pose proof (estimatedPrice64_closed_form highest t 10 10 50000 Hhi H10) as Eh.
  destruct Hv as (Ht & Hb & Hbr & Hba & Hbar & Ha & Har).
  assert (Hv : Spec.Valid req t bedrooms bathrooms area)
    by (repeat split; try assumption; tauto).
  pose proof (price64_same_type lowest req t 0 0 100 bedrooms bathrooms area
                Hlo Hv ltac:(lia) ltac:(tauto) ltac:(lia)) as M1.
  pose proof (price64_same_type req highest t bedrooms bathrooms area 10 10 50000
                Hv Hhi ltac:(lia) ltac:(tauto) ltac:(lia)) as M2.
  rewrite El in M1. rewrite Eh in M2.
  rewrite (price64_sum req t bedrooms bathrooms area Hv) in M1, M2 |- *.
  destruct (Math_round_between _ _ _ M1 M2) as (z & Ez & Hz).
  exists z. split; [exact Ez |].
  assert (Bl : (208000 <= Spec.estimatedPrice t (inject_Z 0) 0 (inject_Z 100))%Z)
    by (destruct t; vm_compute; discriminate).
  assert (Bh : (Spec.estimatedPrice t (inject_Z 10) 10 (inject_Z 50000)
                <= 6780000)%Z)
    by (destruct t; vm_compute; discriminate).
  lia.
Qed.

Lemma price64_bounds_witness :
  Spec.Valid Examples.house Spec.House 4 3 2500
  /\ exists price : Z,
       PriceEstimator.estimatedPrice (PriceEstimator64.response Examples.house)
       = of_Z price
       /\ (208000 <= price <= 6780000)%Z.
Proof.
  split; [exact valid_house |].
  exact (price64_bounds Examples.house Spec.House 4%Z 3 2500%Z valid_house).
Defined.

(** X17.  Computed in binary64, for the same valid bedrooms, bathrooms and
    area, land is never estimated above an apartment, nor an apartment
    above a house. *)
Theorem price64_by_type (land apartment house : PriceEstimator.Request)
    (bedrooms : Z) (bathrooms : Q) (area : Z) :
  Spec.Valid land Spec.Land bedrooms bathrooms area ->
  Spec.Valid apartment Spec.Apartment bedrooms bathrooms area ->
  Spec.Valid house Spec.House bedrooms bathrooms area ->
  le (PriceEstimator.estimatedPrice (PriceEstimator64.response land))
     (PriceEstimator.estimatedPrice (PriceEstimator64.response apartment))
  = true
  /\ le (PriceEstimator.estimatedPrice (PriceEstimator64.response apartment))
        (PriceEstimator.estimatedPrice (PriceEstimator64.response house))
     = true.
Proof.
  intros Hl Ha Hh.
  destruct typeMultiplier64_order
    as (cl & ca & ch & El & Ea & Eh & Hcl & Hla & Hah).
  split.
  - apply (price64_order land apartment Spec.Land Spec.Apartment cl ca
             bedrooms bathrooms area bedrooms bathrooms area);
      try assumption; lia || lra.
  - apply (price64_order apartment house Spec.Apartment Spec.House ca ch
             bedrooms bathrooms area bedrooms bathrooms area);
      try assumption; lia || lra.
Qed.

Lemma price64_by_type_witness :
  Spec.Valid Cases.land Spec.Land 2 1.5 150
  /\ Spec.Valid Examples.apartment Spec.Apartment 2 1.5 150
  /\ Spec.Valid Cases.small_house Spec.House 2 1.5 150
  /\ le (PriceEstimator.estimatedPrice (PriceEstimator64.response Cases.land))
        (PriceEstimator.estimatedPrice
           (PriceEstimator64.response Examples.apartment)) = true
  /\ le (PriceEstimator.estimatedPrice
           (PriceEstimator64.response Examples.apartment))
        (PriceEstimator.estimatedPrice
           (PriceEstimator64.response Cases.small_house)) = true.
Proof.
  split; [exact valid_land |]. split; [exact valid_apartment |].
  split; [exact valid_small_house |].
  exact (price64_by_type Cases.land Examples.apartment Cases.small_house
           2%Z 1.5 150%Z valid_land valid_apartment valid_small_house).
Defined.

(** X18.  On the requests of section 3, with bathrooms in steps of a half,
    the exact calculation and the binary64 one send the same reply, field
    for field. *)
Theorem handlers_agree (req : PriceEstimator.Request)
    (t : Spec.PropertyType) (bedrooms : Z) (bathrooms : Q) (area : Z) :
  Spec.Valid req t bedrooms bathrooms area -> Spec.Halves bathrooms ->
  PriceEstimator64.response req = PriceEstimator.response req.
Proof.
  intros Hv Hh.
  pose proof (estimatedPrice64_closed_form req t bedrooms bathrooms area Hv Hh)
    as P64.
  pose proof (estimatedPrice_closed_form req t bedrooms bathrooms area Hv) as P.
  pose proof (confidence64_closed_form req t bedrooms bathrooms area Hv Hh)
    as C64.
  pose proof (confidence_closed_form req t bedrooms bathrooms area Hv) as C.
  destruct (fields_read req t bedrooms bathrooms area Hv Hh)
    as (Rb & Ra & _).
  destruct Hv as (_ & Hb & Hbr & _ & _ & Ha & Har).
  unfold PriceEstimator64.response, PriceEstimator.response in *.
  cbn [PriceEstimator.estimatedPrice PriceEstimator.confidence] in P64, P, C64, C.
  cbv zeta. rewrite P64, P, C64, C, Rb, Ra, Hb, Ha.
  unfold Binary64.ToString. rewrite !decimal_whole by lia.
  reflexivity.
Qed.

Lemma handlers_agree_witness :
  Spec.Valid Examples.apartment Spec.Apartment 2 1.5 150
  /\ Spec.Halves 1.5
  /\ PriceEstimator64.response Examples.apartment
     = PriceEstimator.response Examples.apartment.
Proof.
  split; [exact valid_apartment |]. split; [exact halves_apartment |].
  exact (handlers_agree Examples.apartment Spec.Apartment 2%Z 1.5 150%Z
           valid_apartment halves_apartment).
Defined.

(** ** The deal evaluator in binary64, by the ratio of the amounts *)

(** For amounts that are binary64 numbers the computed ratio is the ratio of
    the amounts, rounded. *)
Lemma priceRatio64_rounded (req : DealEvaluator.Request) (p m : Q) :
  Spec.PositiveDeal req p m ->
  Binary64.representable p -> Binary64.representable m ->
  DealEvaluator64.priceRatio req = Binary64.round (Fin (Qred (Qred p / Qred m))).
Proof.
  intros (Hp & _ & Hm & Hm0) Rp Rm.
  unfold DealEvaluator64.priceRatio, Binary64.read.
  rewrite Hp, Hm. unfold Binary64.representable in Rp, Rm. rewrite Rp, Rm.
  unfold Binary64.div. rewrite div_Fin by (rewrite Qred_correct; lra).
  reflexivity.
Qed.

(** A ratio at or below a bound is computed at or below the bound as it is
    read, and a ratio at or above it at or above. *)
Lemma priceRatio64_order (req : DealEvaluator.Request) (p m bound : Q) :
  Spec.PositiveDeal req p m ->
  Binary64.representable p -> Binary64.representable m ->
  (p / m <= bound ->
   le (DealEvaluator64.priceRatio req) (Binary64.lit bound) = true)
  /\ (bound <= p / m ->
      le (Binary64.lit bound) (DealEvaluator64.priceRatio req) = true).
Proof.
  intros Hd Rp Rm. rewrite (priceRatio64_rounded req p m Hd Rp Rm).
  unfold Binary64.lit.
  split; intros H; apply round_monotone; cbn [le]; apply Qle_bool_iff;
    rewrite !Qred_correct; exact H.
Qed.

(** What is at or above a bound is not at or below a smaller one. *)
Lemma le_above (x : number) (a b : Q) :
  a < b -> le (Fin b) x = true -> le x (Fin a) = false.
Proof.
  intros H. destruct x as [c | | |]; cbn [le]; try congruence.
  intros Hx. apply Qle_bool_iff in Hx.
  destruct (Qle_bool c a) eqn:E; [| reflexivity].
  apply Qle_bool_iff in E. exfalso. lra.
Qed.

(** X19.  For amounts that are binary64 numbers, as whole amounts below
    [2^53] are, the ratio [propertyPrice / estimatedMarketValue] places the
    deal within one tier: a ratio at or below 0.85 gives (Buy, 90), a ratio
    that is one of the four bounds gives the tier of that bound, and a ratio
    between two bounds gives its tier of section 4.2 or the tier below it. *)
Theorem ratio_tiers (req : DealEvaluator.Request) (p m : Q) :
  Spec.PositiveDeal req p m ->
  Binary64.representable p -> Binary64.representable m ->
  let reply := DealEvaluator64.response req in
  (p / m <= 0.85 -> Spec.gives reply DealEvaluator.Buy 90)
  /\ (p / m == 0.95 -> Spec.gives reply DealEvaluator.Buy 80)
  /\ (p / m == 1.05 -> Spec.gives reply DealEvaluator.Hold 75)
  /\ (p / m == 1.15 -> Spec.gives reply DealEvaluator.Hold 70)
  /\ (0.85 < p / m -> p / m <= 0.95 ->
      Spec.gives reply DealEvaluator.Buy 90
      \/ Spec.gives reply DealEvaluator.Buy 80)
  /\ (0.95 < p / m -> p / m <= 1.05 ->
      Spec.gives reply DealEvaluator.Buy 80
      \/ Spec.gives reply DealEvaluator.Hold 75)
  /\ (1.05 < p / m -> p / m <= 1.15 ->
      Spec.gives reply DealEvaluator.Hold 75
      \/ Spec.gives reply DealEvaluator.Hold 70)
  /\ (1.15 < p / m ->
      Spec.gives reply DealEvaluator.Hold 70
      \/ Spec.gives reply DealEvaluator.Avoid 85).
Proof.
  intros Hd Rp Rm reply. subst reply. unfold Spec.gives.
  rewrite response64_of_ratio.
  cbn [DealEvaluator.dealScore DealEvaluator.confidenceLevel].
  set (ratio := DealEvaluator64.priceRatio req).
  destruct (verdict64_tiers ratio) as (T1 & T2 & T3 & T4 & T5).
  destruct (priceRatio64_order req p m 0.85 Hd Rp Rm) as [A1 B1].
  destruct (priceRatio64_order req p m 0.95 Hd Rp Rm) as [A2 B2].
  destruct (priceRatio64_order req p m 1.05 Hd Rp Rm) as [A3 B3].
  destruct (priceRatio64_order req p m 1.15 Hd Rp Rm) as [A4 B4].
  fold ratio in A1, B1, A2, B2, A3, B3, A4, B4.
  destruct bounds64 as (c1 & c2 & c3 & c4 & E1 & E2 & E3 & E4 & H12 & H23 & H34).
  rewrite E1 in T1, T2, A1, B1. rewrite E2 in T2, T3, A2, B2.
  rewrite E3 in T3, T4, A3, B3. rewrite E4 in T4, T5, A4, B4.
  pose proof (le_above ratio c1 c2 H12) as U1.
  pose proof (le_above ratio c2 c3 H23) as U2.
  pose proof (le_above ratio c3 c4 H34) as U3.
  split; [intros H; apply T1, A1, H |].
  split; [intros H; apply T2; [apply U1, B2 | apply A2]; lra |].
  split; [intros H; apply T3; [apply U2, B3 | apply A3]; lra |].
  split; [intros H; apply T4; [apply U3, B4 | apply A4]; lra |].
  split.
  { intros _ H. destruct (le ratio (Fin c1)) eqn:L.
    - left. now apply T1.
    - right. apply T2; [reflexivity | now apply A2]. }
  split.
  { intros H0 H. destruct (le ratio (Fin c2)) eqn:L.
    - left. apply T2; [apply U1, B2; lra | reflexivity].
    - right. apply T3; [reflexivity | now apply A3]. }
  split.
  { intros H0 H. destruct (le ratio (Fin c3)) eqn:L.
    - left. apply T3; [apply U2, B3; lra | reflexivity].
    - right. apply T4; [reflexivity | now apply A4]. }
  intros H0. destruct (le ratio (Fin c4)) eqn:L.
  - left. apply T4; [apply U3, B4; lra | reflexivity].
  - right. now apply T5.
Qed.

Lemma positive_whole_at_bound :
  Spec.PositiveDeal Cases.whole_at_bound 460000 400000.
Proof. repeat split. Qed.

Lemma ratio_tiers_witness :
  Spec.PositiveDeal Cases.whole_at_bound 460000 400000
  /\ Binary64.representable 460000 /\ Binary64.representable 400000
  /\ 460000 / 400000 == 1.15
  /\ Spec.gives (DealEvaluator64.response Cases.whole_at_bound)
       DealEvaluator.Hold 70.
Proof.
  assert (Rp : Binary64.representable 460000)
    by (apply (whole_representable 460000); lia).
  assert (Rm : Binary64.representable 400000)
    by (apply (whole_representable 400000); lia).
  assert (Hr : 460000 / 400000 == 1.15) by reflexivity.
  split; [exact positive_whole_at_bound |].
  split; [exact Rp |]. split; [exact Rm |]. split; [exact Hr |].
  destruct (ratio_tiers Cases.whole_at_bound 460000 400000
              positive_whole_at_bound Rp Rm) as (_ & _ & _ & Hb & _).
  exact (Hb Hr).
Defined.
